(** * Typed REST resource clients of the edgegrid SDK: validation,
      dispatch, status classification and error mapping.

    The operations of [pkg/edgeworkers], [pkg/gtm], [pkg/cloudlets] and
    [pkg/papi] are embedded as state-passing functions over an explicit
    store holding the client struct, the allocated [*Error] objects and the
    log of calls made to [Session.Exec].  What the Go standard library and
    the packages outside the sources do ([net/url], [net/http],
    [encoding/json], the session, the error mappers of the other packages)
    enters through the fields of type classes, one for the standard library
    and one for each package. *)

From stdpp Require Import gmap strings list fin_maps pretty.
From Stdlib Require Import ZArith Lia.

Set Warnings "-register-all".

Open Scope Z_scope.
Open Scope string_scope.

(** ** Go errors *)

(** The values created by [errors.New] in the sources.  Each is a distinct
    pointer, so two of them are equal only when they are the same variable,
    whatever their text. *)
Inductive sentinel : Type :=
| gtm_ErrBadRequest
| gtm_ErrNotFound
| edgeworkers_ErrStructValidation
| ErrListDeactivations
| ErrDeactivateVersion
| ErrGetDeactivation
| cloudlets_ErrStructValidation
| ErrGetPolicyProperties
| ErrDeletePolicyProperty
| papi_ErrStructValidation
| session_ErrNotFound
| tools_ErrInvalidLocation
| datastream_ErrStructValidation
| networklists_ErrStructValidation
| cps_ErrStructValidation.

#[global] Instance sentinel_eq_dec : EqDecision sentinel.
Proof. solve_decision. Defined.

(** A [*Error] of package gtm is an index in the store of allocated errors. *)
Definition ptr := nat.

(** An [error] interface value that is not nil (nil is [None] at the use
    sites).  [wrapError] and [fmtError] are what [fmt.Errorf] returns with and
    without a [%w] verb; [validation_Errors] and [validation_ErrorObject] are
    the errors of ozzo-validation; [foreignError] is an error made outside
    the sources (transport, URL syntax, JSON syntax, another package's
    mapper), known by its text only. *)
Inductive error : Type :=
| errorString (s : sentinel)
| wrapError (msg : string) (err : error)
| fmtError (msg : string)
| apiError (p : ptr)
| validation_ErrorObject (code message : string)
| validation_Errors (es : gmap string error)
| foreignError (msg : string).

(** Go's [(T, error)] results of the library calls that return no partial
    value on failure. *)
Inductive result (A : Type) : Type :=
| Ok (a : A)
| Err (e : error).
Arguments Ok {A} a.
Arguments Err {A} e.

(** ** Package gtm: the [Error] struct and the store of its objects *)

(** [gtm.Error] (errors.go).  [StatusCode] carries the tag [json:"-"]: it is
    neither read from nor written to JSON. *)
Record Error : Type := mkError {
  Type_ : string;
  Title : string;
  Detail : string;
  Instance_ : string;
  BehaviorName : string;
  ErrorLocation : string;
  StatusCode : Z
}.

#[global] Instance Error_eq_dec : EqDecision Error.
Proof. solve_decision. Defined.

(** Go's zero value of a type ([var e Error]). *)
Class Zero (A : Type) := zero : A.
#[global] Instance Error_zero : Zero Error := mkError "" "" "" "" "" "" 0.
#[global] Instance unit_zero : Zero unit := tt.
#[global] Instance option_zero {A} : Zero (option A) := None.
#[global] Instance list_zero {A} : Zero (list A) := [].
#[global] Instance string_zero : Zero string := "".
#[global] Instance Z_zero : Zero Z := 0.
#[global] Instance bool_zero : Zero bool := false.

(** [json.Unmarshal(data, &out)] on a target of type [T]: the target as the
    decoder leaves it, and the decoding error, if any.  The decoder works by
    reflection on the type of the target; what it does on each type enters
    here. *)
Class JSON (T : Type) := json_Unmarshal_into : string -> T -> T * option error.
(** A nil target: nothing to decode into. *)
#[global] Instance unit_JSON : JSON unit := fun _ u => (u, None).

(** The allocated [Error] objects; [&e] of a fresh [e] is the next index.
    Every pointer the code hands out is allocated, so [deref] never meets its
    default on them. *)
Definition heap := list Error.
Definition deref (h : heap) (p : ptr) : Error := nth p h zero.
Definition alloc (h : heap) (e : Error) : ptr * heap := (length h, (h ++ [e])%list).

(** ** HTTP values *)

(** A [context.Context] is an opaque token: what it does (deadline,
    cancellation, headers) shows only in the answers of the collaborators. *)
Definition Context := nat.

(** [http.Header]; [Set] replaces the values of a key.  ([net/http] also
    puts the key in canonical letter case, which nothing here observes.) *)
Definition Header_Set (h : gmap string (list string)) (key value : string)
  : gmap string (list string) := <[key := [value]]> h.

(** A [*http.Request] as built by [http.NewRequestWithContext]: the method,
    the URL text it was built from, its header and its context. *)
Record Request : Type := mkRequest {
  Method : string;
  URL : string;
  Header : gmap string (list string);
  Ctx : Context
}.

(** A [*http.Response]: [Body] is what [ioutil.ReadAll] obtains from it. *)
Record Response : Type := mkResponse {
  Resp_StatusCode : Z;
  Body : result string
}.

Definition http_MethodGet := "GET".
Definition http_MethodPost := "POST".
Definition http_MethodPut := "PUT".
Definition http_MethodDelete := "DELETE".
Definition http_StatusOK := 200.
Definition http_StatusCreated := 201.
Definition http_StatusNoContent := 204.
Definition http_StatusNotFound := 404.

(** ** What the sources call and do not define *)

(** The Go standard library and the two error variables of other packages
    whose text the sources use without showing it. *)
Class Platform : Type := {
  (** text of [session.ErrNotFound] and of [tools.ErrInvalidLocation] *)
  session_ErrNotFound_text : string;
  tools_ErrInvalidLocation_text : string;
  (** [json.MarshalIndent(e, "", "\t")] on an [*Error]: the JSON text
      ([inl]) or the text of the marshalling error ([inr]) *)
  json_MarshalIndent : Error -> string + string;
  (** [json.Unmarshal(body, &e)]: the struct as the decoder leaves it and
      the decoding error, if any *)
  json_Unmarshal : string -> Error -> Error * option error;
  (** [net/url]: [url.URL], [url.Values] and the calls made on them *)
  url_URL : Type;
  url_Values : Type;
  url_Parse : string -> result url_URL;
  URL_Query : url_URL -> url_Values;
  Values_Add : url_Values -> string -> string -> url_Values;
  Values_Set : url_Values -> string -> string -> url_Values;
  Values_Encode : url_Values -> string;
  URL_set_RawQuery : url_URL -> string -> url_URL;
  URL_String : url_URL -> string;
  (** the error of [http.NewRequestWithContext], if it has one (nil context,
      URL that does not parse) *)
  http_NewRequest_error : Context -> string -> string -> option error
}.

(** [http.NewRequestWithContext(ctx, method, url, nil)]: the request pointer
    (nil is [None]) and the error. *)
Definition http_NewRequestWithContext `{Platform}
    (ctx : Context) (method url : string) : option Request * option error :=
  match http_NewRequest_error ctx method url with
  | Some err => (None, Some err)
  | None => (Some (mkRequest method url ∅ ctx), None)
  end.

(** The text of the sentinels, as passed to [errors.New].  The
    [ErrStructValidation] of edgeworkers, cloudlets and papi are declared
    outside the sources; their text is that of the three declarations the
    sources do show. *)
Definition sentinel_text `{Platform} (s : sentinel) : string :=
  match s with
  | gtm_ErrBadRequest => "missing argument"
  | gtm_ErrNotFound => "404 Not Found"
  | edgeworkers_ErrStructValidation => "struct validation"
  | ErrListDeactivations => "list deactivations"
  | ErrDeactivateVersion => "deactivate version"
  | ErrGetDeactivation => "get deactivation"
  | cloudlets_ErrStructValidation => "struct validation"
  | ErrGetPolicyProperties => "get policy properties"
  | ErrDeletePolicyProperty => "delete policy property"
  | papi_ErrStructValidation => "struct validation"
  | session_ErrNotFound => session_ErrNotFound_text
  | tools_ErrInvalidLocation => tools_ErrInvalidLocation_text
  | datastream_ErrStructValidation => "struct validation"
  | networklists_ErrStructValidation => "struct validation"
  | cps_ErrStructValidation => "struct validation"
  end.

(** Insertion of a key in a list of keys kept in the order of
    [sort.Strings] (byte-wise lexicographic). *)
Fixpoint insert_sorted (k : string) (ks : list string) : list string :=
  match ks with
  | [] => [k]
  | k' :: ks' => if String.leb k k' then k :: ks else k' :: insert_sorted k ks'
  end.

Definition sort_Strings (ks : list string) : list string :=
  foldr insert_sorted [] ks.

(** [strings.Join]. *)
Fixpoint strings_Join (parts : list string) (sep : string) : string :=
  match parts with
  | [] => ""
  | [p] => p
  | p :: rest => p ++ sep ++ strings_Join rest sep
  end.

(** [( *Error).Error()] of package gtm. *)
Definition Error_Error `{Platform} (e : Error) : string :=
  match json_MarshalIndent e with
  | inr err => "error marshaling API error: " ++ err
  | inl msg => "API error: 
" ++ msg
  end.

Section error_text.
Context `{Platform}.
Variable h : heap.

(** The [Error()] method.  [validation.Errors.Error] lists its entries by
    sorted key, separated by "; " and closed by a full stop, a nested
    [Errors] in brackets. *)
Fixpoint error_text (e : error) : string :=
  match e with
  | errorString s => sentinel_text s
  | wrapError msg _ => msg
  | fmtError msg => msg
  | apiError p => Error_Error (deref h p)
  | validation_ErrorObject _ message => message
  | validation_Errors es =>
      let texts : gmap string string :=
        (fun v => match v with
                  | validation_Errors _ => "(" ++ error_text v ++ ")"
                  | _ => error_text v
                  end) <$> es in
      if decide (size es = 0%nat) then ""
      else strings_Join
             ((fun k => k ++ ": " ++ default "" (texts !! k))
                <$> sort_Strings (fst <$> map_to_list es)) "; " ++ "."
  | foreignError msg => msg
  end.
End error_text.

(** [Unwrap]: only the result of [fmt.Errorf] with [%w] has one. *)
Definition Unwrap (e : error) : option error :=
  match e with
  | wrapError _ inner => Some inner
  | _ => None
  end.

(** ** [errors.Is], [errors.As] and [( *Error).Is] *)

(** [errors.As(err, &t)] for [t] of type [*Error]: the first [*Error] on
    the chain of [err]; no error type of the sources has an [As] method. *)
Fixpoint errors_As (err : error) : option ptr :=
  match err with
  | apiError p => Some p
  | wrapError _ inner => errors_As inner
  | _ => None
  end.

(** [errors.Is(err, target)] for a [target] that is one of the sentinels.
    Along the chain of [err]: identity with the target, then the [Is] method
    of the element if it has one (only [*Error] has; [is_method p] stands for
    the method of the object at [p]), then [Unwrap]. *)
Fixpoint errors_Is (is_method : ptr -> error -> bool)
    (err : error) (target : sentinel) : bool :=
  match err with
  | errorString s => bool_decide (s = target)
  | apiError p => is_method p (errorString target)
  | wrapError _ inner => errors_Is is_method inner target
  | _ => false
  end.

Section gtm_Is.
Context `{Platform}.
Variable h : heap.

(** The body of [func (e *Error) Is(target error) bool], its calls of
    [Is] methods through [errors.Is] going to [is_method]. *)
Definition Is_body (is_method : ptr -> error -> bool)
    (e : ptr) (target : error) : bool :=
  if errors_Is is_method target gtm_ErrNotFound
     && bool_decide (StatusCode (deref h e) = http_StatusNotFound)
  then true
  else
    match errors_As target with
    | None => false
    | Some t =>
        if bool_decide (e = t) then true
        else if bool_decide (StatusCode (deref h e) ≠ StatusCode (deref h t))
        then false
        else bool_decide (Error_Error (deref h e) = Error_Error (deref h t))
    end.

(** The method on a sentinel target: [errors.Is(target, ErrNotFound)] then
    ends at the identity test and calls no method. *)
Definition Is_on_sentinel : ptr -> error -> bool :=
  Is_body (fun _ _ => false).

(** [( *Error).Is].  The only [Is] methods it reaches are those of the
    [*Error] objects on the chain of [target], all called on
    [ErrNotFound]; [Is_unfold] below shows that this ties the recursion. *)
Definition Is : ptr -> error -> bool := Is_body Is_on_sentinel.

(** [errors.Is(target, ErrNotFound)]: the sentinel itself is on the chain
    of [target], or an [*Error] with status 404 is. *)
Fixpoint matches_not_found (target : error) : bool :=
  match target with
  | errorString s => bool_decide (s = gtm_ErrNotFound)
  | apiError p => bool_decide (StatusCode (deref h p) = http_StatusNotFound)
  | wrapError _ inner => matches_not_found inner
  | _ => false
  end.
End gtm_Is.

(** ** ozzo-validation, as far as the sources use it *)

Module validation.

(** [validation.IsEmpty] on the kinds of value the sources validate. *)
Class IsEmpty (A : Type) := is_empty : A -> bool.
#[global] Instance string_IsEmpty : IsEmpty string :=
  fun s => bool_decide (s = "").
#[global] Instance Z_IsEmpty : IsEmpty Z := fun n => bool_decide (n = 0).

(** Whether a value has a [Validate] method of its own (or is a slice of
    such values), which [validation.Validate] calls after the rules. *)
Class Validatable (A : Type) := Validate_self : A -> option error.
#[global] Instance string_plain : Validatable string := fun _ => None.
#[global] Instance Z_plain : Validatable Z := fun _ => None.

Definition Rule (A : Type) := A -> option error.

Definition ErrRequired : error :=
  validation_ErrorObject "validation_required" "cannot be blank".
Definition ErrInInvalid : error :=
  validation_ErrorObject "validation_in_invalid" "must be a valid value".

(** [validation.Required] and [validation.Required.When(condition)]. *)
Definition Required {A} `{IsEmpty A} : Rule A :=
  fun v => if is_empty v then Some ErrRequired else None.
Definition Required_When {A} `{IsEmpty A} (condition : bool) : Rule A :=
  fun v => if condition then Required v else None.

(** [validation.In(values...)]: an empty value passes. *)
Definition In {A} `{IsEmpty A} `{EqDecision A} (values : list A) : Rule A :=
  fun v => if is_empty v then None
           else if bool_decide (v ∈ values) then None
           else Some ErrInInvalid.
(** [validation.In(values...).Error(message)]. *)
Definition In_Error {A} `{IsEmpty A} `{EqDecision A}
    (values : list A) (message : string) : Rule A :=
  fun v => match In values v with
           | Some _ => Some (validation_ErrorObject "validation_in_invalid" message)
           | None => None
           end.

(** The first error of the rules, in order. *)
Fixpoint first_error {A} (rules : list (Rule A)) (v : A) : option error :=
  match rules with
  | [] => None
  | r :: rules' =>
      match r v with
      | Some err => Some err
      | None => first_error rules' v
      end
  end.

(** [validation.Validate(value, rules...)]. *)
Definition Validate {A} `{Validatable A} (v : A) (rules : list (Rule A))
  : option error :=
  match first_error rules v with
  | Some err => Some err
  | None => Validate_self v
  end.

(** [validation.When(condition, rules...)], without [Else]. *)
Definition When {A} `{Validatable A} (condition : bool) (rules : list (Rule A))
  : Rule A :=
  fun v => if condition then Validate v rules else Validate v [].

(** [validation.Errors{...}.Filter()]: the entries that are nil dropped,
    and nil itself when none is left. *)
Definition Filter (es : gmap string (option error)) : option error :=
  let kept : gmap string error := omap id es in
  if bool_decide (size kept = 0%nat) then None
  else Some (validation_Errors kept).

(** The slice case of [validation.Validate] on elements that have a
    [Validate] method: the errors keyed by the decimal index. *)
Fixpoint validateSlice_from {A} (self : A -> option error)
    (i : nat) (l : list A) : gmap string error :=
  match l with
  | [] => ∅
  | x :: l' =>
      let rest := validateSlice_from self (S i) l' in
      match self x with
      | Some err => <[pretty i := err]> rest
      | None => rest
      end
  end.
Definition validateSlice {A} (self : A -> option error) (l : list A)
  : option error :=
  let errs := validateSlice_from self 0 l in
  if bool_decide (size errs = 0%nat) then None
  else Some (validation_Errors errs).

End validation.

(** ** The session and the store the operations run in *)

(** The [session.Session] capability used by the operations:
    [Exec(req, &out, in...)] answers with a transport error, or with the
    response and [out] as the session leaves it (decoded from the body when
    that is well-formed JSON; the decoder for the type of [out] is at the
    session's disposal).  [Log] only writes to the logger, which is not
    modelled. *)
Record Session : Type := mkSession {
  Exec : forall (T B : Type), JSON T ->
         option Request -> T -> option B -> result (Response * T)
}.

(** One call of [Exec]: the request pointer and the request body passed. *)
Record Dispatch : Type := mkDispatch {
  sent_req : option Request;
  sent_body : option {B : Type & B}
}.

(** The store: the client struct behind the receiver pointer, the [*Error]
    objects, and the calls of [Exec] so far. *)
Record State (C : Type) : Type := mkState {
  client : C;
  errors_heap : heap;
  sent : list Dispatch
}.
Arguments mkState {C} _ _ _.
Arguments client {C} _.
Arguments errors_heap {C} _.
Arguments sent {C} _.

(** Client structs embed [session.Session]. *)
Class HasSession (C : Type) := session_of : C -> Session.

Definition Op (C A : Type) : Type := State C -> A * State C.

Definition ret {C A} (a : A) : Op C A := fun st => (a, st).
Definition bind {C A B} (m : Op C A) (k : A -> Op C B) : Op C B :=
  fun st => let '(a, st') := m st in k a st'.

Declare Scope op_scope.
Delimit Scope op_scope with op.
Notation "'let*' x := m 'in' k" := (bind m (fun x => k))
  (at level 10, x pattern, m at level 100, k at level 200) : op_scope.
Open Scope op_scope.

(** Reading a field of the receiver. *)
Definition read_client {C A} (f : C -> A) : Op C A := fun st => (f (client st), st).

(** [&e] for a local [e Error] that escapes. *)
Definition new_Error {C} (e : Error) : Op C ptr :=
  fun st => let '(p, h') := alloc (errors_heap st) e in
            (p, mkState (client st) h' (sent st)).

(** [c.Exec(req, &out, in...)] on the session embedded in the receiver. *)
Definition call_Exec {C} `{HasSession C} {T B : Type} `{JSON T}
    (req : option Request) (out : T) (body : option B)
  : Op C (result (Response * T)) :=
  fun st =>
    (Exec (session_of (client st)) T B _ req out body,
     mkState (client st) (errors_heap st)
       (sent st ++ [mkDispatch req (option_map (existT B) body)])%list).

(** [c.Exec(req, &out)]: no request body. *)
Definition call_Exec0 {C} `{HasSession C} {T : Type} `{JSON T}
    (req : option Request) (out : T) : Op C (result (Response * T)) :=
  call_Exec (B := unit) req out None.

(** ** [fmt.Errorf] *)

(** The pieces of a format string with their arguments: literal text,
    [%s] on a string, [%d], [%s] on an error (or on its [Error()]), and
    [%w]. *)
Inductive verb : Type :=
| lit (s : string)
| pct_s (s : string)
| pct_d (n : Z)
| pct_s_err (e : error)
| pct_w (e : error).

Section fmt.
Context `{Platform}.

Definition verb_text (h : heap) (v : verb) : string :=
  match v with
  | lit s | pct_s s => s
  | pct_d n => pretty n
  | pct_s_err e | pct_w e => error_text h e
  end.

(** The operand of [%w], which [Unwrap] returns. *)
Fixpoint wrapped (vs : list verb) : option error :=
  match vs with
  | [] => None
  | pct_w e :: _ => Some e
  | _ :: vs' => wrapped vs'
  end.

(** [fmt.Sprintf] and [fmt.Errorf] on such a format. *)
Definition Sprintf (h : heap) (vs : list verb) : string :=
  foldr (fun v acc => verb_text h v ++ acc) "" vs.

Definition Errorf {C} (vs : list verb) : Op C error :=
  fun st =>
    let msg := Sprintf (errors_heap st) vs in
    (match wrapped vs with
     | Some e => wrapError msg e
     | None => fmtError msg
     end, st).
End fmt.

(** ** Package edgeworkers: deactivations.go *)

Module edgeworkers.

(** Declared in other files of the package: the client struct (it embeds
    the session), the two [ActivationNetwork] constants and the error
    mapper [( *edgeworkers).Error]. *)
Class Package : Type := {
  edgeworkers : Type;
  edgeworkers_Session :: HasSession edgeworkers;
  ActivationNetworkProduction : string;
  ActivationNetworkStaging : string;
  edgeworkers_Error : Response -> error
}.

#[global] Existing Instance edgeworkers_Session.

Section edgeworkers.
Context `{Platform} `{Package}.

(** [ActivationNetwork] is a string type, declared in another file. *)
Definition ActivationNetwork := string.

Record Deactivation : Type := mkDeactivation {
  D_EdgeWorkerID : Z;
  D_Version : string;
  D_DeactivationID : Z;
  D_AccountID : string;
  D_Status : string;
  D_Network : ActivationNetwork;
  D_Note : string;
  D_CreatedBy : string;
  D_CreatedTime : string;
  D_LastModifiedTime : string
}.

Record EdgeWorkerListDeactivationsRequest : Type := {
  L_EdgeWorkerID : Z;
  L_Version : string
}.

Record EdgeWorkerDeactivateVersionPayload : Type := {
  P_Network : ActivationNetwork;
  P_Note : string;
  P_Version : string
}.

Record EdgeWorkerDeactivateVersionRequest : Type := {
  V_EdgeWorkerID : Z;
  V_Body : EdgeWorkerDeactivateVersionPayload
}.

Record EdgeWorkerGetDeactivationRequest : Type := {
  G_EdgeWorkerID : Z;
  G_DeactivationID : Z
}.

Record EdgeWorkerListDeactivationsResponse : Type := {
  Deactivations : list Deactivation
}.

#[global] Instance Deactivation_zero : Zero Deactivation :=
  mkDeactivation 0 "" 0 "" "" "" "" "" "" "".
#[global] Instance ListResponse_zero : Zero EdgeWorkerListDeactivationsResponse :=
  {| Deactivations := [] |}.

(** The JSON decoders of the two response types. *)
Class Decoders : Type := {
  Deactivation_JSON :: JSON Deactivation;
  ListResponse_JSON :: JSON EdgeWorkerListDeactivationsResponse
}.
Context `{Decoders}.

(** The map literals of the three [Validate] methods, before [Filter]. *)
Definition ListDeactivationsRequest_rules
    (r : EdgeWorkerListDeactivationsRequest) : gmap string (option error) :=
  {[ "EdgeWorkerID" := validation.Validate (L_EdgeWorkerID r) [validation.Required] ]}.

Definition DeactivateVersionRequest_rules
    (r : EdgeWorkerDeactivateVersionRequest) : gmap string (option error) :=
  {[ "EdgeWorkerID" := validation.Validate (V_EdgeWorkerID r) [validation.Required];
     "Body.Network" :=
       validation.Validate (P_Network (V_Body r))
         [validation.Required;
          validation.In_Error
            [ActivationNetworkProduction; ActivationNetworkStaging]
            ("value '" ++ P_Network (V_Body r) ++ "' is invalid. Must be one of: '"
             ++ ActivationNetworkStaging ++ "' or '"
             ++ ActivationNetworkProduction ++ "'")];
     "Body.Version" := validation.Validate (P_Version (V_Body r)) [validation.Required] ]}.

Definition GetDeactivationRequest_rules
    (r : EdgeWorkerGetDeactivationRequest) : gmap string (option error) :=
  {[ "EdgeWorkerID" := validation.Validate (G_EdgeWorkerID r) [validation.Required];
     "DeactivationID" := validation.Validate (G_DeactivationID r) [validation.Required] ]}.

Definition ListDeactivationsRequest_Validate r : option error :=
  validation.Filter (ListDeactivationsRequest_rules r).
Definition DeactivateVersionRequest_Validate r : option error :=
  validation.Filter (DeactivateVersionRequest_rules r).
Definition GetDeactivationRequest_Validate r : option error :=
  validation.Filter (GetDeactivationRequest_rules r).

Definition ListDeactivations (ctx : Context)
    (params : EdgeWorkerListDeactivationsRequest)
  : Op edgeworkers (option EdgeWorkerListDeactivationsResponse * option error) :=
  match ListDeactivationsRequest_Validate params with
  | Some err =>
      let* e := Errorf [pct_s_err (errorString ErrListDeactivations); lit ": ";
                        pct_w (errorString edgeworkers_ErrStructValidation);
                        lit ": "; pct_s_err err] in
      ret (None, Some e)
  | None =>
  match url_Parse (Sprintf [] [lit "/edgeworkers/v1/ids/";
                               pct_d (L_EdgeWorkerID params);
                               lit "/deactivations"]) with
  | Err err =>
      let* e := Errorf [pct_w (errorString ErrListDeactivations);
                        lit ": failed to parse URL: "; pct_s_err err] in
      ret (None, Some e)
  | Ok uri =>
  let q := URL_Query uri in
  let q := if bool_decide (L_Version params ≠ "")
           then Values_Add q "version" (L_Version params) else q in
  let uri := URL_set_RawQuery uri (Values_Encode q) in
  match http_NewRequestWithContext ctx http_MethodGet (URL_String uri) with
  | (_, Some err) =>
      let* e := Errorf [pct_w (errorString ErrListDeactivations);
                        lit ": failed to create request: "; pct_s_err err] in
      ret (None, Some e)
  | (req, None) =>
  let* r := call_Exec0 req (zero : EdgeWorkerListDeactivationsResponse) in
  match r with
  | Err err =>
      let* e := Errorf [pct_w (errorString ErrListDeactivations);
                        lit ": request failed: "; pct_s_err err] in
      ret (None, Some e)
  | Ok (resp, result) =>
      if bool_decide (Resp_StatusCode resp ≠ http_StatusOK)
      then
        let* e := Errorf [pct_s_err (errorString ErrListDeactivations);
                          lit ": "; pct_w (edgeworkers_Error resp)] in
        ret (None, Some e)
      else ret (Some result, None)
  end end end end.

Definition DeactivateVersion (ctx : Context)
    (params : EdgeWorkerDeactivateVersionRequest)
  : Op edgeworkers (option Deactivation * option error) :=
  match DeactivateVersionRequest_Validate params with
  | Some err =>
      let* e := Errorf [pct_s_err (errorString ErrDeactivateVersion); lit ": ";
                        pct_w (errorString edgeworkers_ErrStructValidation);
                        lit ": "; pct_s_err err] in
      ret (None, Some e)
  | None =>
  match url_Parse (Sprintf [] [lit "/edgeworkers/v1/ids/";
                               pct_d (V_EdgeWorkerID params);
                               lit "/deactivations"]) with
  | Err err =>
      let* e := Errorf [pct_w (errorString ErrDeactivateVersion);
                        lit ": failed to parse URL: "; pct_s_err err] in
      ret (None, Some e)
  | Ok uri =>
  match http_NewRequestWithContext ctx http_MethodPost (URL_String uri) with
  | (_, Some err) =>
      let* e := Errorf [pct_w (errorString ErrDeactivateVersion);
                        lit ": failed to create request: "; pct_s_err err] in
      ret (None, Some e)
  | (req, None) =>
  let* r := call_Exec req (zero : Deactivation) (Some (V_Body params)) in
  match r with
  | Err err =>
      let* e := Errorf [pct_w (errorString ErrDeactivateVersion);
                        lit ": request failed: "; pct_s_err err] in
      ret (None, Some e)
  | Ok (resp, result) =>
      if bool_decide (Resp_StatusCode resp ≠ http_StatusCreated)
      then
        let* e := Errorf [pct_s_err (errorString ErrDeactivateVersion);
                          lit ": "; pct_w (edgeworkers_Error resp)] in
        ret (None, Some e)
      else ret (Some result, None)
  end end end end.

(** The error of [http.NewRequestWithContext] is assigned to [err] and
    overwritten by the next assignment without being read. *)
Definition GetDeactivation (ctx : Context)
    (params : EdgeWorkerGetDeactivationRequest)
  : Op edgeworkers (option Deactivation * option error) :=
  match GetDeactivationRequest_Validate params with
  | Some err =>
      let* e := Errorf [pct_s_err (errorString ErrGetDeactivation); lit ": ";
                        pct_w (errorString edgeworkers_ErrStructValidation);
                        lit ": "; pct_s_err err] in
      ret (None, Some e)
  | None =>
  match url_Parse (Sprintf [] [lit "/edgeworkers/v1/ids/";
                               pct_d (G_EdgeWorkerID params);
                               lit "/deactivations/";
                               pct_d (G_DeactivationID params)]) with
  | Err err =>
      let* e := Errorf [pct_w (errorString ErrGetDeactivation);
                        lit ": failed to parse URL: "; pct_s_err err] in
      ret (None, Some e)
  | Ok uri =>
  let '(req, _) := http_NewRequestWithContext ctx http_MethodGet (URL_String uri) in
  let* r := call_Exec0 req (zero : Deactivation) in
  match r with
  | Err err =>
      let* e := Errorf [pct_w (errorString ErrGetDeactivation);
                        lit ": request failed: "; pct_s_err err] in
      ret (None, Some e)
  | Ok (resp, result) =>
      if bool_decide (Resp_StatusCode resp ≠ http_StatusOK)
      then
        let* e := Errorf [pct_s_err (errorString ErrGetDeactivation);
                          lit ": "; pct_w (edgeworkers_Error resp)] in
        ret (None, Some e)
      else ret (Some result, None)
  end end end.

End edgeworkers.
#[global] Existing Instance Deactivation_JSON.
#[global] Existing Instance ListResponse_JSON.
End edgeworkers.

(** [err.Error()] inside an operation. *)
Definition text_of `{Platform} {C} (err : error) : Op C string :=
  fun st => (error_text (errors_heap st) err, st).

(** ** Package gtm: errors.go and cidrmap.go *)

Module gtm.

(** Declared in other files of the package: the client struct (it embeds
    the session); the types [Link], [ResponseStatus], [CidrMapResponse]
    and [ResponseBody], of which the code reads the [Status] field only;
    [schemaVersion]; and [setVersionHeader], taken by the header it leaves
    on a request of a given method. *)
Class Package : Type := {
  gtm : Type;
  gtm_Session :: HasSession gtm;
  Link : Type;
  ResponseStatus : Type;
  CidrMapResponse : Type;
  ResponseBody : Type;
  CidrMapResponse_zero :: Zero CidrMapResponse;
  ResponseBody_zero :: Zero ResponseBody;
  CidrMapResponse_Status : CidrMapResponse -> option ResponseStatus;
  ResponseBody_Status : ResponseBody -> option ResponseStatus;
  schemaVersion : string;
  versionHeader :
    gmap string (list string) -> string -> string -> gmap string (list string)
}.

#[global] Existing Instance gtm_Session.
#[global] Existing Instance CidrMapResponse_zero.
#[global] Existing Instance ResponseBody_zero.

Section gtm.
Context `{Platform} `{Package}.

Definition setVersionHeader (req : Request) (version : string) : Request :=
  mkRequest (Method req) (URL req)
    (versionHeader (Header req) (Method req) version) (Ctx req).

(** The fields that [NewCidrAssignment] sets through the embedding. *)
Record DatacenterBase : Type := {
  Nickname : string;
  DatacenterId : Z
}.

Record CidrAssignment : Type := {
  CA_Base : DatacenterBase;
  Blocks : list string
}.

Record CidrMap : Type := mkCidrMap {
  DefaultDatacenter : option DatacenterBase;
  Assignments : list (option CidrAssignment);
  Name : string;
  Links : list (option Link)
}.

Record CidrMapList : Type := {
  CidrMapItems : list (option CidrMap)
}.

#[global] Instance CidrMap_zero : Zero CidrMap := mkCidrMap None [] "" [].
#[global] Instance CidrMapList_zero : Zero CidrMapList := {| CidrMapItems := [] |}.

(** The JSON decoders of the response types. *)
Class Decoders : Type := {
  CidrMap_JSON :: JSON CidrMap;
  CidrMapList_JSON :: JSON CidrMapList;
  CidrMapResponse_JSON :: JSON CidrMapResponse;
  ResponseBody_JSON :: JSON ResponseBody
}.
Context `{Decoders}.

(** [func (p *gtm) Error(r *http.Response) error]; the two calls of the
    logger are left out. *)
Definition Error_mapper (r : Response) : Op gtm error :=
  let e : Error := zero in
  match Body r with
  | Err err =>
      let* detail := text_of err in
      let e := mkError (Type_ e) "Failed to read error body" detail
                 (Instance_ e) (BehaviorName e) (ErrorLocation e)
                 (Resp_StatusCode r) in
      let* p := new_Error e in
      ret (apiError p)
  | Ok body =>
      let '(e, uerr) := json_Unmarshal body e in
      let* e :=
        match uerr with
        | Some err =>
            let* detail := text_of err in
            ret (mkError (Type_ e) "Failed to unmarshal error body" detail
                   (Instance_ e) (BehaviorName e) (ErrorLocation e)
                   (StatusCode e))
        | None => ret e
        end in
      let e := mkError (Type_ e) (Title e) (Detail e) (Instance_ e)
                 (BehaviorName e) (ErrorLocation e) (Resp_StatusCode r) in
      let* p := new_Error e in
      ret (apiError p)
  end.

(** What the mapper is to produce for the response [r], texts being taken
    in the store [h]: the decoded body with the status of the response; the
    two fallbacks keep what the decoder left and set [Title] and [Detail]. *)
Definition mapped (h : heap) (r : Response) (e : Error) : Prop :=
  match Body r with
  | Err err =>
      e = mkError "" "Failed to read error body" (error_text h err) "" "" ""
            (Resp_StatusCode r)
  | Ok body =>
      match json_Unmarshal body zero with
      | (e0, None) =>
          e = mkError (Type_ e0) (Title e0) (Detail e0) (Instance_ e0)
                (BehaviorName e0) (ErrorLocation e0) (Resp_StatusCode r)
      | (e0, Some err) =>
          e = mkError (Type_ e0) "Failed to unmarshal error body"
                (error_text h err) (Instance_ e0) (BehaviorName e0)
                (ErrorLocation e0) (Resp_StatusCode r)
      end
  end.

(** [func (cidr *CidrMap) Validate() error]. *)
Definition CidrMap_Validate (cidr : CidrMap) : option error :=
  if bool_decide (String.length (Name cidr) < 1)%nat
  then Some (fmtError "CidrMap is missing Name")
  else if bool_decide (DefaultDatacenter cidr = None)
  then Some (fmtError "CidrMap is missing DefaultDatacenter")
  else None.

Definition NewCidrMap (ctx : Context) (name : string) : Op gtm CidrMap :=
  ret (mkCidrMap None [] name []).

Definition NewCidrAssignment (ctx : Context) (_ : option CidrMap)
    (dcid : Z) (nickname : string) : Op gtm CidrAssignment :=
  ret {| CA_Base := {| Nickname := nickname; DatacenterId := dcid |};
         Blocks := [] |}.

Definition ListCidrMaps (ctx : Context) (domainName : string)
  : Op gtm (list (option CidrMap) * option error) :=
  let cidrs : CidrMapList := zero in
  let getURL := Sprintf [] [lit "/config-gtm/v1/domains/"; pct_s domainName;
                            lit "/cidr-maps"] in
  match http_NewRequestWithContext ctx http_MethodGet getURL with
  | (_, Some err) =>
      let* e := Errorf [lit "failed to create ListCidrMaps request: "; pct_w err] in
      ret ([], Some e)
  | (req, None) =>
  let req := option_map (fun r => setVersionHeader r schemaVersion) req in
  let* r := call_Exec0 req cidrs in
  match r with
  | Err err =>
      let* e := Errorf [lit "ListCidrMaps request failed: "; pct_w err] in
      ret ([], Some e)
  | Ok (resp, cidrs) =>
      if bool_decide (Resp_StatusCode resp ≠ http_StatusOK)
      then let* e := Error_mapper resp in ret ([], Some e)
      else ret (CidrMapItems cidrs, None)
  end end.

Definition GetCidrMap (ctx : Context) (name domainName : string)
  : Op gtm (option CidrMap * option error) :=
  let cidr : CidrMap := zero in
  let getURL := Sprintf [] [lit "/config-gtm/v1/domains/"; pct_s domainName;
                            lit "/cidr-maps/"; pct_s name] in
  match http_NewRequestWithContext ctx http_MethodGet getURL with
  | (_, Some err) =>
      let* e := Errorf [lit "failed to create GetCidrMap request: "; pct_w err] in
      ret (None, Some e)
  | (req, None) =>
  let req := option_map (fun r => setVersionHeader r schemaVersion) req in
  let* r := call_Exec0 req cidr in
  match r with
  | Err err =>
      let* e := Errorf [lit "GetCidrMap request failed: "; pct_w err] in
      ret (None, Some e)
  | Ok (resp, cidr) =>
      if bool_decide (Resp_StatusCode resp ≠ http_StatusOK)
      then let* e := Error_mapper resp in ret (None, Some e)
      else ret (Some cidr, None)
  end end.

(** [func (cidr *CidrMap) save(ctx, p, domainName)]. *)
Definition save (cidr : CidrMap) (ctx : Context) (domainName : string)
  : Op gtm (option CidrMapResponse * option error) :=
  match CidrMap_Validate cidr with
  | Some err =>
      let* e := Errorf [lit "CidrMap validation failed. "; pct_w err] in
      ret (None, Some e)
  | None =>
  let putURL := Sprintf [] [lit "/config-gtm/v1/domains/"; pct_s domainName;
                            lit "/cidr-maps/"; pct_s (Name cidr)] in
  match http_NewRequestWithContext ctx http_MethodPut putURL with
  | (_, Some err) =>
      let* e := Errorf [lit "failed to create AsMap request: "; pct_w err] in
      ret (None, Some e)
  | (req, None) =>
  let mapresp : CidrMapResponse := zero in
  let req := option_map (fun r => setVersionHeader r schemaVersion) req in
  let* r := call_Exec req mapresp (Some cidr) in
  match r with
  | Err err =>
      let* e := Errorf [lit "CidrMap request failed: "; pct_w err] in
      ret (None, Some e)
  | Ok (resp, mapresp) =>
      if bool_decide (Resp_StatusCode resp ≠ http_StatusOK)
         && bool_decide (Resp_StatusCode resp ≠ http_StatusCreated)
      then let* e := Error_mapper resp in ret (None, Some e)
      else ret (Some mapresp, None)
  end end end.

Definition CreateCidrMap (ctx : Context) (cidr : CidrMap) (domainName : string)
  : Op gtm (option CidrMapResponse * option error) :=
  save cidr ctx domainName.

(** [stat.Status] is read only when [save] gave no error, and [save] then
    gave a response ([save_some] below); the last case is not reached. *)
Definition UpdateCidrMap (ctx : Context) (cidr : CidrMap) (domainName : string)
  : Op gtm (option ResponseStatus * option error) :=
  let* (stat, err) := save cidr ctx domainName in
  match err, stat with
  | Some err, _ => ret (None, Some err)
  | None, Some stat => ret (CidrMapResponse_Status stat, None)
  | None, None => ret (None, None)
  end.

Definition DeleteCidrMap (ctx : Context) (cidr : CidrMap) (domainName : string)
  : Op gtm (option ResponseStatus * option error) :=
  match CidrMap_Validate cidr with
  | Some err =>
      let* e := Errorf [lit "CidrMap validation failed. "; pct_w err] in
      ret (None, Some e)
  | None =>
  let delURL := Sprintf [] [lit "/config-gtm/v1/domains/"; pct_s domainName;
                            lit "/cidr-maps/"; pct_s (Name cidr)] in
  match http_NewRequestWithContext ctx http_MethodDelete delURL with
  | (_, Some err) =>
      let* e := Errorf [lit "failed to create Delete request: "; pct_w err] in
      ret (None, Some e)
  | (req, None) =>
  let mapresp : ResponseBody := zero in
  let req := option_map (fun r => setVersionHeader r schemaVersion) req in
  let* r := call_Exec0 req mapresp in
  match r with
  | Err err =>
      let* e := Errorf [lit "CidrMap request failed: "; pct_w err] in
      ret (None, Some e)
  | Ok (resp, mapresp) =>
      if bool_decide (Resp_StatusCode resp ≠ http_StatusOK)
      then let* e := Error_mapper resp in ret (None, Some e)
      else ret (ResponseBody_Status mapresp, None)
  end end end.

End gtm.
#[global] Existing Instance CidrMap_JSON.
#[global] Existing Instance CidrMapList_JSON.
#[global] Existing Instance CidrMapResponse_JSON.
#[global] Existing Instance ResponseBody_JSON.
End gtm.

(** ** Package cloudlets: policy_property.go *)

Module cloudlets.

(** Declared in other files of the package: the client struct, the type
    [OriginType] and the error mapper [( *cloudlets).Error].
    [VersionActivationNetwork] is a string type (the code converts it with
    [string(...)]). *)
Class Package : Type := {
  cloudlets : Type;
  cloudlets_Session :: HasSession cloudlets;
  OriginType : Type;
  cloudlets_Error : Response -> error
}.

#[global] Existing Instance cloudlets_Session.

Section cloudlets.
Context `{Platform} `{Package}.

Definition VersionActivationNetwork := string.

Record CloudletsOrigin : Type := {
  OriginID : string;
  Hostname : string;
  CO_Type : OriginType;
  Checksum : string;
  Description : string
}.

Record NetworkStatus : Type := {
  ActivatedBy : string;
  ActivationDate : string;
  NS_Version : Z;
  CloudletsOrigins : gmap string CloudletsOrigin;
  ReferencedPolicies : list string
}.

Record AssociateProperty : Type := {
  GroupID : Z;
  ID : Z;
  AP_Name : string;
  NewestVersion : NetworkStatus;
  Production : NetworkStatus;
  Staging : NetworkStatus
}.

(** A Go map value; the nil map is [None]. *)
Definition GetPolicyPropertiesResponse : Type :=
  option (gmap string AssociateProperty).

Record DeletePolicyPropertyRequest : Type := {
  PolicyID : Z;
  PropertyID : Z;
  Network : VersionActivationNetwork
}.

(** The JSON decoder of the response type. *)
Class Decoders : Type := {
  GetPolicyPropertiesResponse_JSON :: JSON GetPolicyPropertiesResponse
}.
Context `{Decoders}.

Definition DeletePolicyPropertyRequest_rules (r : DeletePolicyPropertyRequest)
  : gmap string (option error) :=
  {[ "PolicyID" := validation.Validate (PolicyID r) [validation.Required];
     "PropertyID" := validation.Validate (PropertyID r) [validation.Required] ]}.

Definition DeletePolicyPropertyRequest_Validate r : option error :=
  validation.Filter (DeletePolicyPropertyRequest_rules r).

Definition GetPolicyProperties (ctx : Context) (policyID : Z)
  : Op cloudlets (GetPolicyPropertiesResponse * option error) :=
  match url_Parse (Sprintf [] [lit "/cloudlets/api/v2/policies/"; pct_d policyID;
                               lit "/properties"]) with
  | Err err =>
      let* e := Errorf [pct_w (errorString ErrGetPolicyProperties);
                        lit ": failed to parse url: "; pct_s_err err] in
      ret (None, Some e)
  | Ok uri =>
  match http_NewRequestWithContext ctx http_MethodGet (URL_String uri) with
  | (_, Some err) =>
      let* e := Errorf [pct_w (errorString ErrGetPolicyProperties);
                        lit ": failed to create request: "; pct_s_err err] in
      ret (None, Some e)
  | (req, None) =>
  let* r := call_Exec0 req (zero : GetPolicyPropertiesResponse) in
  match r with
  | Err err =>
      let* e := Errorf [pct_w (errorString ErrGetPolicyProperties);
                        lit ": request failed: "; pct_s_err err] in
      ret (None, Some e)
  | Ok (resp, result) =>
      if bool_decide (Resp_StatusCode resp ≠ http_StatusOK)
      then
        let* e := Errorf [pct_s_err (errorString ErrGetPolicyProperties);
                          lit ": "; pct_w (cloudlets_Error resp)] in
        ret (None, Some e)
      else ret (result, None)
  end end end.

Definition DeletePolicyProperty (ctx : Context) (params : DeletePolicyPropertyRequest)
  : Op cloudlets (option error) :=
  match DeletePolicyPropertyRequest_Validate params with
  | Some err =>
      let* e := Errorf [pct_s_err (errorString ErrDeletePolicyProperty); lit ": ";
                        pct_w (errorString cloudlets_ErrStructValidation);
                        lit ": "; pct_s_err err] in
      ret (Some e)
  | None =>
  match url_Parse (Sprintf [] [lit "/cloudlets/api/v2/policies/";
                               pct_d (PolicyID params); lit "/properties/";
                               pct_d (PropertyID params)]) with
  | Err err =>
      let* e := Errorf [pct_w (errorString ErrDeletePolicyProperty);
                        lit ": failed to parse url: "; pct_s_err err] in
      ret (Some e)
  | Ok uri =>
  let uri :=
    if bool_decide (Network params ≠ "")
    then
      let q := URL_Query uri in
      let q := Values_Set q "network" (Network params) in
      URL_set_RawQuery uri (Values_Encode q)
    else uri in
  match http_NewRequestWithContext ctx http_MethodDelete (URL_String uri) with
  | (_, Some err) =>
      let* e := Errorf [pct_w (errorString ErrDeletePolicyProperty);
                        lit ": failed to create request: "; pct_s_err err] in
      ret (Some e)
  | (req, None) =>
  let* r := call_Exec0 req tt in
  match r with
  | Err err =>
      let* e := Errorf [pct_w (errorString ErrDeletePolicyProperty);
                        lit ": request failed: "; pct_s_err err] in
      ret (Some e)
  | Ok (resp, _) =>
      if bool_decide (Resp_StatusCode resp ≠ http_StatusNoContent)
      then
        let* e := Errorf [pct_w (errorString ErrDeletePolicyProperty);
                          lit ": "; pct_d (Resp_StatusCode resp)] in
        ret (Some e)
      else ret None
  end end end end.

End cloudlets.
#[global] Existing Instance GetPolicyPropertiesResponse_JSON.
End cloudlets.

(** ** Package papi: the edge hostname operations *)

Module papi.

(** Declared outside the file: the client struct with its [usePrefixes]
    flag, [session.NewAPIError] and [tools.FetchIDFromLocation]. *)
Class Package : Type := {
  papi : Type;
  papi_Session :: HasSession papi;
  usePrefixes : papi -> bool;
  session_NewAPIError : Response -> error;
  tools_FetchIDFromLocation : string -> result string
}.

#[global] Existing Instance papi_Session.

Section papi.
Context `{Platform} `{Package}.

(** [cast.ToString] on a bool is [strconv.FormatBool]. *)
Definition cast_ToString (b : bool) : string := if b then "true" else "false".

Record GetEdgeHostnamesRequest : Type := {
  GHs_ContractID : string;
  GHs_GroupID : string;
  GHs_Options : list string
}.

Record GetEdgeHostnameRequest : Type := {
  GH_EdgeHostnameID : string;
  GH_ContractID : string;
  GH_GroupID : string;
  GH_Options : list string
}.

Record UseCase : Type := {
  UC_Option : string;
  UC_Type : string;
  UC_UseCase : string
}.

Record EdgeHostnameGetItem : Type := {
  I_ID : string;
  I_Domain : string;
  I_ProductID : string;
  I_DomainPrefix : string;
  I_DomainSuffix : string;
  I_Status : string;
  I_Secure : bool;
  I_IPVersionBehavior : string;
  I_UseCases : list UseCase
}.

Record EdgeHostnameItems : Type := {
  Items : list EdgeHostnameGetItem
}.

Record GetEdgeHostnamesResponse : Type := mkGetEdgeHostnamesResponse {
  R_AccountID : string;
  R_ContractID : string;
  R_GroupID : string;
  R_EdgeHostnames : EdgeHostnameItems
}.

Record EdgeHostnameCreate : Type := {
  ProductID : string;
  DomainPrefix : string;
  DomainSuffix : string;
  Secure : bool;
  SecureNetwork : string;
  SlotNumber : Z;
  IPVersionBehavior : string;
  CertEnrollmentID : Z;
  UseCases : list UseCase
}.

Record CreateEdgeHostnameRequest : Type := {
  C_ContractID : string;
  C_GroupID : string;
  C_Options : list string;
  C_EdgeHostname : EdgeHostnameCreate
}.

Record CreateEdgeHostnameResponse : Type := mkCreateEdgeHostnameResponse {
  EdgeHostnameLink : string;
  EdgeHostnameID : string
}.

#[global] Instance GetEdgeHostnamesResponse_zero : Zero GetEdgeHostnamesResponse :=
  mkGetEdgeHostnamesResponse "" "" "" {| Items := [] |}.
#[global] Instance CreateEdgeHostnameResponse_zero : Zero CreateEdgeHostnameResponse :=
  mkCreateEdgeHostnameResponse "" "".

(** The JSON decoders of the response types. *)
Class Decoders : Type := {
  GetEdgeHostnamesResponse_JSON :: JSON GetEdgeHostnamesResponse;
  CreateEdgeHostnameResponse_JSON :: JSON CreateEdgeHostnameResponse
}.
Context `{Decoders}.

Definition EHSecureNetworkStandardTLS := "STANDARD_TLS".
Definition EHSecureNetworkSharedCert := "SHARED_CERT".
Definition EHSecureNetworkEnhancedTLS := "ENHANCED_TLS".
Definition EHIPVersionV4 := "IPV4".
Definition EHIPVersionV6Compliance := "IPV4".
Definition UseCaseGlobal := "GLOBAL".

Definition UseCase_rules (uc : UseCase) : gmap string (option error) :=
  {[ "Option" := validation.Validate (UC_Option uc) [validation.Required];
     "Type" := validation.Validate (UC_Type uc)
                 [validation.Required; validation.In [UseCaseGlobal]];
     "UseCase" := validation.Validate (UC_UseCase uc) [validation.Required] ]}.
Definition UseCase_Validate (uc : UseCase) : option error :=
  validation.Filter (UseCase_rules uc).

#[local] Instance UseCases_Validatable : validation.Validatable (list UseCase) :=
  validation.validateSlice UseCase_Validate.

Definition EdgeHostnameCreate_rules (eh : EdgeHostnameCreate)
  : gmap string (option error) :=
  {[ "DomainPrefix" := validation.Validate (DomainPrefix eh) [validation.Required];
     "DomainSuffix" :=
       validation.Validate (DomainSuffix eh)
         [validation.Required;
          validation.When
            (bool_decide (SecureNetwork eh = EHSecureNetworkStandardTLS))
            [validation.In ["edgesuite.net"]];
          validation.When
            (bool_decide (SecureNetwork eh = EHSecureNetworkSharedCert))
            [validation.In ["akamaized.net"]];
          validation.When
            (bool_decide (SecureNetwork eh = EHSecureNetworkEnhancedTLS))
            [validation.In ["edgekey.net"]]];
     "ProductID" := validation.Validate (ProductID eh) [validation.Required];
     "CertEnrollmentID" :=
       validation.Validate (CertEnrollmentID eh)
         [validation.Required_When
            (bool_decide (SecureNetwork eh = EHSecureNetworkEnhancedTLS))];
     "IPVersionBehavior" :=
       validation.Validate (IPVersionBehavior eh)
         [validation.Required;
          validation.In [EHIPVersionV4; EHIPVersionV6Compliance]];
     "SecureNetwork" :=
       validation.Validate (SecureNetwork eh)
         [validation.In [EHSecureNetworkStandardTLS; EHSecureNetworkSharedCert;
                         EHSecureNetworkEnhancedTLS]];
     "UseCases" := validation.Validate (UseCases eh) [] ]}.
Definition EdgeHostnameCreate_Validate (eh : EdgeHostnameCreate) : option error :=
  validation.Filter (EdgeHostnameCreate_rules eh).

#[local] Instance EdgeHostnameCreate_Validatable
  : validation.Validatable EdgeHostnameCreate := EdgeHostnameCreate_Validate.

Definition CreateEdgeHostnameRequest_rules (eh : CreateEdgeHostnameRequest)
  : gmap string (option error) :=
  {[ "ContractID" := validation.Validate (C_ContractID eh) [validation.Required];
     "GroupID" := validation.Validate (C_GroupID eh) [validation.Required];
     "EdgeHostname" := validation.Validate (C_EdgeHostname eh) [] ]}.
Definition CreateEdgeHostnameRequest_Validate eh : option error :=
  validation.Filter (CreateEdgeHostnameRequest_rules eh).

Definition GetEdgeHostnamesRequest_rules (eh : GetEdgeHostnamesRequest)
  : gmap string (option error) :=
  {[ "ContractID" := validation.Validate (GHs_ContractID eh) [validation.Required];
     "GroupID" := validation.Validate (GHs_GroupID eh) [validation.Required] ]}.
Definition GetEdgeHostnamesRequest_Validate eh : option error :=
  validation.Filter (GetEdgeHostnamesRequest_rules eh).

Definition GetEdgeHostnameRequest_rules (eh : GetEdgeHostnameRequest)
  : gmap string (option error) :=
  {[ "EdgeHostnameID" := validation.Validate (GH_EdgeHostnameID eh) [validation.Required];
     "ContractID" := validation.Validate (GH_ContractID eh) [validation.Required];
     "GroupID" := validation.Validate (GH_GroupID eh) [validation.Required] ]}.
Definition GetEdgeHostnameRequest_Validate eh : option error :=
  validation.Filter (GetEdgeHostnameRequest_rules eh).

(** The three operations set the header on the request they have just
    built, which is not nil there. *)
Definition set_PAPI_Use_Prefixes (req : option Request) (v : string)
  : option Request :=
  option_map
    (fun r => mkRequest (Method r) (URL r)
                (Header_Set (Header r) "PAPI-Use-Prefixes" v) (Ctx r))
    req.

Definition GetEdgeHostnames (ctx : Context) (params : GetEdgeHostnamesRequest)
  : Op papi (option GetEdgeHostnamesResponse * option error) :=
  match GetEdgeHostnamesRequest_Validate params with
  | Some err =>
      let* e := Errorf [pct_w (errorString papi_ErrStructValidation);
                        lit ": "; pct_s_err err] in
      ret (None, Some e)
  | None =>
  let getURL := Sprintf [] [lit "/papi/v1/edgehostnames?contractId=";
                            pct_s (GHs_ContractID params); lit "&groupId=";
                            pct_s (GHs_GroupID params)] in
  let getURL :=
    if bool_decide (0 < length (GHs_Options params))%nat
    then Sprintf [] [pct_s getURL; lit "&options=";
                     pct_s (strings_Join (GHs_Options params) ",")]
    else getURL in
  match http_NewRequestWithContext ctx http_MethodGet getURL with
  | (_, Some err) =>
      let* e := Errorf [lit "failed to create getedgehostnames request: "; pct_w err] in
      ret (None, Some e)
  | (req, None) =>
  let* prefixes := read_client usePrefixes in
  let req := set_PAPI_Use_Prefixes req (cast_ToString prefixes) in
  let* r := call_Exec0 req (zero : GetEdgeHostnamesResponse) in
  match r with
  | Err err =>
      let* e := Errorf [lit "getedgehostnames request failed: "; pct_w err] in
      ret (None, Some e)
  | Ok (resp, edgeHostnames) =>
      if bool_decide (Resp_StatusCode resp = http_StatusNotFound)
      then
        let* e := Errorf [pct_w (errorString session_ErrNotFound); lit ": ";
                          pct_s getURL] in
        ret (None, Some e)
      else if bool_decide (Resp_StatusCode resp ≠ http_StatusOK)
      then ret (None, Some (session_NewAPIError resp))
      else ret (Some edgeHostnames, None)
  end end end.

Definition GetEdgeHostname (ctx : Context) (params : GetEdgeHostnameRequest)
  : Op papi (option GetEdgeHostnamesResponse * option error) :=
  match GetEdgeHostnameRequest_Validate params with
  | Some err =>
      let* e := Errorf [pct_w (errorString papi_ErrStructValidation);
                        lit ": "; pct_s_err err] in
      ret (None, Some e)
  | None =>
  let getURL := Sprintf [] [lit "/papi/v1/edgehostnames/";
                            pct_s (GH_EdgeHostnameID params); lit "?contractId=";
                            pct_s (GH_ContractID params); lit "&groupId=";
                            pct_s (GH_GroupID params)] in
  let getURL :=
    if bool_decide (0 < length (GH_Options params))%nat
    then Sprintf [] [pct_s getURL; lit "&options=";
                     pct_s (strings_Join (GH_Options params) ",")]
    else getURL in
  match http_NewRequestWithContext ctx http_MethodGet getURL with
  | (_, Some err) =>
      let* e := Errorf [lit "failed to create getedgehostname request: "; pct_w err] in
      ret (None, Some e)
  | (req, None) =>
  let* prefixes := read_client usePrefixes in
  let req := set_PAPI_Use_Prefixes req (cast_ToString prefixes) in
  let* r := call_Exec0 req (zero : GetEdgeHostnamesResponse) in
  match r with
  | Err err =>
      let* e := Errorf [lit "getedgehostname request failed: "; pct_w err] in
      ret (None, Some e)
  | Ok (resp, edgeHostname) =>
      if bool_decide (Resp_StatusCode resp = http_StatusNotFound)
      then
        let* e := Errorf [pct_w (errorString session_ErrNotFound); lit ": ";
                          pct_s getURL] in
        ret (None, Some e)
      else if bool_decide (Resp_StatusCode resp ≠ http_StatusOK)
      then ret (None, Some (session_NewAPIError resp))
      else ret (Some edgeHostname, None)
  end end end.

Definition CreateEdgeHostname (ctx : Context) (r : CreateEdgeHostnameRequest)
  : Op papi (option CreateEdgeHostnameResponse * option error) :=
  match CreateEdgeHostnameRequest_Validate r with
  | Some err =>
      let* e := Errorf [pct_w (errorString papi_ErrStructValidation);
                        lit ": "; pct_s_err err] in
      ret (None, Some e)
  | None =>
  let createURL := Sprintf [] [lit "/papi/v1/edgehostnames?contractId=";
                               pct_s (C_ContractID r); lit "&groupId=";
                               pct_s (C_GroupID r)] in
  let createURL :=
    if bool_decide (0 < length (C_Options r))%nat
    then Sprintf [] [pct_s createURL; lit "&options=";
                     pct_s (strings_Join (C_Options r) ",")]
    else createURL in
  match http_NewRequestWithContext ctx http_MethodPost createURL with
  | (_, Some err) =>
      let* e := Errorf [lit "failed to create createedgehostname request: ";
                        pct_w err] in
      ret (None, Some e)
  | (req, None) =>
  let* prefixes := read_client usePrefixes in
  let req := set_PAPI_Use_Prefixes req (cast_ToString prefixes) in
  let* res := call_Exec req (zero : CreateEdgeHostnameResponse)
                (Some (C_EdgeHostname r)) in
  match res with
  | Err err =>
      let* e := Errorf [lit "createedgehostname request failed: "; pct_w err] in
      ret (None, Some e)
  | Ok (resp, createResponse) =>
      if bool_decide (Resp_StatusCode resp ≠ http_StatusCreated)
      then ret (None, Some (session_NewAPIError resp))
      else
        match tools_FetchIDFromLocation (EdgeHostnameLink createResponse) with
        | Err err =>
            let* e := Errorf [pct_w (errorString tools_ErrInvalidLocation);
                              lit ": "; pct_s_err err] in
            ret (None, Some e)
        | Ok id =>
            let createResponse :=
              mkCreateEdgeHostnameResponse (EdgeHostnameLink createResponse) id in
            ret (Some createResponse, None)
        end
  end end end.

End papi.
#[global] Existing Instance GetEdgeHostnamesResponse_JSON.
#[global] Existing Instance CreateEdgeHostnameResponse_JSON.
End papi.

(** ** The client constructors of datastream, networklists and cps *)

(** [func Client(sess session.Session, opts ...Option)]: the struct is made
    with the session and then handed to each option in turn.  An option is a
    [func] on a pointer to the client struct: it can rewrite the struct in place and returns
    nothing. *)
Definition apply_options {C} (opts : list (C -> C)) (c : C) : C :=
  foldl (fun c opt => opt c) c opts.

Module datastream.
Record ds : Type := mkds { ds_Session : Session }.
Definition Option := ds -> ds.
#[global] Instance ds_HasSession : HasSession ds := ds_Session.
Definition Client (sess : Session) (opts : list Option) : ds :=
  apply_options opts (mkds sess).
(** [DelimiterTypePtr]: the address of a copy of its argument. *)
Definition DelimiterTypePtr {DelimiterType : Type} (d : DelimiterType)
  : option DelimiterType := Some d.
End datastream.

Module networklists.
Record networklists : Type := mknetworklists {
  nl_Session : Session;
  usePrefixes : bool
}.
Definition Option := networklists -> networklists.
#[global] Instance networklists_HasSession : HasSession networklists := nl_Session.
Definition Client (sess : Session) (opts : list Option) : networklists :=
  apply_options opts (mknetworklists sess false).
End networklists.

Module cps.
Record cps : Type := mkcps { cps_Session : Session }.
Definition Option := cps -> cps.
#[global] Instance cps_HasSession : HasSession cps := cps_Session.
Definition Client (sess : Session) (opts : list Option) : cps :=
  apply_options opts (mkcps sess).
End cps.

(** [tools.IntPtr], [tools.Int64Ptr] of package cloudlets/tools. *)
Module tools.
Definition IntPtr (i : Z) : option Z := Some i.
Definition Int64Ptr (i : Z) : option Z := Some i.
End tools.

(** ** What a caller and the session observe of an operation *)

(** Running [op] from [st] makes exactly the calls [ds] of [Exec], in that
    order; none when [ds] is empty. *)
Definition exec_calls {C A} (op : Op C A) (st : State C) (ds : list Dispatch)
  : Prop :=
  sent (snd (op st)) = (sent st ++ ds)%list.

(** What the session of the client in [st] answers to the call [d] made
    with the target [out]. *)
Definition answer {C} `{HasSession C} {T : Type} `{JSON T} (st : State C)
    (d : Dispatch) (out : T) : result (Response * T) :=
  match sent_body d with
  | None => Exec (session_of (client st)) T unit _ (sent_req d) out None
  | Some (existT B b) =>
      Exec (session_of (client st)) T B _ (sent_req d) out (Some b)
  end.

(** [op] returns a nil result with an error that is not nil. *)
Definition fails {C R} `{Zero R} (op : Op C (R * option error)) (st : State C)
  : Prop :=
  fst (fst (op st)) = zero /\ snd (fst (op st)) <> None.

(** The same for an operation that returns an error only. *)
Definition fails_plain {C} (op : Op C (option error)) (st : State C) : Prop :=
  fst (op st) <> None.

(** [op] fails before it reaches the session. *)
Definition refused {C R} `{Zero R} (op : Op C (R * option error)) (st : State C)
  : Prop :=
  fails op st /\ exec_calls op st [].

(** Whenever [op] has made its call of [Exec] with the target [out] and the
    session has answered with a response whose status is in [expected], [op]
    returns [result] of the decoded target and a nil error. *)
Definition yields {C R T} `{HasSession C} `{JSON T} (op : Op C (R * option error))
    (out : T) (expected : Z -> Prop) (result : T -> R) : Prop :=
  forall st d resp decoded,
    exec_calls op st [d] ->
    answer st d out = Ok (resp, decoded) ->
    expected (Resp_StatusCode resp) ->
    fst (op st) = (result decoded, None).

(** The shape of a failure of a gtm operation on the response [resp]: a nil
    result, and as error the address of a fresh [Error] that the mapper made
    of [resp]. *)
Definition gtm_failure `{Platform} `{gtm.Package} {R} `{Zero R}
    (op : Op gtm.gtm (R * option error)) (st : State gtm.gtm) (resp : Response)
  : Prop :=
  exists e,
    gtm.mapped (errors_heap st) resp e
    /\ fst (op st) = (zero, Some (apiError (length (errors_heap st))))
    /\ errors_heap (snd (op st)) = (errors_heap st ++ [e])%list.

(** Whenever [op] has made its call of [Exec] and the session has answered
    with a response whose status is in [unexpected], [op] returns a nil
    result and an error that stands in the relation [P] to the store left
    behind and to the response. *)
Definition rejects {C R T} `{HasSession C} `{JSON T} `{Zero R}
    (op : Op C (R * option error)) (out : T) (unexpected : Z -> Prop)
    (P : State C -> Response -> error -> Prop) : Prop :=
  forall st d resp decoded,
    exec_calls op st [d] ->
    answer st d out = Ok (resp, decoded) ->
    unexpected (Resp_StatusCode resp) ->
    exists err, fst (op st) = (zero, Some err) /\ P (snd (op st)) resp err.

(** [err] is a [*Error] of gtm that carries the status of [resp] and, when
    the body of [resp] decodes, its title and detail. *)
Definition carries `{Platform} {C} (st : State C) (resp : Response) (err : error)
  : Prop :=
  exists p,
    err = apiError p
    /\ StatusCode (deref (errors_heap st) p) = Resp_StatusCode resp
    /\ forall body e0,
         Body resp = Ok body ->
         json_Unmarshal body zero = (e0, None) ->
         Title (deref (errors_heap st) p) = Title e0
         /\ Detail (deref (errors_heap st) p) = Detail e0.

(** [outcome] is the aggregate of the entries of [rules]: nil when no entry
    holds an error, and otherwise a [validation.Errors] whose entries are
    exactly the entries of [rules] that hold one. *)
Definition aggregated (outcome : option error)
    (rules : gmap string (option error)) : Prop :=
  match outcome with
  | None => forall k err, rules !! k <> Some (Some err)
  | Some e =>
      exists m : gmap string error,
        e = validation_Errors m
        /\ forall k err, m !! k = Some err <-> rules !! k = Some (Some err)
  end.

(** [sub] occurs in [s]. *)
Fixpoint contains (sub s : string) : bool :=
  String.prefix sub s
  || match s with
     | EmptyString => false
     | String _ s' => contains sub s'
     end.

(** [op] calls [Exec] at most once. *)
Definition at_most_one_call {C A} (op : Op C A) : Prop :=
  forall st, exec_calls op st [] \/ exists d, exec_calls op st [d].

(** [op] allocates no [Error]. *)
Definition allocates_nothing {C A} (op : Op C A) : Prop :=
  forall st, errors_heap (snd (op st)) = errors_heap st.

(** [op] allocates an [Error] only to return its address as the error, and
    then one; every object allocated before is left as it was. *)
Definition allocates_its_error {C R} (op : Op C (R * option error)) : Prop :=
  forall st,
    errors_heap (snd (op st)) = errors_heap st
    \/ exists e,
         errors_heap (snd (op st)) = (errors_heap st ++ [e])%list
         /\ snd (fst (op st)) = Some (apiError (length (errors_heap st)))
         /\ forall p, (p < length (errors_heap st))%nat ->
                      deref (errors_heap (snd (op st))) p
                      = deref (errors_heap st) p.

(** Whenever [op] has made its call of [Exec] with the target [out] and
    [Exec] has returned the error [terr], [op] returns a nil result and the
    error [err] makes of [terr], texts being taken in the store of the
    call. *)
Definition transport_failure {C R T} `{HasSession C} `{JSON T} `{Zero R}
    (op : Op C (R * option error)) (out : T)
    (err : heap -> error -> error) : Prop :=
  forall st d terr,
    exec_calls op st [d] ->
    answer st d out = Err terr ->
    fst (op st) = (zero, Some (err (errors_heap st) terr)).

(** [err] answers [errors.Is(err, ErrNotFound)] by the status of [resp]
    and never matches [ErrBadRequest]. *)
Definition recognised `{Platform} {C} (st : State C) (resp : Response)
    (err : error) : Prop :=
  errors_Is (Is (errors_heap st)) err gtm_ErrNotFound
  = bool_decide (Resp_StatusCode resp = http_StatusNotFound)
  /\ errors_Is (Is (errors_heap st)) err gtm_ErrBadRequest = false.

(** What the edge hostname operations append to the URL for the options of
    the request: nothing for none, and otherwise the options joined by
    commas. *)
Definition options_query (options : list string) : string :=
  match options with
  | [] => ""
  | _ => "&options=" ++ strings_Join options ","
  end.

(** The request body passed to [Exec]. *)
Definition body_of {B : Type} (b : B) : option {B : Type & B} :=
  Some (existT B b).

(** ** A mock of the collaborators, for closed examples *)

Module Mock.

(** A JSON string literal, built from the code of the quote character. *)
Definition quoted (s : string) : string :=
  String (Ascii.ascii_of_nat 34) (s ++ String (Ascii.ascii_of_nat 34) "").

(** The problem-details body of the tests' 500 case. *)
Definition problem_body : string :=
  "{" ++ quoted "type" ++ ": " ++ quoted "internal_error" ++ ", "
  ++ quoted "title" ++ ": " ++ quoted "Internal Server Error" ++ ", "
  ++ quoted "detail" ++ ": " ++ quoted "Error fetching cidrmap" ++ ", "
  ++ quoted "status" ++ ": 500}".

(** What [encoding/json] says of the body [test]. *)
Definition syntax_error : error :=
  foreignError "invalid character 'e' in literal true (expecting 'r')".

(** A stand-in for the standard library.  The decoder knows two bodies: the
    text [test], which is not JSON, and [problem_body]; it takes any other
    body for an empty object.  A URL is a path with a raw query, every URL
    parses and every request can be built. *)
Definition platform : Platform := {|
  session_ErrNotFound_text := "404 not found";
  tools_ErrInvalidLocation_text := "response location URL is invalid";
  json_MarshalIndent := fun e =>
    inl ("{type: " ++ Type_ e ++ ", title: " ++ Title e ++ ", detail: " ++ Detail e ++ "}");
  json_Unmarshal := fun body e =>
    if bool_decide (body = "test") then (e, Some syntax_error)
    else if bool_decide (body = problem_body)
    then (mkError "internal_error" "Internal Server Error" "Error fetching cidrmap"
            (Instance_ e) (BehaviorName e) (ErrorLocation e) (StatusCode e), None)
    else (e, None);
  url_URL := string * string;
  url_Values := list (string * string);
  url_Parse := fun s => Ok (s, "");
  URL_Query := fun _ => [];
  Values_Add := fun q k v => (q ++ [(k, v)])%list;
  Values_Set := fun q k v => [(k, v)];
  Values_Encode := fun q => strings_Join ((fun kv => fst kv ++ "=" ++ snd kv) <$> q) "&";
  URL_set_RawQuery := fun u q => (fst u, q);
  URL_String := fun u => if bool_decide (snd u = "") then fst u else fst u ++ "?" ++ snd u;
  http_NewRequest_error := fun _ _ _ => None
|}.

(** A platform on which no request can be built. *)
Definition no_request : error := foreignError "net/http: nil Context".
Definition platform_without_requests : Platform := {|
  session_ErrNotFound_text := "404 not found";
  tools_ErrInvalidLocation_text := "response location URL is invalid";
  json_MarshalIndent := @json_MarshalIndent platform;
  json_Unmarshal := @json_Unmarshal platform;
  url_URL := string * string;
  url_Values := list (string * string);
  url_Parse := @url_Parse platform;
  URL_Query := @URL_Query platform;
  Values_Add := @Values_Add platform;
  Values_Set := @Values_Set platform;
  Values_Encode := @Values_Encode platform;
  URL_set_RawQuery := @URL_set_RawQuery platform;
  URL_String := @URL_String platform;
  http_NewRequest_error := fun _ _ _ => Some no_request
|}.

(** A session that answers every call with the given status and body.  As
    the session of the SDK does, it decodes the body into the target on a
    2xx status other than 204 and 205, and turns a decoding error into an
    error of its own. *)
Definition server (status : Z) (body : string) : Session :=
  {| Exec := fun T B decoder req out _ =>
       if bool_decide (200 <= status < 300 /\ status <> 204 /\ status <> 205)
       then
         match decoder body out with
         | (decoded, None) => Ok (mkResponse status (Ok body), decoded)
         | (_, Some err) => Err (wrapError "unmarshaling failed" err)
         end
       else Ok (mkResponse status (Ok body), out) |}.

(** Client structs: the session alone, and the session with a flag. *)
Record plain_client : Type := { embedded : Session }.
Record prefixed_client : Type := { pc_Session : Session; pc_usePrefixes : bool }.
Definition plain_HasSession : HasSession plain_client := embedded.
Definition prefixed_HasSession : HasSession prefixed_client := pc_Session.

Definition start {C} (c : C) : State C := mkState c [] [].

(** The mapper of the other packages: an error known by its text. *)
Definition foreign_mapper (r : Response) : error :=
  foreignError ("API error: status " ++ pretty (Resp_StatusCode r)).

(** A stand-in for [tools.FetchIDFromLocation]: a location that opens with
    a colon is no URL (it has no scheme); of any other, the ID is the last
    segment of the path, the path ending at the question mark. *)
Fixpoint before_question_mark (s : string) : string :=
  match s with
  | EmptyString => EmptyString
  | String c s' =>
      if bool_decide (c = Ascii.ascii_of_nat 63) then EmptyString
      else String c (before_question_mark s')
  end.
Fixpoint last_segment (s : string) (acc : string) : string :=
  match s with
  | EmptyString => acc
  | String c s' =>
      if bool_decide (c = Ascii.ascii_of_nat 47) then last_segment s' s'
      else last_segment s' acc
  end.
Definition fetch_id (loc : string) : result string :=
  if String.prefix ":" loc
  then Err (foreignError ("parse " ++ loc ++ ": missing protocol scheme"))
  else let path := before_question_mark loc in Ok (last_segment path path).

(** Bodies of a 201 answer to CreateEdgeHostname: one with the link of the
    new edge hostname, one with a link that is no URL. *)
Definition created_link : string :=
  "/papi/v1/edgehostnames/ehn_895822?contractId=ctr_1&groupId=grp_2".
Definition created_body : string :=
  "{" ++ quoted "edgeHostnameLink" ++ ": " ++ quoted created_link ++ "}".
Definition broken_link_body : string :=
  "{" ++ quoted "edgeHostnameLink" ++ ": " ++ quoted "://not-a-url" ++ "}".

(** A body of a 200 answer to ListCidrMaps and GetCidrMap. *)
Definition cidr_map_body : string :=
  "{" ++ quoted "name" ++ ": " ++ quoted "The North" ++ "}".

(** The decoders know these bodies and take any other for an empty
    object. *)
Definition keep {T} : JSON T := fun _ out => (out, None).

Definition edgeworkers_decoders : edgeworkers.Decoders := {|
  edgeworkers.Deactivation_JSON := keep;
  edgeworkers.ListResponse_JSON := keep
|}.

(** The four packages over these stand-ins. *)
Definition edgeworkers_pkg : edgeworkers.Package := {|
  edgeworkers.edgeworkers := plain_client;
  edgeworkers.edgeworkers_Session := plain_HasSession;
  edgeworkers.ActivationNetworkProduction := "PRODUCTION";
  edgeworkers.ActivationNetworkStaging := "STAGING";
  edgeworkers.edgeworkers_Error := foreign_mapper
|}.

Definition gtm_pkg : gtm.Package := {|
  gtm.gtm := plain_client;
  gtm.gtm_Session := plain_HasSession;
  gtm.Link := string;
  gtm.ResponseStatus := string;
  gtm.CidrMapResponse := option string;
  gtm.ResponseBody := option string;
  gtm.CidrMapResponse_zero := None;
  gtm.ResponseBody_zero := None;
  gtm.CidrMapResponse_Status := fun r => r;
  gtm.ResponseBody_Status := fun r => r;
  gtm.schemaVersion := "v1.4";
  gtm.versionHeader := fun h method version =>
    Header_Set h "Accept" ("application/vnd.config-gtm." ++ version ++ "+json")
|}.

Definition cloudlets_pkg : cloudlets.Package := {|
  cloudlets.cloudlets := plain_client;
  cloudlets.cloudlets_Session := plain_HasSession;
  cloudlets.OriginType := string;
  cloudlets.cloudlets_Error := foreign_mapper
|}.

Definition papi_pkg : papi.Package := {|
  papi.papi := prefixed_client;
  papi.papi_Session := prefixed_HasSession;
  papi.usePrefixes := pc_usePrefixes;
  papi.session_NewAPIError := foreign_mapper;
  papi.tools_FetchIDFromLocation := fetch_id
|}.

Definition gtm_decoders : @gtm.Decoders gtm_pkg := {|
  gtm.CidrMap_JSON := fun body out =>
    if bool_decide (body = cidr_map_body)
    then (gtm.mkCidrMap (gtm.DefaultDatacenter out) (gtm.Assignments out)
            "The North" (gtm.Links out), None)
    else (out, None);
  gtm.CidrMapList_JSON := keep;
  gtm.CidrMapResponse_JSON := keep;
  gtm.ResponseBody_JSON := keep
|}.

Definition cloudlets_decoders : @cloudlets.Decoders cloudlets_pkg := {|
  cloudlets.GetPolicyPropertiesResponse_JSON := keep
|}.

Definition papi_decoders : papi.Decoders := {|
  papi.GetEdgeHostnamesResponse_JSON := keep;
  papi.CreateEdgeHostnameResponse_JSON := fun body out =>
    if bool_decide (body = created_body)
    then (papi.mkCreateEdgeHostnameResponse created_link
            (papi.EdgeHostnameID out), None)
    else if bool_decide (body = broken_link_body)
    then (papi.mkCreateEdgeHostnameResponse "://not-a-url"
            (papi.EdgeHostnameID out), None)
    else (out, None)
|}.

(** Requests that pass validation. *)
Definition valid_list : papi.GetEdgeHostnamesRequest := {|
  papi.GHs_ContractID := "ctr_1";
  papi.GHs_GroupID := "grp_2";
  papi.GHs_Options := []
|}.
Definition valid_delete : cloudlets.DeletePolicyPropertyRequest := {|
  cloudlets.PolicyID := 7;
  cloudlets.PropertyID := 9;
  cloudlets.Network := ""
|}.

(** Clients over a server with the given answer. *)
Definition plain (status : Z) (body : string) : plain_client :=
  {| embedded := server status body |}.
Definition prefixed (status : Z) (body : string) : prefixed_client :=
  {| pc_Session := server status body; pc_usePrefixes := true |}.

Definition valid_create : papi.CreateEdgeHostnameRequest := {|
  papi.C_ContractID := "ctr_1";
  papi.C_GroupID := "grp_2";
  papi.C_Options := [];
  papi.C_EdgeHostname := {|
    papi.ProductID := "prd_1";
    papi.DomainPrefix := "www.example.com";
    papi.DomainSuffix := "edgesuite.net";
    papi.Secure := false;
    papi.SecureNetwork := "STANDARD_TLS";
    papi.SlotNumber := 0;
    papi.IPVersionBehavior := "IPV4";
    papi.CertEnrollmentID := 0;
    papi.UseCases := []
  |}
|}.

(** A session that cannot reach the server. *)
Definition connection_refused : error :=
  foreignError "dial tcp 127.0.0.1:443: connect: connection refused".
Definition unreachable : Session :=
  {| Exec := fun T B decoder req out _ => Err connection_refused |}.

(** A create request that asks for the IPv6 behaviour. *)
Definition ipv6_create : papi.CreateEdgeHostnameRequest := {|
  papi.C_ContractID := "ctr_1";
  papi.C_GroupID := "grp_2";
  papi.C_Options := ["opt1"; "opt2"];
  papi.C_EdgeHostname := {|
    papi.ProductID := "prd_1";
    papi.DomainPrefix := "www.example.com";
    papi.DomainSuffix := "edgesuite.net";
    papi.Secure := false;
    papi.SecureNetwork := "STANDARD_TLS";
    papi.SlotNumber := 0;
    papi.IPVersionBehavior := "IPV6_COMPLIANCE";
    papi.CertEnrollmentID := 0;
    papi.UseCases := []
  |}
|}.

(** A cidr map that passes validation. *)
Definition the_north : gtm.CidrMap (H0 := gtm_pkg) :=
  gtm.mkCidrMap
    (Some {| gtm.Nickname := "all others"; gtm.DatacenterId := 5400 |})
    [] "The North" [].

End Mock.

(** * Properties *)

(** ** The monad and the store *)

Lemma exec_calls_ret {C A} (a : A) (st : State C) : exec_calls (ret a) st [].
Proof. unfold exec_calls, ret. cbn. by rewrite app_nil_r. Qed.

Lemma exec_calls_Errorf `{Platform} {C A} (vs : list verb) (k : error -> A)
    (st : State C) :
  exec_calls (let* e := Errorf vs in ret (k e)) st [].
Proof. unfold exec_calls, bind, Errorf, ret. cbn. by rewrite app_nil_r. Qed.

(** ** Validation comes before dispatch *)

Section validation_first.
Context `{Platform}.
Context `{edgeworkers.Package} `{gtm.Package} `{cloudlets.Package} `{papi.Package}.
Context `{!edgeworkers.Decoders} `{!gtm.Decoders} `{!cloudlets.Decoders}
  `{!papi.Decoders}.

(** Each operation opens with the test of [Validate]; on an error it
    formats its own error and returns. *)
Ltac refuse E :=
  let e := fresh "e" in
  intros; match goal with Hv : _ <> None |- _ => revert Hv end;
  unfold E;
  match goal with |- context [match ?v with Some _ => _ | None => _ end] =>
    destruct v as [e|]; [intros _|congruence] end;
  unfold refused, fails, fails_plain, exec_calls, bind, Errorf, ret; cbn;
  rewrite ?app_nil_r; repeat split; congruence.

Lemma ListDeactivations_refuses ctx params st :
  edgeworkers.ListDeactivationsRequest_Validate params <> None ->
  refused (edgeworkers.ListDeactivations ctx params) st.
Proof. refuse @edgeworkers.ListDeactivations. Qed.

Lemma DeactivateVersion_refuses ctx params st :
  edgeworkers.DeactivateVersionRequest_Validate params <> None ->
  refused (edgeworkers.DeactivateVersion ctx params) st.
Proof. refuse @edgeworkers.DeactivateVersion. Qed.

Lemma GetDeactivation_refuses ctx params st :
  edgeworkers.GetDeactivationRequest_Validate params <> None ->
  refused (edgeworkers.GetDeactivation ctx params) st.
Proof. refuse @edgeworkers.GetDeactivation. Qed.

Lemma DeletePolicyProperty_refuses ctx params st :
  cloudlets.DeletePolicyPropertyRequest_Validate params <> None ->
  fails_plain (cloudlets.DeletePolicyProperty ctx params) st
  /\ exec_calls (cloudlets.DeletePolicyProperty ctx params) st [].
Proof. refuse @cloudlets.DeletePolicyProperty. Qed.

Lemma save_refuses ctx cidr domainName st :
  gtm.CidrMap_Validate cidr <> None ->
  refused (gtm.save cidr ctx domainName) st.
Proof. refuse @gtm.save. Qed.

Lemma UpdateCidrMap_refuses ctx cidr domainName st :
  gtm.CidrMap_Validate cidr <> None ->
  refused (gtm.UpdateCidrMap ctx cidr domainName) st.
Proof.
  intros Hv. unfold gtm.UpdateCidrMap, gtm.save.
  destruct (gtm.CidrMap_Validate cidr) as [e|]; [|congruence].
  unfold refused, fails, exec_calls, bind, Errorf, ret; cbn.
  rewrite app_nil_r. repeat split; congruence.
Qed.

Lemma DeleteCidrMap_refuses ctx cidr domainName st :
  gtm.CidrMap_Validate cidr <> None ->
  refused (gtm.DeleteCidrMap ctx cidr domainName) st.
Proof. refuse @gtm.DeleteCidrMap. Qed.

Lemma GetEdgeHostnames_refuses ctx params st :
  papi.GetEdgeHostnamesRequest_Validate params <> None ->
  refused (papi.GetEdgeHostnames ctx params) st.
Proof. refuse @papi.GetEdgeHostnames. Qed.

Lemma GetEdgeHostname_refuses ctx params st :
  papi.GetEdgeHostnameRequest_Validate params <> None ->
  refused (papi.GetEdgeHostname ctx params) st.
Proof. refuse @papi.GetEdgeHostname. Qed.

Lemma CreateEdgeHostname_refuses ctx r st :
  papi.CreateEdgeHostnameRequest_Validate r <> None ->
  refused (papi.CreateEdgeHostname ctx r) st.
Proof. refuse @papi.CreateEdgeHostname. Qed.

(** C1.  In every operation of the sources whose request has a [Validate]
    method (ListDeactivations, DeactivateVersion, GetDeactivation,
    DeletePolicyProperty, CreateCidrMap and UpdateCidrMap through [save],
    DeleteCidrMap, GetEdgeHostnames, GetEdgeHostname, CreateEdgeHostname):
    when [Validate] returns an error that is not nil, the operation returns
    a nil result with an error that is not nil, and makes no call of the
    session's [Exec]. *)
Theorem validation_failure_short_circuits (ctx : Context) :
  (forall params st,
      edgeworkers.ListDeactivationsRequest_Validate params <> None ->
      refused (edgeworkers.ListDeactivations ctx params) st)
  /\ (forall params st,
      edgeworkers.DeactivateVersionRequest_Validate params <> None ->
      refused (edgeworkers.DeactivateVersion ctx params) st)
  /\ (forall params st,
      edgeworkers.GetDeactivationRequest_Validate params <> None ->
      refused (edgeworkers.GetDeactivation ctx params) st)
  /\ (forall params st,
      cloudlets.DeletePolicyPropertyRequest_Validate params <> None ->
      fails_plain (cloudlets.DeletePolicyProperty ctx params) st
      /\ exec_calls (cloudlets.DeletePolicyProperty ctx params) st [])
  /\ (forall cidr domainName st,
      gtm.CidrMap_Validate cidr <> None ->
      refused (gtm.CreateCidrMap ctx cidr domainName) st
      /\ refused (gtm.UpdateCidrMap ctx cidr domainName) st
      /\ refused (gtm.DeleteCidrMap ctx cidr domainName) st)
  /\ (forall params st,
      papi.GetEdgeHostnamesRequest_Validate params <> None ->
      refused (papi.GetEdgeHostnames ctx params) st)
  /\ (forall params st,
      papi.GetEdgeHostnameRequest_Validate params <> None ->
      refused (papi.GetEdgeHostname ctx params) st)
  /\ (forall r st,
      papi.CreateEdgeHostnameRequest_Validate r <> None ->
      refused (papi.CreateEdgeHostname ctx r) st).
Proof.
  split; [intros; by apply ListDeactivations_refuses|].
  split; [intros; by apply DeactivateVersion_refuses|].
  split; [intros; by apply GetDeactivation_refuses|].
  split; [intros; by apply DeletePolicyProperty_refuses|].
  split.
  { intros cidr domainName st Hv. split; [|split].
    - by apply save_refuses.
    - by apply UpdateCidrMap_refuses.
    - by apply DeleteCidrMap_refuses. }
  split; [intros; by apply GetEdgeHostnames_refuses|].
  split; [intros; by apply GetEdgeHostname_refuses|].
  intros; by apply CreateEdgeHostname_refuses.
Qed.

End validation_first.

(** ** The answer of the session decides the result *)

Lemma app_one_nil {A} (l : list A) (d : A) : l <> (l ++ [d])%list.
Proof. intros E. apply (f_equal length) in E. rewrite length_app in E. cbn in E. lia. Qed.

Lemma app_one_inj {A} (l : list A) (d d' : A) :
  (l ++ [d])%list = (l ++ [d'])%list -> d = d'.
Proof. intros E. apply app_inv_head in E. congruence. Qed.

(** Texts put together by [fmt.Sprintf], and the query of the options. *)
Lemma append_empty (s : string) : s ++ "" = s.
Proof.
  induction s as [|c s IH]; [reflexivity|].
  change (String c (s ++ "") = String c s). by rewrite IH.
Qed.

Lemma append_assoc (s t u : string) : (s ++ t) ++ u = s ++ t ++ u.
Proof.
  induction s as [|c s IH]; [reflexivity|].
  change (String c ((s ++ t) ++ u) = String c (s ++ t ++ u)). by rewrite IH.
Qed.

Lemma options_query_some (options : list string) :
  (0 < length options)%nat ->
  options_query options = "&options=" ++ strings_Join options ",".
Proof. destruct options; [cbn; lia|done]. Qed.

Lemma options_query_none (options : list string) :
  ~ (0 < length options)%nat -> options_query options = "".
Proof. destruct options; [done|cbn; lia]. Qed.

(** *** The error mapper of gtm *)

Section mapper.
Context `{Platform} `{gtm.Package}.

Lemma deref_fresh (h : heap) (e : Error) : deref (h ++ [e])%list (length h) = e.
Proof. unfold deref. rewrite app_nth2; [|lia]. by rewrite Nat.sub_diag. Qed.

Lemma deref_alloc (h : heap) (e : Error) :
  deref (snd (alloc h e)) (fst (alloc h e)) = e.
Proof. apply deref_fresh. Qed.

(** Allocation leaves the objects already there as they are. *)
Lemma deref_kept (h : heap) (e : Error) (p : ptr) :
  (p < length h)%nat -> deref (h ++ [e])%list p = deref h p.
Proof. intros Hp. unfold deref. by rewrite app_nth1. Qed.

(** The mapper allocates one [Error], returns its address, and makes no
    call of [Exec]. *)
Lemma Error_mapper_allocates (r : Response) (st : State gtm.gtm) :
  exists e,
    gtm.Error_mapper r st
    = (apiError (length (errors_heap st)),
       mkState (client st) (errors_heap st ++ [e])%list (sent st))
    /\ gtm.mapped (errors_heap st) r e.
Proof.
  unfold gtm.Error_mapper, gtm.mapped.
  destruct (Body r) as [body|err]; cbn.
  - destruct (json_Unmarshal body zero) as [e0 [err|]] eqn:Eu;
      unfold bind, ret, new_Error, text_of; cbn; eexists; (split; [reflexivity|]);
      cbn; auto.
  - unfold bind, ret, new_Error, text_of; cbn. eexists; split; [reflexivity|].
    cbn; auto.
Qed.

(** Whatever the body, the mapped error has the status of the response. *)
Lemma mapped_StatusCode (h : heap) (r : Response) (e : Error) :
  gtm.mapped h r e -> StatusCode e = Resp_StatusCode r.
Proof.
  unfold gtm.mapped. destruct (Body r) as [body|err].
  - destruct (json_Unmarshal body zero) as [e0 [err|]]; intros ->; reflexivity.
  - intros ->; reflexivity.
Qed.

(** C6, as the code has it.  On every response the mapper returns a typed
    [Error] whose [StatusCode] is the status of the response, whether or
    not the body decodes; when the body does not decode, its [Title] is the
    fixed text [Failed to unmarshal error body] and its [Detail] the text of
    the decoding error (the raw body is in neither). *)
Theorem Error_mapper_on_undecodable_body (r : Response) (st : State gtm.gtm) :
  exists p e,
    gtm.Error_mapper r st
    = (apiError p, mkState (client st) (errors_heap st ++ [e])%list (sent st))
    /\ deref (errors_heap st ++ [e])%list p = e
    /\ StatusCode e = Resp_StatusCode r
    /\ forall body e0 err,
         Body r = Ok body ->
         json_Unmarshal body zero = (e0, Some err) ->
         Title e = "Failed to unmarshal error body"
         /\ Detail e = error_text (errors_heap st) err.
Proof.
  destruct (Error_mapper_allocates r st) as (e & Hrun & Hm).
  exists (length (errors_heap st)), e.
  split; [exact Hrun|]. split; [apply deref_fresh|].
  split; [by eapply mapped_StatusCode|].
  intros body e0 err Hb Hu. unfold gtm.mapped in Hm. rewrite Hb, Hu in Hm.
  by subst e.
Qed.

End mapper.

(** Case analysis along an operation, driven by the fact [Hd] that it made
    the call [d]: the branches that return before [Exec] contradict [Hd], the
    others fix the request that was passed. *)
Ltac along Hd :=
  repeat match type of Hd with
  | context [gtm.Error_mapper ?r ?s] =>
      let e := fresh "e" in
      let Hrun := fresh "Hrun" in
      let Hm := fresh "Hm" in
      destruct (Error_mapper_allocates r s) as (e & Hrun & Hm);
      rewrite Hrun in *; clear Hrun; cbn in *
  | context [match ?x with _ => _ end] =>
      let E := fresh "E" in destruct x eqn:E
  | context [if ?b then _ else _] =>
      let E := fresh "E" in destruct b eqn:E
  end;
  cbn in Hd; rewrite ?app_nil_r in Hd;
  try (exfalso; exact (app_one_nil _ _ Hd));
  try (apply app_one_inj in Hd).

(** An operation [E] that made the call [d], answered by [Hx]. *)
Ltac answered E :=
  let Hd := fresh "Hd" in
  let Hx := fresh "Hx" in
  unfold exec_calls, E; intros Hd Hx;
  unfold bind, ret, Errorf, call_Exec0, call_Exec, read_client, answer in *;
  cbn in *; along Hd; subst; cbn in Hx; rewrite Hx in *; simplify_eq; cbn;
  repeat match goal with
         | Hb : bool_decide _ = true |- _ => apply bool_decide_eq_true in Hb
         | Hb : bool_decide _ = false |- _ => apply bool_decide_eq_false in Hb
         | Hb : _ && _ = true |- _ => apply andb_true_iff in Hb; destruct Hb
         | Hb : _ && _ = false |- _ => apply andb_false_iff in Hb; destruct Hb
         end.

(** The goals left: a status at odds with the branch, or the witness that
    the branch has produced. *)
Ltac settle :=
  first [ contradiction | congruence | tauto | by eauto
        | by (eexists; repeat split; eauto) | by intuition congruence
        | by (exfalso;
              unfold http_StatusOK, http_StatusCreated, http_StatusNoContent,
                http_StatusNotFound in *; lia) ].

Section answers.
Context `{Platform}.
Context `{edgeworkers.Package} `{gtm.Package} `{cloudlets.Package} `{papi.Package}.
Context `{!edgeworkers.Decoders} `{!gtm.Decoders} `{!cloudlets.Decoders}
  `{!papi.Decoders}.

(** *** edgeworkers *)

Lemma ListDeactivations_success ctx params st d resp
    (decoded : edgeworkers.EdgeWorkerListDeactivationsResponse) :
  exec_calls (edgeworkers.ListDeactivations ctx params) st [d] ->
  answer st d zero = Ok (resp, decoded) ->
  Resp_StatusCode resp = http_StatusOK ->
  fst (edgeworkers.ListDeactivations ctx params st) = (Some decoded, None).
Proof. answered @edgeworkers.ListDeactivations; intros; congruence. Qed.

Lemma ListDeactivations_failure ctx params st d resp
    (decoded : edgeworkers.EdgeWorkerListDeactivationsResponse) :
  exec_calls (edgeworkers.ListDeactivations ctx params) st [d] ->
  answer st d zero = Ok (resp, decoded) ->
  Resp_StatusCode resp <> http_StatusOK ->
  fst (edgeworkers.ListDeactivations ctx params st)
  = (None,
     Some (wrapError
             ("list deactivations: "
              ++ error_text (errors_heap st) (edgeworkers.edgeworkers_Error resp))
             (edgeworkers.edgeworkers_Error resp))).
Proof.
  answered @edgeworkers.ListDeactivations; intros; rewrite ?append_empty; settle.
Qed.

Lemma DeactivateVersion_success ctx params st d resp
    (decoded : edgeworkers.Deactivation) :
  exec_calls (edgeworkers.DeactivateVersion ctx params) st [d] ->
  answer st d zero = Ok (resp, decoded) ->
  Resp_StatusCode resp = http_StatusCreated ->
  fst (edgeworkers.DeactivateVersion ctx params st) = (Some decoded, None).
Proof. answered @edgeworkers.DeactivateVersion; intros; congruence. Qed.

Lemma DeactivateVersion_failure ctx params st d resp
    (decoded : edgeworkers.Deactivation) :
  exec_calls (edgeworkers.DeactivateVersion ctx params) st [d] ->
  answer st d zero = Ok (resp, decoded) ->
  Resp_StatusCode resp <> http_StatusCreated ->
  fst (edgeworkers.DeactivateVersion ctx params st)
  = (None,
     Some (wrapError
             ("deactivate version: "
              ++ error_text (errors_heap st) (edgeworkers.edgeworkers_Error resp))
             (edgeworkers.edgeworkers_Error resp))).
Proof.
  answered @edgeworkers.DeactivateVersion; intros; rewrite ?append_empty; settle.
Qed.

Lemma GetDeactivation_success ctx params st d resp
    (decoded : edgeworkers.Deactivation) :
  exec_calls (edgeworkers.GetDeactivation ctx params) st [d] ->
  answer st d zero = Ok (resp, decoded) ->
  Resp_StatusCode resp = http_StatusOK ->
  fst (edgeworkers.GetDeactivation ctx params st) = (Some decoded, None).
Proof. answered @edgeworkers.GetDeactivation; intros; congruence. Qed.

Lemma GetDeactivation_failure ctx params st d resp
    (decoded : edgeworkers.Deactivation) :
  exec_calls (edgeworkers.GetDeactivation ctx params) st [d] ->
  answer st d zero = Ok (resp, decoded) ->
  Resp_StatusCode resp <> http_StatusOK ->
  fst (edgeworkers.GetDeactivation ctx params st)
  = (None,
     Some (wrapError
             ("get deactivation: "
              ++ error_text (errors_heap st) (edgeworkers.edgeworkers_Error resp))
             (edgeworkers.edgeworkers_Error resp))).
Proof.
  answered @edgeworkers.GetDeactivation; intros; rewrite ?append_empty; settle.
Qed.

(** *** gtm: the cidr map operations *)

Lemma GetCidrMap_success ctx name domainName st d resp (decoded : gtm.CidrMap) :
  exec_calls (gtm.GetCidrMap ctx name domainName) st [d] ->
  answer st d zero = Ok (resp, decoded) ->
  Resp_StatusCode resp = http_StatusOK ->
  fst (gtm.GetCidrMap ctx name domainName st) = (Some decoded, None).
Proof. answered @gtm.GetCidrMap; intros; settle. Qed.

Lemma GetCidrMap_failure ctx name domainName st d resp (decoded : gtm.CidrMap) :
  exec_calls (gtm.GetCidrMap ctx name domainName) st [d] ->
  answer st d zero = Ok (resp, decoded) ->
  Resp_StatusCode resp <> http_StatusOK ->
  gtm_failure (gtm.GetCidrMap ctx name domainName) st resp.
Proof. unfold gtm_failure. answered @gtm.GetCidrMap; intros; settle. Qed.

Lemma ListCidrMaps_success ctx domainName st d resp (decoded : gtm.CidrMapList) :
  exec_calls (gtm.ListCidrMaps ctx domainName) st [d] ->
  answer st d zero = Ok (resp, decoded) ->
  Resp_StatusCode resp = http_StatusOK ->
  fst (gtm.ListCidrMaps ctx domainName st) = (gtm.CidrMapItems decoded, None).
Proof. answered @gtm.ListCidrMaps; intros; settle. Qed.

Lemma ListCidrMaps_failure ctx domainName st d resp (decoded : gtm.CidrMapList) :
  exec_calls (gtm.ListCidrMaps ctx domainName) st [d] ->
  answer st d zero = Ok (resp, decoded) ->
  Resp_StatusCode resp <> http_StatusOK ->
  gtm_failure (gtm.ListCidrMaps ctx domainName) st resp.
Proof. unfold gtm_failure. answered @gtm.ListCidrMaps; intros; settle. Qed.

Lemma save_success cidr ctx domainName st d resp (decoded : gtm.CidrMapResponse) :
  exec_calls (gtm.save cidr ctx domainName) st [d] ->
  answer st d zero = Ok (resp, decoded) ->
  Resp_StatusCode resp = http_StatusOK \/ Resp_StatusCode resp = http_StatusCreated ->
  fst (gtm.save cidr ctx domainName st) = (Some decoded, None).
Proof. answered @gtm.save; intros; settle. Qed.

Lemma save_failure cidr ctx domainName st d resp (decoded : gtm.CidrMapResponse) :
  exec_calls (gtm.save cidr ctx domainName) st [d] ->
  answer st d zero = Ok (resp, decoded) ->
  Resp_StatusCode resp <> http_StatusOK ->
  Resp_StatusCode resp <> http_StatusCreated ->
  gtm_failure (gtm.save cidr ctx domainName) st resp.
Proof. unfold gtm_failure. answered @gtm.save; intros; settle. Qed.

(** [UpdateCidrMap] is [save] with the result narrowed to its status. *)
Lemma UpdateCidrMap_save ctx cidr domainName st :
  gtm.UpdateCidrMap ctx cidr domainName st
  = (match fst (gtm.save cidr ctx domainName st) with
     | (_, Some err) => (None, Some err)
     | (Some stat, None) => (gtm.CidrMapResponse_Status stat, None)
     | (None, None) => (None, None)
     end, snd (gtm.save cidr ctx domainName st)).
Proof.
  unfold gtm.UpdateCidrMap, bind, ret.
  destruct (gtm.save cidr ctx domainName st) as [[[stat|] [err|]] st'];
    reflexivity.
Qed.

Lemma UpdateCidrMap_success ctx cidr domainName st d resp
    (decoded : gtm.CidrMapResponse) :
  exec_calls (gtm.UpdateCidrMap ctx cidr domainName) st [d] ->
  answer st d zero = Ok (resp, decoded) ->
  Resp_StatusCode resp = http_StatusOK \/ Resp_StatusCode resp = http_StatusCreated ->
  fst (gtm.UpdateCidrMap ctx cidr domainName st)
  = (gtm.CidrMapResponse_Status decoded, None).
Proof.
  unfold exec_calls. rewrite UpdateCidrMap_save. cbn. intros Hd Hx Hs.
  by rewrite (save_success cidr ctx domainName st d resp decoded Hd Hx Hs).
Qed.

Lemma UpdateCidrMap_failure ctx cidr domainName st d resp
    (decoded : gtm.CidrMapResponse) :
  exec_calls (gtm.UpdateCidrMap ctx cidr domainName) st [d] ->
  answer st d zero = Ok (resp, decoded) ->
  Resp_StatusCode resp <> http_StatusOK ->
  Resp_StatusCode resp <> http_StatusCreated ->
  gtm_failure (gtm.UpdateCidrMap ctx cidr domainName) st resp.
Proof.
  unfold exec_calls, gtm_failure. rewrite UpdateCidrMap_save. cbn.
  intros Hd Hx Hs Hs'.
  destruct (save_failure cidr ctx domainName st d resp decoded Hd Hx Hs Hs')
    as (e & Hm & Hr & Hh).
  exists e. rewrite Hr. auto.
Qed.

Lemma DeleteCidrMap_success ctx cidr domainName st d resp
    (decoded : gtm.ResponseBody) :
  exec_calls (gtm.DeleteCidrMap ctx cidr domainName) st [d] ->
  answer st d zero = Ok (resp, decoded) ->
  Resp_StatusCode resp = http_StatusOK ->
  fst (gtm.DeleteCidrMap ctx cidr domainName st)
  = (gtm.ResponseBody_Status decoded, None).
Proof. answered @gtm.DeleteCidrMap; intros; settle. Qed.

Lemma DeleteCidrMap_failure ctx cidr domainName st d resp
    (decoded : gtm.ResponseBody) :
  exec_calls (gtm.DeleteCidrMap ctx cidr domainName) st [d] ->
  answer st d zero = Ok (resp, decoded) ->
  Resp_StatusCode resp <> http_StatusOK ->
  gtm_failure (gtm.DeleteCidrMap ctx cidr domainName) st resp.
Proof. unfold gtm_failure. answered @gtm.DeleteCidrMap; intros; settle. Qed.

(** [save] returns a response whenever its error is nil. *)
Lemma save_some cidr ctx domainName (st : State gtm.gtm) :
  snd (fst (gtm.save cidr ctx domainName st)) = None ->
  fst (fst (gtm.save cidr ctx domainName st)) <> None.
Proof.
  unfold gtm.save, bind, ret, Errorf, call_Exec, http_NewRequestWithContext.
  destruct (gtm.CidrMap_Validate cidr); [done|].
  destruct (http_NewRequest_error _ _ _); [done|]. cbn.
  destruct (Exec _ _ _ _ _ _ _) as [[resp mapresp]|err]; [|done].
  destruct (_ && _); [|done].
  match goal with |- context [gtm.Error_mapper ?r ?s] =>
    destruct (Error_mapper_allocates r s) as (e & -> & _) end.
  done.
Qed.

(** *** cloudlets *)

Lemma GetPolicyProperties_success ctx policyID st d resp
    (decoded : cloudlets.GetPolicyPropertiesResponse) :
  exec_calls (cloudlets.GetPolicyProperties ctx policyID) st [d] ->
  answer st d zero = Ok (resp, decoded) ->
  Resp_StatusCode resp = http_StatusOK ->
  fst (cloudlets.GetPolicyProperties ctx policyID st) = (decoded, None).
Proof. answered @cloudlets.GetPolicyProperties; intros; settle. Qed.

Lemma GetPolicyProperties_failure ctx policyID st d resp
    (decoded : cloudlets.GetPolicyPropertiesResponse) :
  exec_calls (cloudlets.GetPolicyProperties ctx policyID) st [d] ->
  answer st d zero = Ok (resp, decoded) ->
  Resp_StatusCode resp <> http_StatusOK ->
  fst (cloudlets.GetPolicyProperties ctx policyID st)
  = (None,
     Some (wrapError
             ("get policy properties: "
              ++ error_text (errors_heap st) (cloudlets.cloudlets_Error resp))
             (cloudlets.cloudlets_Error resp))).
Proof.
  answered @cloudlets.GetPolicyProperties; intros; rewrite ?append_empty; settle.
Qed.

Lemma DeletePolicyProperty_success ctx params st d resp (decoded : unit) :
  exec_calls (cloudlets.DeletePolicyProperty ctx params) st [d] ->
  answer st d tt = Ok (resp, decoded) ->
  Resp_StatusCode resp = http_StatusNoContent ->
  fst (cloudlets.DeletePolicyProperty ctx params st) = None.
Proof. answered @cloudlets.DeletePolicyProperty; intros; settle. Qed.

(** Here no mapper is called: the error is the sentinel of the operation
    under a text that ends with the status in decimal. *)
Lemma DeletePolicyProperty_failure ctx params st d resp (decoded : unit) :
  exec_calls (cloudlets.DeletePolicyProperty ctx params) st [d] ->
  answer st d tt = Ok (resp, decoded) ->
  Resp_StatusCode resp <> http_StatusNoContent ->
  fst (cloudlets.DeletePolicyProperty ctx params st)
  = Some (wrapError (Sprintf (errors_heap st)
                       [pct_w (errorString ErrDeletePolicyProperty); lit ": ";
                        pct_d (Resp_StatusCode resp)])
            (errorString ErrDeletePolicyProperty)).
Proof. answered @cloudlets.DeletePolicyProperty; intros; settle. Qed.

(** *** papi *)

Lemma GetEdgeHostnames_success ctx params st d resp
    (decoded : papi.GetEdgeHostnamesResponse) :
  exec_calls (papi.GetEdgeHostnames ctx params) st [d] ->
  answer st d zero = Ok (resp, decoded) ->
  Resp_StatusCode resp = http_StatusOK ->
  fst (papi.GetEdgeHostnames ctx params st) = (Some decoded, None).
Proof. answered @papi.GetEdgeHostnames; intros; settle. Qed.

Lemma GetEdgeHostnames_not_found ctx params st d resp
    (decoded : papi.GetEdgeHostnamesResponse) :
  exec_calls (papi.GetEdgeHostnames ctx params) st [d] ->
  answer st d zero = Ok (resp, decoded) ->
  Resp_StatusCode resp = http_StatusNotFound ->
  fst (papi.GetEdgeHostnames ctx params st)
  = (None,
     Some (wrapError
             (session_ErrNotFound_text ++ ": "
              ++ "/papi/v1/edgehostnames?contractId=" ++ papi.GHs_ContractID params
              ++ "&groupId=" ++ papi.GHs_GroupID params
              ++ options_query (papi.GHs_Options params))
             (errorString session_ErrNotFound))).
Proof.
  answered @papi.GetEdgeHostnames; intros; try settle;
    first [ rewrite options_query_some by done
          | rewrite options_query_none by done ];
    by rewrite ?append_empty, ?append_assoc.
Qed.

Lemma GetEdgeHostnames_failure ctx params st d resp
    (decoded : papi.GetEdgeHostnamesResponse) :
  exec_calls (papi.GetEdgeHostnames ctx params) st [d] ->
  answer st d zero = Ok (resp, decoded) ->
  Resp_StatusCode resp <> http_StatusNotFound ->
  Resp_StatusCode resp <> http_StatusOK ->
  fst (papi.GetEdgeHostnames ctx params st)
  = (None, Some (papi.session_NewAPIError resp)).
Proof. answered @papi.GetEdgeHostnames; intros; settle. Qed.

Lemma GetEdgeHostname_success ctx params st d resp
    (decoded : papi.GetEdgeHostnamesResponse) :
  exec_calls (papi.GetEdgeHostname ctx params) st [d] ->
  answer st d zero = Ok (resp, decoded) ->
  Resp_StatusCode resp = http_StatusOK ->
  fst (papi.GetEdgeHostname ctx params st) = (Some decoded, None).
Proof. answered @papi.GetEdgeHostname; intros; settle. Qed.

Lemma GetEdgeHostname_not_found ctx params st d resp
    (decoded : papi.GetEdgeHostnamesResponse) :
  exec_calls (papi.GetEdgeHostname ctx params) st [d] ->
  answer st d zero = Ok (resp, decoded) ->
  Resp_StatusCode resp = http_StatusNotFound ->
  fst (papi.GetEdgeHostname ctx params st)
  = (None,
     Some (wrapError
             (session_ErrNotFound_text ++ ": "
              ++ "/papi/v1/edgehostnames/" ++ papi.GH_EdgeHostnameID params
              ++ "?contractId=" ++ papi.GH_ContractID params
              ++ "&groupId=" ++ papi.GH_GroupID params
              ++ options_query (papi.GH_Options params))
             (errorString session_ErrNotFound))).
Proof.
  answered @papi.GetEdgeHostname; intros; try settle;
    first [ rewrite options_query_some by done
          | rewrite options_query_none by done ];
    by rewrite ?append_empty, ?append_assoc.
Qed.

Lemma GetEdgeHostname_failure ctx params st d resp
    (decoded : papi.GetEdgeHostnamesResponse) :
  exec_calls (papi.GetEdgeHostname ctx params) st [d] ->
  answer st d zero = Ok (resp, decoded) ->
  Resp_StatusCode resp <> http_StatusNotFound ->
  Resp_StatusCode resp <> http_StatusOK ->
  fst (papi.GetEdgeHostname ctx params st)
  = (None, Some (papi.session_NewAPIError resp)).
Proof. answered @papi.GetEdgeHostname; intros; settle. Qed.

Lemma CreateEdgeHostname_failure ctx r st d resp
    (decoded : papi.CreateEdgeHostnameResponse) :
  exec_calls (papi.CreateEdgeHostname ctx r) st [d] ->
  answer st d zero = Ok (resp, decoded) ->
  Resp_StatusCode resp <> http_StatusCreated ->
  fst (papi.CreateEdgeHostname ctx r st)
  = (None, Some (papi.session_NewAPIError resp)).
Proof. answered @papi.CreateEdgeHostname; intros; settle. Qed.

Lemma CreateEdgeHostname_created ctx r st d resp
    (decoded : papi.CreateEdgeHostnameResponse) :
  exec_calls (papi.CreateEdgeHostname ctx r) st [d] ->
  answer st d zero = Ok (resp, decoded) ->
  Resp_StatusCode resp = http_StatusCreated ->
  match papi.tools_FetchIDFromLocation (papi.EdgeHostnameLink decoded) with
  | Ok id =>
      fst (papi.CreateEdgeHostname ctx r st)
      = (Some (papi.mkCreateEdgeHostnameResponse (papi.EdgeHostnameLink decoded) id),
         None)
  | Err err =>
      fst (papi.CreateEdgeHostname ctx r st)
      = (None, Some (wrapError
                       (Sprintf (errors_heap st)
                          [pct_w (errorString tools_ErrInvalidLocation); lit ": ";
                           pct_s_err err])
                       (errorString tools_ErrInvalidLocation)))
  end.
Proof.
  answered @papi.CreateEdgeHostname; intros;
    try match goal with Hf : papi.tools_FetchIDFromLocation _ = _ |- _ =>
          rewrite Hf end;
    settle.
Qed.

(** ** Success statuses *)

(** C2, as the code has it.  For every operation and every response whose
    status is in the operation's success set (200 for ListDeactivations,
    GetDeactivation, ListCidrMaps, GetCidrMap, DeleteCidrMap,
    GetPolicyProperties, GetEdgeHostnames and GetEdgeHostname; 201 for
    DeactivateVersion; 200 or 201 for the CidrMap save behind CreateCidrMap
    and UpdateCidrMap; 204 for DeletePolicyProperty), when [Exec] returns
    without transport error the operation returns the decoded value and a
    nil error.  CreateEdgeHostname, on 201, goes on to extract the ID from
    the decoded [EdgeHostnameLink]: it returns the decoded response with
    [EdgeHostnameID] set and a nil error when the extraction succeeds, and a
    nil result with an error that wraps [tools.ErrInvalidLocation] when it
    fails. *)
Theorem success_status_returns_decoded (ctx : Context) :
  (forall params,
      yields (edgeworkers.ListDeactivations ctx params) (zero : edgeworkers.EdgeWorkerListDeactivationsResponse) (eq http_StatusOK) Some)
  /\ (forall params,
      yields (edgeworkers.GetDeactivation ctx params) (zero : edgeworkers.Deactivation) (eq http_StatusOK) Some)
  /\ (forall params,
      yields (edgeworkers.DeactivateVersion ctx params) (zero : edgeworkers.Deactivation)
        (eq http_StatusCreated) Some)
  /\ (forall domainName,
      yields (gtm.ListCidrMaps ctx domainName) (zero : gtm.CidrMapList) (eq http_StatusOK)
        gtm.CidrMapItems)
  /\ (forall name domainName,
      yields (gtm.GetCidrMap ctx name domainName) (zero : gtm.CidrMap) (eq http_StatusOK) Some)
  /\ (forall cidr domainName,
      yields (gtm.CreateCidrMap ctx cidr domainName) (zero : gtm.CidrMapResponse)
        (fun s => s = http_StatusOK \/ s = http_StatusCreated) Some
      /\ yields (gtm.UpdateCidrMap ctx cidr domainName) (zero : gtm.CidrMapResponse)
           (fun s => s = http_StatusOK \/ s = http_StatusCreated)
           gtm.CidrMapResponse_Status
      /\ yields (gtm.DeleteCidrMap ctx cidr domainName) (zero : gtm.ResponseBody) (eq http_StatusOK)
           gtm.ResponseBody_Status)
  /\ (forall policyID,
      yields (cloudlets.GetPolicyProperties ctx policyID) (zero : cloudlets.GetPolicyPropertiesResponse) (eq http_StatusOK)
        (fun m => m))
  /\ (forall params st d resp decoded,
      exec_calls (cloudlets.DeletePolicyProperty ctx params) st [d] ->
      answer st d tt = Ok (resp, decoded) ->
      Resp_StatusCode resp = http_StatusNoContent ->
      fst (cloudlets.DeletePolicyProperty ctx params st) = None)
  /\ (forall params,
      yields (papi.GetEdgeHostnames ctx params) (zero : papi.GetEdgeHostnamesResponse) (eq http_StatusOK) Some)
  /\ (forall params,
      yields (papi.GetEdgeHostname ctx params) (zero : papi.GetEdgeHostnamesResponse) (eq http_StatusOK) Some)
  /\ (forall r st d resp (decoded : papi.CreateEdgeHostnameResponse),
      exec_calls (papi.CreateEdgeHostname ctx r) st [d] ->
      answer st d zero = Ok (resp, decoded) ->
      Resp_StatusCode resp = http_StatusCreated ->
      match papi.tools_FetchIDFromLocation (papi.EdgeHostnameLink decoded) with
      | Ok id =>
          fst (papi.CreateEdgeHostname ctx r st)
          = (Some (papi.mkCreateEdgeHostnameResponse
                     (papi.EdgeHostnameLink decoded) id), None)
      | Err err =>
          exists msg,
            fst (papi.CreateEdgeHostname ctx r st)
            = (None, Some (wrapError msg (errorString tools_ErrInvalidLocation)))
      end).
Proof.
  unfold yields.
  split; [by eauto using ListDeactivations_success|].
  split; [by eauto using GetDeactivation_success|].
  split; [by eauto using DeactivateVersion_success|].
  split; [by eauto using ListCidrMaps_success|].
  split; [by eauto using GetCidrMap_success|].
  split.
  { intros cidr domainName. unfold gtm.CreateCidrMap.
    split; [by eauto using save_success|].
    split; [by eauto using UpdateCidrMap_success|].
    by eauto using DeleteCidrMap_success. }
  split; [by eauto using GetPolicyProperties_success|].
  split; [by eauto using DeletePolicyProperty_success|].
  split; [by eauto using GetEdgeHostnames_success|].
  split; [by eauto using GetEdgeHostname_success|].
  intros r st d resp decoded Hd Hx Hs.
  pose proof (CreateEdgeHostname_created ctx r st d resp decoded Hd Hx Hs) as Hc.
  destruct (papi.tools_FetchIDFromLocation (papi.EdgeHostnameLink decoded));
    eauto.
Qed.

(** ** Other statuses *)

(** A failure of a gtm operation hands the caller an [Error] with the
    status of the response and the decoded title and detail. *)
Lemma gtm_failure_carries {R} `{Zero R} (op : Op gtm.gtm (R * option error))
    (st : State gtm.gtm) (resp : Response) :
  gtm_failure op st resp ->
  exists err, fst (op st) = (zero, Some err) /\ carries (snd (op st)) resp err.
Proof.
  intros (e & Hm & Hr & Hh). eexists; split; [exact Hr|].
  exists (length (errors_heap st)). rewrite Hh.
  rewrite deref_fresh.
  split; [reflexivity|]. split; [by eapply mapped_StatusCode|].
  intros body e0 Hb Hu. unfold gtm.mapped in Hm. rewrite Hb, Hu in Hm.
  by subst e.
Qed.

(** C3, as the code has it.  For every operation and every response whose
    status is outside the operation's success set, the operation returns a
    nil result and an error that is not nil.  In gtm (ListCidrMaps,
    GetCidrMap, the CidrMap save, DeleteCidrMap) the error is the [*Error]
    of the mapper: its [StatusCode] is the status of the response and its
    title and detail are those of the body when the body decodes.  In
    edgeworkers and in GetPolicyProperties the error wraps what the
    package's mapper makes of the response, under the text of the
    operation's sentinel, ": " and the text of the mapper's error.  In papi,
    GetEdgeHostnames and GetEdgeHostname answer 404 with the error whose
    text is the text of [session.ErrNotFound], ": " and the URL of the
    request (with the parameters and the options as they were sent), and
    which wraps [session.ErrNotFound]: it has no status field and nothing of
    the body; they answer any other status with [session.NewAPIError] of the
    response, as CreateEdgeHostname does for every status but 201.
    DeletePolicyProperty returns the error whose text is
    "delete policy property: " and the status of the response in decimal,
    and which wraps ErrDeletePolicyProperty. *)
Theorem failure_status_returns_error (ctx : Context) :
  (forall domainName,
      rejects (gtm.ListCidrMaps ctx domainName) (zero : gtm.CidrMapList)
        (fun s => s <> http_StatusOK) carries)
  /\ (forall name domainName,
      rejects (gtm.GetCidrMap ctx name domainName) (zero : gtm.CidrMap)
        (fun s => s <> http_StatusOK) carries)
  /\ (forall cidr domainName,
      rejects (gtm.CreateCidrMap ctx cidr domainName) (zero : gtm.CidrMapResponse)
        (fun s => s <> http_StatusOK /\ s <> http_StatusCreated) carries
      /\ rejects (gtm.UpdateCidrMap ctx cidr domainName) (zero : gtm.CidrMapResponse)
           (fun s => s <> http_StatusOK /\ s <> http_StatusCreated) carries
      /\ rejects (gtm.DeleteCidrMap ctx cidr domainName) (zero : gtm.ResponseBody)
           (fun s => s <> http_StatusOK) carries)
  /\ (forall params st d resp
             (decoded : edgeworkers.EdgeWorkerListDeactivationsResponse),
      exec_calls (edgeworkers.ListDeactivations ctx params) st [d] ->
      answer st d zero = Ok (resp, decoded) ->
      Resp_StatusCode resp <> http_StatusOK ->
      fst (edgeworkers.ListDeactivations ctx params st)
      = (None,
         Some (wrapError
                 ("list deactivations: "
                  ++ error_text (errors_heap st) (edgeworkers.edgeworkers_Error resp))
                 (edgeworkers.edgeworkers_Error resp))))
  /\ (forall params st d resp (decoded : edgeworkers.Deactivation),
      exec_calls (edgeworkers.GetDeactivation ctx params) st [d] ->
      answer st d zero = Ok (resp, decoded) ->
      Resp_StatusCode resp <> http_StatusOK ->
      fst (edgeworkers.GetDeactivation ctx params st)
      = (None,
         Some (wrapError
                 ("get deactivation: "
                  ++ error_text (errors_heap st) (edgeworkers.edgeworkers_Error resp))
                 (edgeworkers.edgeworkers_Error resp))))
  /\ (forall params st d resp (decoded : edgeworkers.Deactivation),
      exec_calls (edgeworkers.DeactivateVersion ctx params) st [d] ->
      answer st d zero = Ok (resp, decoded) ->
      Resp_StatusCode resp <> http_StatusCreated ->
      fst (edgeworkers.DeactivateVersion ctx params st)
      = (None,
         Some (wrapError
                 ("deactivate version: "
                  ++ error_text (errors_heap st) (edgeworkers.edgeworkers_Error resp))
                 (edgeworkers.edgeworkers_Error resp))))
  /\ (forall policyID st d resp
             (decoded : cloudlets.GetPolicyPropertiesResponse),
      exec_calls (cloudlets.GetPolicyProperties ctx policyID) st [d] ->
      answer st d zero = Ok (resp, decoded) ->
      Resp_StatusCode resp <> http_StatusOK ->
      fst (cloudlets.GetPolicyProperties ctx policyID st)
      = (None,
         Some (wrapError
                 ("get policy properties: "
                  ++ error_text (errors_heap st) (cloudlets.cloudlets_Error resp))
                 (cloudlets.cloudlets_Error resp))))
  /\ (forall params st d resp decoded,
      exec_calls (cloudlets.DeletePolicyProperty ctx params) st [d] ->
      answer st d tt = Ok (resp, decoded) ->
      Resp_StatusCode resp <> http_StatusNoContent ->
      fst (cloudlets.DeletePolicyProperty ctx params st)
      = Some (wrapError
                ("delete policy property: " ++ pretty (Resp_StatusCode resp))
                (errorString ErrDeletePolicyProperty)))
  /\ (forall params,
      rejects (papi.GetEdgeHostnames ctx params) (zero : papi.GetEdgeHostnamesResponse)
        (eq http_StatusNotFound)
        (fun _ _ err =>
           err = wrapError
                   (session_ErrNotFound_text ++ ": "
                    ++ "/papi/v1/edgehostnames?contractId="
                    ++ papi.GHs_ContractID params
                    ++ "&groupId=" ++ papi.GHs_GroupID params
                    ++ options_query (papi.GHs_Options params))
                   (errorString session_ErrNotFound))
      /\ rejects (papi.GetEdgeHostnames ctx params) (zero : papi.GetEdgeHostnamesResponse)
           (fun s => s <> http_StatusNotFound /\ s <> http_StatusOK)
           (fun _ resp err => err = papi.session_NewAPIError resp))
  /\ (forall params,
      rejects (papi.GetEdgeHostname ctx params) (zero : papi.GetEdgeHostnamesResponse)
        (eq http_StatusNotFound)
        (fun _ _ err =>
           err = wrapError
                   (session_ErrNotFound_text ++ ": "
                    ++ "/papi/v1/edgehostnames/" ++ papi.GH_EdgeHostnameID params
                    ++ "?contractId=" ++ papi.GH_ContractID params
                    ++ "&groupId=" ++ papi.GH_GroupID params
                    ++ options_query (papi.GH_Options params))
                   (errorString session_ErrNotFound))
      /\ rejects (papi.GetEdgeHostname ctx params) (zero : papi.GetEdgeHostnamesResponse)
           (fun s => s <> http_StatusNotFound /\ s <> http_StatusOK)
           (fun _ resp err => err = papi.session_NewAPIError resp))
  /\ (forall r,
      rejects (papi.CreateEdgeHostname ctx r) (zero : papi.CreateEdgeHostnameResponse)
        (fun s => s <> http_StatusCreated)
        (fun _ resp err => err = papi.session_NewAPIError resp)).
Proof.
  unfold rejects.
  split. { intros; apply gtm_failure_carries; eapply ListCidrMaps_failure; eauto. }
  split. { intros; apply gtm_failure_carries; eapply GetCidrMap_failure; eauto. }
  split.
  { intros cidr domainName. unfold gtm.CreateCidrMap. split; [|split].
    - intros st d resp decoded Hd Hx [Hs Hs'].
      apply gtm_failure_carries; eapply save_failure; eauto.
    - intros st d resp decoded Hd Hx [Hs Hs'].
      apply gtm_failure_carries; eapply UpdateCidrMap_failure; eauto.
    - intros; apply gtm_failure_carries; eapply DeleteCidrMap_failure; eauto. }
  split; [by eauto using ListDeactivations_failure|].
  split; [by eauto using GetDeactivation_failure|].
  split; [by eauto using DeactivateVersion_failure|].
  split; [by eauto using GetPolicyProperties_failure|].
  split.
  { intros params st d resp decoded Hd Hx Hs.
    rewrite (DeletePolicyProperty_failure ctx params st d resp decoded Hd Hx Hs).
    cbn. by rewrite append_empty. }
  split.
  { intros params. split.
    - intros st d resp decoded Hd Hx Hs. symmetry in Hs.
      rewrite (GetEdgeHostnames_not_found ctx params st d resp decoded Hd Hx Hs).
      by eauto.
    - intros st d resp decoded Hd Hx [Hs Hs'].
      rewrite (GetEdgeHostnames_failure ctx params st d resp decoded Hd Hx Hs Hs').
      by eauto. }
  split.
  { intros params. split.
    - intros st d resp decoded Hd Hx Hs. symmetry in Hs.
      rewrite (GetEdgeHostname_not_found ctx params st d resp decoded Hd Hx Hs).
      by eauto.
    - intros st d resp decoded Hd Hx [Hs Hs'].
      rewrite (GetEdgeHostname_failure ctx params st d resp decoded Hd Hx Hs Hs').
      by eauto. }
  intros r st d resp decoded Hd Hx Hs.
  rewrite (CreateEdgeHostname_failure ctx r st d resp decoded Hd Hx Hs).
  by eauto.
Qed.

(** ** The paths of the cidr map operations *)

(** C7.  GetCidrMap builds its request with method GET on the path
    /config-gtm/v1/domains/<domainName>/cidr-maps/<name>, and ListCidrMaps on
    /config-gtm/v1/domains/<domainName>/cidr-maps: when the request can be
    built, that request (with the version header set) is the one call of
    [Exec] the operation makes; when it cannot, no call is made. *)
Theorem cidr_map_paths (ctx : Context) (name domainName : string)
    (st : State gtm.gtm) :
  let item := "/config-gtm/v1/domains/" ++ domainName ++ "/cidr-maps/" ++ name in
  let all := "/config-gtm/v1/domains/" ++ domainName ++ "/cidr-maps" in
  match http_NewRequest_error ctx http_MethodGet item with
  | None =>
      exec_calls (gtm.GetCidrMap ctx name domainName) st
        [mkDispatch
           (Some (gtm.setVersionHeader (mkRequest http_MethodGet item ∅ ctx)
                    gtm.schemaVersion))
           None]
  | Some _ => exec_calls (gtm.GetCidrMap ctx name domainName) st []
  end
  /\ match http_NewRequest_error ctx http_MethodGet all with
     | None =>
         exec_calls (gtm.ListCidrMaps ctx domainName) st
           [mkDispatch
              (Some (gtm.setVersionHeader (mkRequest http_MethodGet all ∅ ctx)
                       gtm.schemaVersion))
              None]
     | Some _ => exec_calls (gtm.ListCidrMaps ctx domainName) st []
     end
  /\ URL (gtm.setVersionHeader (mkRequest http_MethodGet item ∅ ctx)
            gtm.schemaVersion) = item
  /\ URL (gtm.setVersionHeader (mkRequest http_MethodGet all ∅ ctx)
            gtm.schemaVersion) = all.
Proof.
  cbv zeta. split; [|split; [|split; reflexivity]].
  - unfold exec_calls, gtm.GetCidrMap, http_NewRequestWithContext. cbn.
    rewrite append_empty.
    destruct (http_NewRequest_error _ _ _) as [err|]; cbn;
      [by rewrite app_nil_r|].
    unfold bind, call_Exec0, call_Exec. cbn.
    destruct (Exec _ _ _ _ _ _ _) as [[resp cidr]|err]; cbn; [|reflexivity].
    case_bool_decide; cbn; [|reflexivity].
    match goal with |- context [gtm.Error_mapper ?r ?s] =>
      destruct (Error_mapper_allocates r s) as (e & -> & _) end.
    reflexivity.
  - unfold exec_calls, gtm.ListCidrMaps, http_NewRequestWithContext. cbn.
    rewrite append_empty.
    destruct (http_NewRequest_error _ _ _) as [err|]; cbn;
      [by rewrite app_nil_r|].
    unfold bind, call_Exec0, call_Exec. cbn.
    destruct (Exec _ _ _ _ _ _ _) as [[resp cidrs]|err]; cbn; [|reflexivity].
    case_bool_decide; cbn; [|reflexivity].
    match goal with |- context [gtm.Error_mapper ?r ?s] =>
      destruct (Error_mapper_allocates r s) as (e & -> & _) end.
    reflexivity.
Qed.

(** ** The request of GetDeactivation *)

(** C9.  In GetDeactivation the error of [http.NewRequestWithContext] is
    never examined: when the request cannot be built, the operation still
    calls [Exec], with the nil request, and what it returns is decided by the
    answer of [Exec] alone; the construction error is not in it. *)
Theorem GetDeactivation_skips_the_request_error (ctx : Context)
    (params : edgeworkers.EdgeWorkerGetDeactivationRequest)
    (st : State edgeworkers.edgeworkers) (uri : url_URL) (err : error) :
  edgeworkers.GetDeactivationRequest_Validate params = None ->
  url_Parse (Sprintf [] [lit "/edgeworkers/v1/ids/";
                         pct_d (edgeworkers.G_EdgeWorkerID params);
                         lit "/deactivations/";
                         pct_d (edgeworkers.G_DeactivationID params)]) = Ok uri ->
  http_NewRequest_error ctx http_MethodGet (URL_String uri) = Some err ->
  exec_calls (edgeworkers.GetDeactivation ctx params) st [mkDispatch None None]
  /\ fst (edgeworkers.GetDeactivation ctx params st)
     = match Exec (session_of (client st)) edgeworkers.Deactivation unit _
               None zero None with
       | Err e =>
           (None,
            Some (wrapError
                    (Sprintf (errors_heap st)
                       [pct_w (errorString ErrGetDeactivation);
                        lit ": request failed: "; pct_s_err e])
                    (errorString ErrGetDeactivation)))
       | Ok (resp, result) =>
           if bool_decide (Resp_StatusCode resp ≠ http_StatusOK)
           then (None,
                 Some (wrapError
                         (Sprintf (errors_heap st)
                            [pct_s_err (errorString ErrGetDeactivation); lit ": ";
                             pct_w (edgeworkers.edgeworkers_Error resp)])
                         (edgeworkers.edgeworkers_Error resp)))
           else (Some result, None)
       end.
Proof.
  intros Hv Hu Hr. unfold exec_calls, edgeworkers.GetDeactivation.
  rewrite Hv, Hu. unfold http_NewRequestWithContext. rewrite Hr.
  unfold bind, call_Exec0, call_Exec, Errorf, ret. cbn.
  destruct (Exec _ _ _ _ _ _ _) as [[resp result]|e]; cbn; [|done].
  by case_bool_decide.
Qed.

(** ListDeactivations, in the same situation, returns the construction
    error and makes no call. *)
Lemma ListDeactivations_checks_the_request_error (ctx : Context)
    (params : edgeworkers.EdgeWorkerListDeactivationsRequest)
    (st : State edgeworkers.edgeworkers) (err : error) :
  (forall url, http_NewRequest_error ctx http_MethodGet url = Some err) ->
  exec_calls (edgeworkers.ListDeactivations ctx params) st [].
Proof.
  intros Hr. unfold exec_calls, edgeworkers.ListDeactivations.
  unfold http_NewRequestWithContext.
  destruct (edgeworkers.ListDeactivationsRequest_Validate params);
    [by cbn; rewrite app_nil_r|].
  destruct (url_Parse _); [|by cbn; rewrite app_nil_r].
  rewrite Hr. by cbn; rewrite app_nil_r.
Qed.

(** ** The ID of a new edge hostname *)

(** C10.  When the answer to CreateEdgeHostname has status 201, the
    operation extracts the ID from the decoded [EdgeHostnameLink]: if the
    extraction fails it returns a nil result and an error that wraps
    [tools.ErrInvalidLocation]; if it succeeds it returns the decoded
    response with [EdgeHostnameID] set to the extracted ID, and a nil
    error. *)
Theorem CreateEdgeHostname_extracts_the_id (ctx : Context)
    (r : papi.CreateEdgeHostnameRequest) (st : State papi.papi) (d : Dispatch)
    (resp : Response) (decoded : papi.CreateEdgeHostnameResponse) :
  exec_calls (papi.CreateEdgeHostname ctx r) st [d] ->
  answer st d zero = Ok (resp, decoded) ->
  Resp_StatusCode resp = http_StatusCreated ->
  match papi.tools_FetchIDFromLocation (papi.EdgeHostnameLink decoded) with
  | Err err =>
      exists e, fst (papi.CreateEdgeHostname ctx r st) = (None, Some e)
                /\ Unwrap e = Some (errorString tools_ErrInvalidLocation)
  | Ok id =>
      fst (papi.CreateEdgeHostname ctx r st)
      = (Some (papi.mkCreateEdgeHostnameResponse (papi.EdgeHostnameLink decoded) id),
         None)
  end.
Proof.
  intros Hd Hx Hs.
  pose proof (CreateEdgeHostname_created ctx r st d resp decoded Hd Hx Hs) as Hc.
  destruct (papi.tools_FetchIDFromLocation (papi.EdgeHostnameLink decoded));
    [exact Hc|]. eexists. split; [exact Hc|reflexivity].
Qed.

End answers.

(** ** Comparison of errors *)

Section comparison.
Context `{Platform}.
Variable h : heap.

(** [errors.Is] on a sentinel asks the methods about that sentinel only. *)
Lemma errors_Is_ext (m1 m2 : ptr -> error -> bool) (err : error) (s : sentinel) :
  (forall p, m1 p (errorString s) = m2 p (errorString s)) ->
  errors_Is m1 err s = errors_Is m2 err s.
Proof. intros Hm. induction err; cbn; auto. Qed.

(** On a sentinel the method answers by the status alone. *)
Lemma Is_body_sentinel (m : ptr -> error -> bool) (e : ptr) (s : sentinel) :
  Is_body h m e (errorString s)
  = bool_decide (s = gtm_ErrNotFound)
    && bool_decide (StatusCode (deref h e) = http_StatusNotFound).
Proof.
  unfold Is_body. cbn.
  destruct (bool_decide (s = gtm_ErrNotFound)),
    (bool_decide (StatusCode (deref h e) = http_StatusNotFound)); reflexivity.
Qed.

(** [Is] satisfies the recursive equation of the source: its body, with
    the [Is] methods reached through [errors.Is] being [Is] itself. *)
Lemma Is_unfold (e : ptr) (target : error) :
  Is h e target = Is_body h (Is h) e target.
Proof.
  unfold Is at 1. unfold Is_body.
  rewrite (errors_Is_ext (Is_on_sentinel h) (Is h) target gtm_ErrNotFound);
    [reflexivity|].
  intros p. unfold Is, Is_on_sentinel. by rewrite !Is_body_sentinel.
Qed.

Lemma errors_Is_not_found (target : error) :
  errors_Is (Is h) target gtm_ErrNotFound = matches_not_found h target.
Proof.
  induction target; cbn; auto.
  unfold Is. rewrite Is_body_sentinel. by rewrite bool_decide_eq_true_2.
Qed.

(** The contract of [Is], with "matches the not-found sentinel" read as
    [errors.Is(target, ErrNotFound)]. *)
Lemma Is_true_iff (e : ptr) (target : error) :
  Is h e target = true
  <-> (matches_not_found h target = true
       /\ StatusCode (deref h e) = http_StatusNotFound)
      \/ (exists t, errors_As target = Some t
                    /\ StatusCode (deref h e) = StatusCode (deref h t)
                    /\ Error_Error (deref h e) = Error_Error (deref h t)).
Proof.
  rewrite Is_unfold. unfold Is_body. rewrite errors_Is_not_found.
  assert (Htyped :
    match errors_As target with
    | Some t =>
        if bool_decide (e = t) then true
        else if bool_decide (StatusCode (deref h e) ≠ StatusCode (deref h t))
             then false
             else bool_decide (Error_Error (deref h e) = Error_Error (deref h t))
    | None => false
    end = true
    <-> exists t, errors_As target = Some t
                  /\ StatusCode (deref h e) = StatusCode (deref h t)
                  /\ Error_Error (deref h e) = Error_Error (deref h t)).
  { destruct (errors_As target) as [t|].
    - repeat case_bool_decide; subst; split; intros Hi; try done;
        try (destruct Hi as (t' & Ht' & Hs & Hx); simplify_eq; done);
        try (exists t; repeat split; auto; destruct
               (decide (StatusCode (deref h e) = StatusCode (deref h t))); tauto).
    - split; [done|]. by intros (t & ? & _). }
  destruct (matches_not_found h target); cbn.
  - case_bool_decide as Hs.
    + split; auto.
    + rewrite Htyped. split; [by right|]. by intros [[_ ?]|?].
  - rewrite Htyped. split; [by right|]. by intros [[? _]|?].
Qed.

(** Two errors of status 404 are equivalent, whatever else they hold. *)
Lemma Is_between_not_found (e t : ptr) :
  StatusCode (deref h e) = http_StatusNotFound ->
  StatusCode (deref h t) = http_StatusNotFound ->
  Is h e (apiError t) = true.
Proof.
  intros He Ht. apply Is_true_iff. left. cbn. by rewrite bool_decide_eq_true_2.
Qed.

(** Off 404, a typed target is equivalent exactly when status and text
    agree. *)
Lemma Is_off_not_found (e t : ptr) :
  StatusCode (deref h e) <> http_StatusNotFound ->
  Is h e (apiError t)
  = bool_decide (StatusCode (deref h e) = StatusCode (deref h t))
    && bool_decide (Error_Error (deref h e) = Error_Error (deref h t)).
Proof.
  intros He. apply eq_true_iff_eq. rewrite Is_true_iff, andb_true_iff.
  rewrite !bool_decide_eq_true. cbn. split.
  - intros [[_ ?]|(t' & ? & ? & ?)]; [done|]. by simplify_eq.
  - intros [? ?]. right. by exists t.
Qed.

End comparison.

(** C4.  The case "same error code and different error message" of TestIs,
    on the [Is] of gtm: two [Error] values of status 404 whose titles differ
    compare equal, where the claim has them unequal. *)
Theorem Is_same_code_different_title `{Platform} :
  Is [mkError "" "some error" "" "" "" "" 404;
      mkError "" "other error" "" "" "" "" 404] 0%nat (apiError 1%nat)
  = true.
Proof. by apply Is_between_not_found. Qed.

(** ** Aggregation of validation errors *)

(** [Filter] keeps every entry that holds an error, and nothing else. *)
Lemma Filter_aggregates (rules : gmap string (option error)) :
  aggregated (validation.Filter rules) rules.
Proof.
  unfold aggregated, validation.Filter. case_bool_decide as Hsize.
  - apply map_size_empty_iff in Hsize. intros k err Hk.
    assert (Hl : omap id rules !! k = Some err)
      by (by rewrite lookup_omap, Hk).
    by rewrite Hsize, lookup_empty in Hl.
  - eexists; split; [reflexivity|]. intros k err. rewrite lookup_omap.
    destruct (rules !! k) as [[err'|]|]; cbn; naive_solver.
Qed.

Section aggregation.
Context `{edgeworkers.Package} `{gtm.Package}.

(** C5, as the code has it.  The [Validate] methods written with
    [validation.Errors{...}.Filter()] (edgeworkers, cloudlets, papi) return,
    when any rule is violated, one aggregated error with an entry for every
    field whose rules are violated and for no other, keyed by the field's
    name; so a DeactivateVersion request with a zero EdgeWorkerID and an
    empty Body.Version is reported under both keys, and an EdgeHostnameCreate
    with empty DomainPrefix and ProductID under both of these.
    [CidrMap.Validate] tests Name and then DefaultDatacenter and returns a
    plain error about the first that is missing. *)
Theorem Validate_reports_violated_fields :
  (forall r, aggregated (edgeworkers.ListDeactivationsRequest_Validate r)
               (edgeworkers.ListDeactivationsRequest_rules r))
  /\ (forall r, aggregated (edgeworkers.DeactivateVersionRequest_Validate r)
                  (edgeworkers.DeactivateVersionRequest_rules r))
  /\ (forall r, aggregated (edgeworkers.GetDeactivationRequest_Validate r)
                  (edgeworkers.GetDeactivationRequest_rules r))
  /\ (forall r, aggregated (cloudlets.DeletePolicyPropertyRequest_Validate r)
                  (cloudlets.DeletePolicyPropertyRequest_rules r))
  /\ (forall r, aggregated (papi.GetEdgeHostnamesRequest_Validate r)
                  (papi.GetEdgeHostnamesRequest_rules r))
  /\ (forall r, aggregated (papi.GetEdgeHostnameRequest_Validate r)
                  (papi.GetEdgeHostnameRequest_rules r))
  /\ (forall r, aggregated (papi.CreateEdgeHostnameRequest_Validate r)
                  (papi.CreateEdgeHostnameRequest_rules r))
  /\ (forall eh, aggregated (papi.EdgeHostnameCreate_Validate eh)
                   (papi.EdgeHostnameCreate_rules eh))
  /\ (forall uc, aggregated (papi.UseCase_Validate uc) (papi.UseCase_rules uc))
  /\ (forall r,
        edgeworkers.V_EdgeWorkerID r = 0 ->
        edgeworkers.P_Version (edgeworkers.V_Body r) = "" ->
        exists m,
          edgeworkers.DeactivateVersionRequest_Validate r
          = Some (validation_Errors m)
          /\ m !! "EdgeWorkerID" = Some validation.ErrRequired
          /\ m !! "Body.Version" = Some validation.ErrRequired)
  /\ (forall eh,
        papi.DomainPrefix eh = "" ->
        papi.ProductID eh = "" ->
        exists m,
          papi.EdgeHostnameCreate_Validate eh = Some (validation_Errors m)
          /\ m !! "DomainPrefix" = Some validation.ErrRequired
          /\ m !! "ProductID" = Some validation.ErrRequired)
  /\ (forall cidr,
        gtm.Name cidr = "" ->
        gtm.CidrMap_Validate cidr = Some (fmtError "CidrMap is missing Name"))
  /\ (forall cidr,
        gtm.Name cidr <> "" ->
        gtm.DefaultDatacenter cidr = None ->
        gtm.CidrMap_Validate cidr
        = Some (fmtError "CidrMap is missing DefaultDatacenter")).
Proof.
  do 9 (split; [intros; apply Filter_aggregates|]).
  split; [|split; [|split]].
  - intros r Hid Hver.
    pose proof (Filter_aggregates (edgeworkers.DeactivateVersionRequest_rules r))
      as Hagg.
    fold (edgeworkers.DeactivateVersionRequest_Validate r) in Hagg.
    assert (Hk1 : edgeworkers.DeactivateVersionRequest_rules r !! "EdgeWorkerID"
                  = Some (Some validation.ErrRequired)).
    { unfold edgeworkers.DeactivateVersionRequest_rules.
      rewrite lookup_insert_eq, Hid. reflexivity. }
    assert (Hk2 : edgeworkers.DeactivateVersionRequest_rules r !! "Body.Version"
                  = Some (Some validation.ErrRequired)).
    { unfold edgeworkers.DeactivateVersionRequest_rules.
      rewrite lookup_insert_ne by done. rewrite lookup_insert_ne by done.
      rewrite lookup_singleton_eq, Hver. reflexivity. }
    unfold aggregated in Hagg.
    destruct (edgeworkers.DeactivateVersionRequest_Validate r) as [err|].
    + destruct Hagg as (m & -> & Hm). exists m. split; [done|].
      split; by apply Hm.
    + by destruct (Hagg _ _ Hk1).
  - intros eh Hprefix Hproduct.
    pose proof (Filter_aggregates (papi.EdgeHostnameCreate_rules eh)) as Hagg.
    fold (papi.EdgeHostnameCreate_Validate eh) in Hagg.
    assert (Hk1 : papi.EdgeHostnameCreate_rules eh !! "DomainPrefix"
                  = Some (Some validation.ErrRequired)).
    { unfold papi.EdgeHostnameCreate_rules.
      rewrite lookup_insert_eq, Hprefix. reflexivity. }
    assert (Hk2 : papi.EdgeHostnameCreate_rules eh !! "ProductID"
                  = Some (Some validation.ErrRequired)).
    { unfold papi.EdgeHostnameCreate_rules.
      do 2 (rewrite lookup_insert_ne by done).
      rewrite lookup_insert_eq, Hproduct. reflexivity. }
    unfold aggregated in Hagg.
    destruct (papi.EdgeHostnameCreate_Validate eh) as [err|].
    + destruct Hagg as (m & -> & Hm). exists m. split; [done|].
      split; by apply Hm.
    + by destruct (Hagg _ _ Hk1).
  - intros cidr Hname. unfold gtm.CidrMap_Validate. by rewrite Hname.
  - intros cidr Hname Hdc. unfold gtm.CidrMap_Validate.
    rewrite bool_decide_eq_false_2.
    + by rewrite bool_decide_eq_true_2.
    + destruct (gtm.Name cidr); [done|]. cbn. lia.
Qed.

End aggregation.

(** ** The operations against the mock *)

Section against_the_mock.
#[local] Existing Instance Mock.platform.
#[local] Existing Instance Mock.edgeworkers_pkg.
#[local] Existing Instance Mock.gtm_pkg.
#[local] Existing Instance Mock.cloudlets_pkg.
#[local] Existing Instance Mock.papi_pkg.
#[local] Existing Instance Mock.edgeworkers_decoders.
#[local] Existing Instance Mock.gtm_decoders.
#[local] Existing Instance Mock.cloudlets_decoders.
#[local] Existing Instance Mock.papi_decoders.

(** C2 as stated fails for CreateEdgeHostname.  The server answers 201 and
    the body decodes, with a link that is no URL: the operation returns a
    nil result and an error, not the decoded response. *)
Lemma CreateEdgeHostname_201_without_result :
  fst (papi.CreateEdgeHostname 0%nat Mock.valid_create
         (Mock.start (Mock.prefixed 201 Mock.broken_link_body)))
  = (None,
     Some (wrapError
             "response location URL is invalid: parse ://not-a-url: missing protocol scheme"
             (errorString tools_ErrInvalidLocation)))
  /\ ~ yields (papi.CreateEdgeHostname 0%nat Mock.valid_create)
         (zero : papi.CreateEdgeHostnameResponse)
         (eq http_StatusCreated) Some.
Proof.
  split; [reflexivity|].
  intros Hy.
  specialize (Hy (Mock.start (Mock.prefixed 201 Mock.broken_link_body))
                _ _ _ eq_refl eq_refl eq_refl).
  discriminate Hy.
Qed.

(** GetCidrMap on a 200 answer returns the decoded map; CreateEdgeHostname
    on a 201 answer with a proper link returns the decoded response with the
    ID of the link. *)
Lemma success_status_returns_decoded_witness :
  fst (gtm.GetCidrMap 0%nat "The North" "example.akadns.net"
         (Mock.start (Mock.plain 200 Mock.cidr_map_body)))
  = (Some (gtm.mkCidrMap None [] "The North" []), None)
  /\ fst (papi.CreateEdgeHostname 0%nat Mock.valid_create
            (Mock.start (Mock.prefixed 201 Mock.created_body)))
     = (Some (papi.mkCreateEdgeHostnameResponse Mock.created_link "ehn_895822"),
        None).
Proof.
  destruct (success_status_returns_decoded 0%nat)
    as (_ & _ & _ & _ & Hget & _ & _ & _ & _ & _ & Hcreate).
  split.
  - exact (Hget "The North" "example.akadns.net"
             (Mock.start (Mock.plain 200 Mock.cidr_map_body))
             _ _ _ eq_refl eq_refl eq_refl).
  - exact (Hcreate Mock.valid_create
             (Mock.start (Mock.prefixed 201 Mock.created_body))
             _ _ _ eq_refl eq_refl eq_refl).
Defined.

(** A request with no EdgeWorker ID and a CidrMap with neither name nor
    default datacenter are refused before the session is called. *)
Lemma validation_failure_short_circuits_witness :
  (edgeworkers.ListDeactivationsRequest_Validate
     {| edgeworkers.L_EdgeWorkerID := 0; edgeworkers.L_Version := "1.0" |} <> None
   /\ refused
        (edgeworkers.ListDeactivations 0%nat
           {| edgeworkers.L_EdgeWorkerID := 0; edgeworkers.L_Version := "1.0" |})
        (Mock.start (Mock.plain 200 "{}")))
  /\ (gtm.CidrMap_Validate (gtm.mkCidrMap None [] "" []) <> None
      /\ refused
           (gtm.UpdateCidrMap 0%nat (gtm.mkCidrMap None [] "" [])
              "example.akadns.net")
           (Mock.start (Mock.plain 200 "{}"))).
Proof.
  destruct (validation_failure_short_circuits 0%nat)
    as (Hlist & _ & _ & _ & Hcidr & _).
  assert (Hv : edgeworkers.ListDeactivationsRequest_Validate
                 {| edgeworkers.L_EdgeWorkerID := 0;
                    edgeworkers.L_Version := "1.0" |} <> None)
    by (vm_compute; discriminate).
  assert (Hc : gtm.CidrMap_Validate (gtm.mkCidrMap None [] "" []) <> None)
    by (vm_compute; discriminate).
  split; split; try assumption.
  - exact (Hlist _ _ Hv).
  - exact (proj1 (proj2 (Hcidr _ _ _ Hc))).
Defined.

(** C3 as stated fails on the 404 branch of GetEdgeHostnames.  The server
    answers 404 with a problem-details body whose title is
    [Internal Server Error] and whose detail is [Error fetching cidrmap];
    the error returned wraps the not-found sentinel under a text made of the
    sentinel's text and the URL: no [*Error] is on its chain, it is not what
    [session.NewAPIError] makes of the response, and its text has neither
    the title nor the detail of the body. *)
Lemma GetEdgeHostnames_404_drops_the_body :
  let st := Mock.start (Mock.prefixed 404 Mock.problem_body) in
  let err :=
    wrapError "404 not found: /papi/v1/edgehostnames?contractId=ctr_1&groupId=grp_2"
      (errorString session_ErrNotFound) in
  json_Unmarshal Mock.problem_body zero
  = (mkError "internal_error" "Internal Server Error" "Error fetching cidrmap"
       "" "" "" 0, None)
  /\ papi.GetEdgeHostnames 0%nat Mock.valid_list st
     = ((None, Some err),
        mkState (client st) []
          [mkDispatch
             (Some (mkRequest "GET"
                      "/papi/v1/edgehostnames?contractId=ctr_1&groupId=grp_2"
                      (Header_Set ∅ "PAPI-Use-Prefixes" "true") 0%nat))
             None])
  /\ errors_As err = None
  /\ err <> papi.session_NewAPIError (mkResponse 404 (Ok Mock.problem_body))
  /\ contains "Internal Server Error" (error_text [] err) = false
  /\ contains "Error fetching cidrmap" (error_text [] err) = false.
Proof. cbv zeta. repeat split; try reflexivity. discriminate. Qed.

(** The same status with the body [test] gives the same error. *)
Lemma GetEdgeHostnames_404_whatever_the_body :
  fst (papi.GetEdgeHostnames 0%nat Mock.valid_list
         (Mock.start (Mock.prefixed 404 "test")))
  = fst (papi.GetEdgeHostnames 0%nat Mock.valid_list
           (Mock.start (Mock.prefixed 404 Mock.problem_body))).
Proof. reflexivity. Qed.

(** DeletePolicyProperty keeps the number of the status and nothing of the
    body. *)
Lemma DeletePolicyProperty_500_keeps_the_number :
  fst (cloudlets.DeletePolicyProperty 0%nat Mock.valid_delete
         (Mock.start (Mock.plain 500 Mock.problem_body)))
  = Some (wrapError "delete policy property: 500"
            (errorString ErrDeletePolicyProperty)).
Proof. reflexivity. Qed.

(** C6 as stated fails on the case "invalid response body" of TestNewError:
    status 500 and the body [test].  The mapper of gtm returns an [Error]
    with the status, and with a title and a detail that are not the body. *)
Lemma Error_mapper_drops_the_raw_body :
  let st := Mock.start (Mock.plain 500 "test") in
  let e := mkError "" "Failed to unmarshal error body"
             "invalid character 'e' in literal true (expecting 'r')" "" "" "" 500 in
  json_Unmarshal "test" zero = (zero, Some Mock.syntax_error)
  /\ gtm.Error_mapper (mkResponse 500 (Ok "test")) st
     = (apiError 0%nat, mkState (client st) [e] [])
  /\ Title e <> "test" /\ Detail e <> "test".
Proof. cbv zeta. repeat split; try reflexivity; discriminate. Qed.

(** The mapper on that response, through the theorem. *)
Lemma Error_mapper_on_undecodable_body_witness :
  exists p e,
    gtm.Error_mapper (mkResponse 500 (Ok "test")) (Mock.start (Mock.plain 500 "test"))
    = (apiError p, mkState (Mock.plain 500 "test") [e] [])
    /\ StatusCode e = 500
    /\ Title e = "Failed to unmarshal error body"
    /\ Detail e = "invalid character 'e' in literal true (expecting 'r')".
Proof.
  destruct (Error_mapper_on_undecodable_body (H0 := Mock.gtm_pkg)
              (mkResponse 500 (Ok "test")) (Mock.start (Mock.plain 500 "test")))
    as (p & e & Hrun & _ & Hs & Hu).
  exists p, e. split; [exact Hrun|]. split; [exact Hs|].
  exact (Hu "test" zero Mock.syntax_error eq_refl eq_refl).
Defined.

(** C5 as stated fails for [CidrMap]: with the name empty and the default
    datacenter nil, [Validate] returns a plain error about the name, which is
    no aggregate and does not mention the datacenter. *)
Lemma CidrMap_Validate_stops_at_the_name :
  gtm.CidrMap_Validate (gtm.mkCidrMap None [] "" [])
  = Some (fmtError "CidrMap is missing Name")
  /\ (forall m, fmtError "CidrMap is missing Name" <> validation_Errors m)
  /\ contains "DefaultDatacenter" (error_text [] (fmtError "CidrMap is missing Name"))
     = false.
Proof. repeat split; try reflexivity. intros m; discriminate. Qed.

(** A DeactivateVersion request with nothing set is reported under its
    three fields, in the order of the keys. *)
Lemma DeactivateVersion_reports_three_fields :
  option_map (error_text [])
    (edgeworkers.DeactivateVersionRequest_Validate
       {| edgeworkers.V_EdgeWorkerID := 0;
          edgeworkers.V_Body := {| edgeworkers.P_Network := "";
                                   edgeworkers.P_Note := "";
                                   edgeworkers.P_Version := "" |} |})
  = Some "Body.Network: cannot be blank; Body.Version: cannot be blank; EdgeWorkerID: cannot be blank.".
Proof. vm_compute. reflexivity. Qed.

(** The request of the test of GetGeoMap, on cidr maps: the call goes to the
    path of the map in its domain. *)
Lemma GetCidrMap_calls_the_documented_path :
  (fun d => URL <$> sent_req d)
    <$> sent (snd (gtm.GetCidrMap 0%nat "Software-rollout" "example.akadns.net"
                     (Mock.start (Mock.plain 200 Mock.cidr_map_body))))
  = [Some "/config-gtm/v1/domains/example.akadns.net/cidr-maps/Software-rollout"].
Proof. reflexivity. Qed.

(** GetCidrMap on a 500 answer with the problem-details body: the error is
    the address of an [Error] with status 500 and the title and detail of
    the body.  GetEdgeHostnames on a 404 answer with that body: the error
    names the sentinel and the URL.  DeletePolicyProperty on a 500 answer:
    the error names the operation and the status. *)
Lemma failure_status_returns_error_witness :
  (let st := Mock.start (Mock.plain 500 Mock.problem_body) in
   let op := gtm.GetCidrMap 0%nat "The North" "example.akadns.net" in
   exists err, fst (op st) = (None, Some err) /\ carries (snd (op st))
                 (mkResponse 500 (Ok Mock.problem_body)) err)
  /\ fst (papi.GetEdgeHostnames 0%nat Mock.valid_list
            (Mock.start (Mock.prefixed 404 Mock.problem_body)))
     = (None,
        Some (wrapError
                "404 not found: /papi/v1/edgehostnames?contractId=ctr_1&groupId=grp_2"
                (errorString session_ErrNotFound)))
  /\ fst (cloudlets.DeletePolicyProperty 0%nat Mock.valid_delete
            (Mock.start (Mock.plain 500 Mock.problem_body)))
     = Some (wrapError "delete policy property: 500"
               (errorString ErrDeletePolicyProperty)).
Proof.
  destruct (failure_status_returns_error 0%nat)
    as (_ & Hget & _ & _ & _ & _ & _ & Hdel & Hlist & _).
  split; [|split].
  - cbv zeta.
    refine (Hget "The North" "example.akadns.net"
              (Mock.start (Mock.plain 500 Mock.problem_body))
              _ (mkResponse 500 (Ok Mock.problem_body)) zero eq_refl eq_refl _).
    discriminate.
  - destruct (proj1 (Hlist Mock.valid_list)
                (Mock.start (Mock.prefixed 404 Mock.problem_body))
                _ (mkResponse 404 (Ok Mock.problem_body)) zero
                eq_refl eq_refl eq_refl) as (err & Hr & ->).
    exact Hr.
  - refine (Hdel Mock.valid_delete
              (Mock.start (Mock.plain 500 Mock.problem_body))
              _ (mkResponse 500 (Ok Mock.problem_body)) tt eq_refl eq_refl _).
    discriminate.
Defined.

(** A DeactivateVersion request with no ID and no version has both fields in
    its error. *)
Lemma Validate_reports_violated_fields_witness :
  exists m,
    edgeworkers.DeactivateVersionRequest_Validate
      {| edgeworkers.V_EdgeWorkerID := 0;
         edgeworkers.V_Body := {| edgeworkers.P_Network := "STAGING";
                                  edgeworkers.P_Note := "";
                                  edgeworkers.P_Version := "" |} |}
    = Some (validation_Errors m)
    /\ m !! "EdgeWorkerID" = Some validation.ErrRequired
    /\ m !! "Body.Version" = Some validation.ErrRequired.
Proof.
  destruct Validate_reports_violated_fields
    as (_ & _ & _ & _ & _ & _ & _ & _ & _ & Hboth & _).
  exact (Hboth {| edgeworkers.V_EdgeWorkerID := 0;
                  edgeworkers.V_Body := {| edgeworkers.P_Network := "STAGING";
                                           edgeworkers.P_Note := "";
                                           edgeworkers.P_Version := "" |} |}
           eq_refl eq_refl).
Defined.

(** The paths for the map [Software-rollout] of the domain
    [example.akadns.net]. *)
Lemma cidr_map_paths_witness :
  exec_calls (gtm.GetCidrMap 0%nat "Software-rollout" "example.akadns.net")
    (Mock.start (Mock.plain 200 Mock.cidr_map_body))
    [mkDispatch
       (Some (gtm.setVersionHeader
                (mkRequest "GET"
                   "/config-gtm/v1/domains/example.akadns.net/cidr-maps/Software-rollout"
                   ∅ 0%nat) gtm.schemaVersion)) None]
  /\ exec_calls (gtm.ListCidrMaps 0%nat "example.akadns.net")
       (Mock.start (Mock.plain 200 Mock.cidr_map_body))
       [mkDispatch
          (Some (gtm.setVersionHeader
                   (mkRequest "GET"
                      "/config-gtm/v1/domains/example.akadns.net/cidr-maps"
                      ∅ 0%nat) gtm.schemaVersion)) None].
Proof.
  destruct (cidr_map_paths (H1 := Mock.gtm_pkg) 0%nat "Software-rollout"
              "example.akadns.net"
              (Mock.start (Mock.plain 200 Mock.cidr_map_body)))
    as (Hitem & Hall & _).
  split; [exact Hitem|exact Hall].
Defined.

(** The answer with the link of the new edge hostname gives its ID; the
    answer with a link that is no URL gives the invalid-location error. *)
Lemma CreateEdgeHostname_extracts_the_id_witness :
  fst (papi.CreateEdgeHostname 0%nat Mock.valid_create
         (Mock.start (Mock.prefixed 201 Mock.created_body)))
  = (Some (papi.mkCreateEdgeHostnameResponse Mock.created_link "ehn_895822"), None)
  /\ exists e,
       fst (papi.CreateEdgeHostname 0%nat Mock.valid_create
              (Mock.start (Mock.prefixed 201 Mock.broken_link_body)))
       = (None, Some e)
       /\ Unwrap e = Some (errorString tools_ErrInvalidLocation).
Proof.
  split.
  - exact (CreateEdgeHostname_extracts_the_id 0%nat Mock.valid_create
             (Mock.start (Mock.prefixed 201 Mock.created_body))
             _ _ _ eq_refl eq_refl eq_refl).
  - exact (CreateEdgeHostname_extracts_the_id 0%nat Mock.valid_create
             (Mock.start (Mock.prefixed 201 Mock.broken_link_body))
             _ _ _ eq_refl eq_refl eq_refl).
Defined.

(** The other cases of TestIs on the [Is] of gtm, the chain comparison of a
    404 error with the not-found sentinel, and the comparison of two titles
    off status 404: there the titles decide. *)
Lemma TestIs_other_cases :
  Is [mkError "" "" "" "" "" "" 404; mkError "" "" "" "" "" "" 401]
     0%nat (apiError 1%nat) = false
  /\ Is [mkError "" "" "" "" "" "" 404; mkError "" "" "" "" "" "" 404]
       0%nat (apiError 1%nat) = true
  /\ Is [mkError "" "some error" "" "" "" "" 404;
         mkError "" "some error" "" "" "" "" 404]
       0%nat (apiError 1%nat) = true
  /\ errors_Is (Is [mkError "" "" "" "" "" "" 404]) (apiError 0%nat)
       gtm_ErrNotFound = true
  /\ Is [mkError "" "some error" "" "" "" "" 500;
         mkError "" "other error" "" "" "" "" 500]
       0%nat (apiError 1%nat) = false
  /\ Error_Error (mkError "" "some error" "" "" "" "" 404)
     <> Error_Error (mkError "" "other error" "" "" "" "" 404).
Proof. repeat split; try reflexivity. discriminate. Qed.

End against_the_mock.

Section without_requests.
#[local] Existing Instance Mock.platform_without_requests.
#[local] Existing Instance Mock.edgeworkers_pkg.
#[local] Existing Instance Mock.edgeworkers_decoders.

(** No request can be built, and the server would answer 200: GetDeactivation
    calls [Exec] with the nil request and returns what the session decoded,
    with a nil error. *)
Lemma GetDeactivation_skips_the_request_error_witness :
  let params := {| edgeworkers.G_EdgeWorkerID := 42;
                   edgeworkers.G_DeactivationID := 7 |} in
  let st := Mock.start (Mock.plain 200 "{}") in
  http_NewRequest_error 0%nat http_MethodGet "/edgeworkers/v1/ids/42/deactivations/7"
  = Some Mock.no_request
  /\ exec_calls (edgeworkers.GetDeactivation 0%nat params) st
       [mkDispatch None None]
  /\ fst (edgeworkers.GetDeactivation 0%nat params st) = (Some zero, None).
Proof.
  cbv zeta. split; [reflexivity|].
  exact (GetDeactivation_skips_the_request_error 0%nat
           {| edgeworkers.G_EdgeWorkerID := 42; edgeworkers.G_DeactivationID := 7 |}
           (Mock.start (Mock.plain 200 "{}"))
           ("/edgeworkers/v1/ids/42/deactivations/7", "") Mock.no_request
           eq_refl eq_refl eq_refl).
Defined.

(** ListDeactivations there returns the construction error. *)
Lemma ListDeactivations_returns_the_request_error :
  edgeworkers.ListDeactivations 0%nat
    {| edgeworkers.L_EdgeWorkerID := 42; edgeworkers.L_Version := "" |}
    (Mock.start (Mock.plain 200 "{}"))
  = ((None,
      Some (wrapError
              "list deactivations: failed to create request: net/http: nil Context"
              (errorString ErrListDeactivations))),
     Mock.start (Mock.plain 200 "{}")).
Proof. reflexivity. Qed.

End without_requests.

(** * Further properties of the operations *)

(** ** When a request is valid *)

(** [Filter] answers nil exactly when no entry holds an error. *)
Lemma Filter_nil_iff (rules : gmap string (option error)) :
  validation.Filter rules = None <-> map_Forall (fun _ v => v = None) rules.
Proof.
  unfold validation.Filter. case_bool_decide as Hs.
  - apply map_size_empty_iff in Hs. split; [|done].
    intros _ k [e|] Hk; [|done].
    assert (Hl : omap id rules !! k = Some e) by (by rewrite lookup_omap, Hk).
    by rewrite Hs, lookup_empty in Hl.
  - split; [done|]. intros Hall. exfalso. apply Hs. apply map_size_empty_iff.
    apply map_empty. intros k. rewrite lookup_omap.
    destruct (rules !! k) as [v|] eqn:E; [|done]. apply Hall in E. by subst.
Qed.

(** [Required] alone, on a number and on a string. *)
Lemma Required_Z_nil (n : Z) :
  validation.Validate n [validation.Required] = None <-> n <> 0.
Proof.
  unfold validation.Validate, validation.Required, validation.is_empty,
    validation.Z_IsEmpty. cbn. by case_bool_decide.
Qed.

Lemma Required_string_nil (s : string) :
  validation.Validate s [validation.Required] = None <-> s <> "".
Proof.
  unfold validation.Validate, validation.Required, validation.is_empty,
    validation.string_IsEmpty. cbn. by case_bool_decide.
Qed.

(** The slice case answers nil exactly when every element does. *)
Lemma validateSlice_from_empty_iff {A} (self : A -> option error) (l : list A)
    (i : nat) :
  validation.validateSlice_from self i l = ∅
  <-> Forall (fun x => self x = None) l.
Proof.
  revert i. induction l as [|x l IH]; intros i; cbn.
  - split; [by constructor|done].
  - rewrite Forall_cons. destruct (self x) as [err|] eqn:Ex.
    + split; [intros He; by apply insert_non_empty in He|by intros [? _]].
    + rewrite IH. tauto.
Qed.

Lemma validateSlice_nil_iff {A} (self : A -> option error) (l : list A) :
  validation.validateSlice self l = None <-> Forall (fun x => self x = None) l.
Proof.
  unfold validation.validateSlice.
  rewrite <- (validateSlice_from_empty_iff self l 0), <- map_size_empty_iff.
  by case_bool_decide.
Qed.

(** A map literal passes [Filter] when each of its entries is nil. *)
Ltac entries :=
  rewrite Filter_nil_iff;
  repeat (rewrite map_Forall_insert
            by (by rewrite ?lookup_insert_ne, ?lookup_singleton_ne by done));
  rewrite map_Forall_singleton.

(** The rules on one field spelled out, one test at a time. *)
Ltac rules :=
  repeat progress
    (unfold validation.Validate, validation.When, validation.In_Error,
       validation.In, validation.Required_When, validation.Required,
       validation.is_empty, validation.string_IsEmpty, validation.Z_IsEmpty,
       validation.Validate_self, validation.string_plain, validation.Z_plain;
     cbn);
  repeat (case_bool_decide; cbn);
  rewrite ?elem_of_cons, ?elem_of_nil in *.

Section validity.
Context `{edgeworkers.Package} `{gtm.Package}.

(** X1.  The three request types of deactivations.go validate exactly as
    follows: a list request when its EdgeWorkerID is not zero (its Version
    is free); a get request when its EdgeWorkerID and its DeactivationID are
    both not zero; a deactivate request when its EdgeWorkerID is not zero,
    its Body.Network is not empty and is one of the two network constants,
    and its Body.Version is not empty (its Body.Note is free). *)
Theorem edgeworkers_requests_valid_iff :
  (forall r, edgeworkers.ListDeactivationsRequest_Validate r = None
             <-> edgeworkers.L_EdgeWorkerID r <> 0)
  /\ (forall r, edgeworkers.GetDeactivationRequest_Validate r = None
                <-> edgeworkers.G_EdgeWorkerID r <> 0
                    /\ edgeworkers.G_DeactivationID r <> 0)
  /\ (forall r, edgeworkers.DeactivateVersionRequest_Validate r = None
                <-> edgeworkers.V_EdgeWorkerID r <> 0
                    /\ edgeworkers.P_Network (edgeworkers.V_Body r) <> ""
                    /\ (edgeworkers.P_Network (edgeworkers.V_Body r)
                        = edgeworkers.ActivationNetworkProduction
                        \/ edgeworkers.P_Network (edgeworkers.V_Body r)
                           = edgeworkers.ActivationNetworkStaging)
                    /\ edgeworkers.P_Version (edgeworkers.V_Body r) <> "").
Proof.
  split; [|split].
  - intros r. unfold edgeworkers.ListDeactivationsRequest_Validate,
      edgeworkers.ListDeactivationsRequest_rules.
    rewrite Filter_nil_iff, map_Forall_singleton. apply Required_Z_nil.
  - intros r. unfold edgeworkers.GetDeactivationRequest_Validate,
      edgeworkers.GetDeactivationRequest_rules.
    entries. by rewrite !Required_Z_nil.
  - intros r. unfold edgeworkers.DeactivateVersionRequest_Validate,
      edgeworkers.DeactivateVersionRequest_rules.
    entries. rewrite Required_Z_nil, Required_string_nil.
    rules; intuition congruence.
Qed.

(** X2.  A DeletePolicyPropertyRequest validates exactly when its PolicyID
    and its PropertyID are both not zero; its Network is not validated. *)
Theorem DeletePolicyPropertyRequest_valid_iff
    (r : cloudlets.DeletePolicyPropertyRequest) :
  cloudlets.DeletePolicyPropertyRequest_Validate r = None
  <-> cloudlets.PolicyID r <> 0 /\ cloudlets.PropertyID r <> 0.
Proof.
  unfold cloudlets.DeletePolicyPropertyRequest_Validate,
    cloudlets.DeletePolicyPropertyRequest_rules.
  entries. by rewrite !Required_Z_nil.
Qed.

(** X3.  A CidrMap validates exactly when its Name is not empty and its
    DefaultDatacenter is not nil; its assignments and links are not
    looked at. *)
Theorem CidrMap_valid_iff (cidr : gtm.CidrMap) :
  gtm.CidrMap_Validate cidr = None
  <-> gtm.Name cidr <> "" /\ gtm.DefaultDatacenter cidr <> None.
Proof.
  unfold gtm.CidrMap_Validate. destruct (gtm.Name cidr) as [|c s]; cbn.
  - rewrite bool_decide_eq_true_2 by lia. intuition congruence.
  - rewrite bool_decide_eq_false_2 by lia. case_bool_decide; intuition congruence.
Qed.

(** X4.  The request types of the edge hostname operations validate exactly
    as follows: a GetEdgeHostnamesRequest when ContractID and GroupID are
    not empty; a GetEdgeHostnameRequest when EdgeHostnameID, ContractID and
    GroupID are not empty; a CreateEdgeHostnameRequest when ContractID and
    GroupID are not empty and its EdgeHostname validates.  The Options are
    free in all three. *)
Theorem papi_requests_valid_iff :
  (forall r, papi.GetEdgeHostnamesRequest_Validate r = None
             <-> papi.GHs_ContractID r <> "" /\ papi.GHs_GroupID r <> "")
  /\ (forall r, papi.GetEdgeHostnameRequest_Validate r = None
                <-> papi.GH_EdgeHostnameID r <> ""
                    /\ papi.GH_ContractID r <> "" /\ papi.GH_GroupID r <> "")
  /\ (forall r, papi.CreateEdgeHostnameRequest_Validate r = None
                <-> papi.C_ContractID r <> "" /\ papi.C_GroupID r <> ""
                    /\ papi.EdgeHostnameCreate_Validate (papi.C_EdgeHostname r)
                       = None).
Proof.
  split; [|split]; intros r.
  - unfold papi.GetEdgeHostnamesRequest_Validate, papi.GetEdgeHostnamesRequest_rules.
    entries. by rewrite !Required_string_nil.
  - unfold papi.GetEdgeHostnameRequest_Validate, papi.GetEdgeHostnameRequest_rules.
    entries. by rewrite !Required_string_nil.
  - unfold papi.CreateEdgeHostnameRequest_Validate,
      papi.CreateEdgeHostnameRequest_rules.
    entries. by rewrite !Required_string_nil.
Qed.

Lemma UseCase_valid_iff (uc : papi.UseCase) :
  papi.UseCase_Validate uc = None
  <-> papi.UC_Option uc <> "" /\ papi.UC_Type uc = "GLOBAL"
      /\ papi.UC_UseCase uc <> "".
Proof.
  unfold papi.UseCase_Validate, papi.UseCase_rules.
  entries. rewrite !Required_string_nil. unfold papi.UseCaseGlobal.
  rules; intuition congruence.
Qed.

(** X5.  An EdgeHostnameCreate validates exactly when DomainPrefix,
    DomainSuffix and ProductID are not empty; SecureNetwork is empty or one
    of STANDARD_TLS, SHARED_CERT and ENHANCED_TLS; the DomainSuffix is the
    one that goes with the SecureNetwork (edgesuite.net, akamaized.net,
    edgekey.net); with ENHANCED_TLS the CertEnrollmentID is not zero;
    IPVersionBehavior is IPV4; and every UseCase has an Option, a UseCase
    and the Type GLOBAL.  Secure and SlotNumber are free. *)
Theorem EdgeHostnameCreate_valid_iff (eh : papi.EdgeHostnameCreate) :
  papi.EdgeHostnameCreate_Validate eh = None
  <-> papi.DomainPrefix eh <> ""
      /\ papi.DomainSuffix eh <> ""
      /\ (papi.SecureNetwork eh = "STANDARD_TLS"
          -> papi.DomainSuffix eh = "edgesuite.net")
      /\ (papi.SecureNetwork eh = "SHARED_CERT"
          -> papi.DomainSuffix eh = "akamaized.net")
      /\ (papi.SecureNetwork eh = "ENHANCED_TLS"
          -> papi.DomainSuffix eh = "edgekey.net" /\ papi.CertEnrollmentID eh <> 0)
      /\ papi.ProductID eh <> ""
      /\ papi.IPVersionBehavior eh = "IPV4"
      /\ (papi.SecureNetwork eh = "" \/ papi.SecureNetwork eh = "STANDARD_TLS"
          \/ papi.SecureNetwork eh = "SHARED_CERT"
          \/ papi.SecureNetwork eh = "ENHANCED_TLS")
      /\ Forall (fun uc => papi.UC_Option uc <> "" /\ papi.UC_Type uc = "GLOBAL"
                           /\ papi.UC_UseCase uc <> "") (papi.UseCases eh).
Proof.
  unfold papi.EdgeHostnameCreate_Validate, papi.EdgeHostnameCreate_rules.
  entries. rewrite !Required_string_nil.
  assert (Huc : validation.Validate (H := papi.UseCases_Validatable)
                  (papi.UseCases eh) [] = None
                <-> Forall (fun uc => papi.UC_Option uc <> ""
                                      /\ papi.UC_Type uc = "GLOBAL"
                                      /\ papi.UC_UseCase uc <> "")
                      (papi.UseCases eh)).
  { unfold validation.Validate. cbn.
    unfold validation.Validate_self, papi.UseCases_Validatable.
    rewrite validateSlice_nil_iff. apply Forall_proper; [|done].
    intros uc. apply UseCase_valid_iff. }
  rewrite Huc. clear Huc.
  unfold papi.EHSecureNetworkStandardTLS, papi.EHSecureNetworkSharedCert,
    papi.EHSecureNetworkEnhancedTLS, papi.EHIPVersionV4,
    papi.EHIPVersionV6Compliance.
  assert (Hsuffix :
    validation.Validate (papi.DomainSuffix eh)
      [validation.Required;
       validation.When (bool_decide (papi.SecureNetwork eh = "STANDARD_TLS"))
         [validation.In ["edgesuite.net"]];
       validation.When (bool_decide (papi.SecureNetwork eh = "SHARED_CERT"))
         [validation.In ["akamaized.net"]];
       validation.When (bool_decide (papi.SecureNetwork eh = "ENHANCED_TLS"))
         [validation.In ["edgekey.net"]]] = None
    <-> papi.DomainSuffix eh <> ""
        /\ (papi.SecureNetwork eh = "STANDARD_TLS"
            -> papi.DomainSuffix eh = "edgesuite.net")
        /\ (papi.SecureNetwork eh = "SHARED_CERT"
            -> papi.DomainSuffix eh = "akamaized.net")
        /\ (papi.SecureNetwork eh = "ENHANCED_TLS"
            -> papi.DomainSuffix eh = "edgekey.net")).
  { rules; intuition congruence. }
  assert (Hcert :
    validation.Validate (papi.CertEnrollmentID eh)
      [validation.Required_When
         (bool_decide (papi.SecureNetwork eh = "ENHANCED_TLS"))] = None
    <-> (papi.SecureNetwork eh = "ENHANCED_TLS" -> papi.CertEnrollmentID eh <> 0)).
  { rules; intuition congruence. }
  assert (Hip :
    validation.Validate (papi.IPVersionBehavior eh)
      [validation.Required; validation.In ["IPV4"; "IPV4"]] = None
    <-> papi.IPVersionBehavior eh = "IPV4").
  { rules; intuition congruence. }
  assert (Hnet :
    validation.Validate (papi.SecureNetwork eh)
      [validation.In ["STANDARD_TLS"; "SHARED_CERT"; "ENHANCED_TLS"]] = None
    <-> (papi.SecureNetwork eh = "" \/ papi.SecureNetwork eh = "STANDARD_TLS"
         \/ papi.SecureNetwork eh = "SHARED_CERT"
         \/ papi.SecureNetwork eh = "ENHANCED_TLS")).
  { rules; intuition congruence. }
  rewrite Hsuffix, Hcert, Hip, Hnet. clear. tauto.
Qed.

End validity.

(** ** The errors of the paths that end before or at the call *)

Section failures.
Context `{Platform}.
Context `{edgeworkers.Package} `{gtm.Package} `{cloudlets.Package} `{papi.Package}.
Context `{!edgeworkers.Decoders} `{!gtm.Decoders} `{!cloudlets.Decoders}
  `{!papi.Decoders}.

(** X6.  The constant [EHIPVersionV6Compliance] has the value of
    [EHIPVersionV4]: an edge hostname whose IPVersionBehavior is anything
    but IPV4 (IPV6_COMPLIANCE for one) fails validation, and
    CreateEdgeHostname returns a nil result with an error for it without
    calling [Exec]. *)
Theorem CreateEdgeHostname_takes_IPV4_only (ctx : Context)
    (r : papi.CreateEdgeHostnameRequest) (st : State papi.papi) :
  papi.IPVersionBehavior (papi.C_EdgeHostname r) <> "IPV4" ->
  papi.EdgeHostnameCreate_Validate (papi.C_EdgeHostname r) <> None
  /\ refused (papi.CreateEdgeHostname ctx r) st.
Proof.
  intros Hip.
  assert (Heh : papi.EdgeHostnameCreate_Validate (papi.C_EdgeHostname r) <> None).
  { intros Hv. apply Hip. apply Filter_nil_iff in Hv.
    assert (Hk : papi.EdgeHostnameCreate_rules (papi.C_EdgeHostname r)
                   !! "IPVersionBehavior"
                 = Some (validation.Validate
                           (papi.IPVersionBehavior (papi.C_EdgeHostname r))
                           [validation.Required;
                            validation.In [papi.EHIPVersionV4;
                                           papi.EHIPVersionV6Compliance]])).
    { unfold papi.EdgeHostnameCreate_rules.
      do 4 (rewrite lookup_insert_ne by done). by rewrite lookup_insert_eq. }
    apply Hv in Hk. revert Hk.
    unfold papi.EHIPVersionV4, papi.EHIPVersionV6Compliance.
    rules; intuition congruence. }
  split; [exact Heh|]. apply CreateEdgeHostname_refuses.
  intros Hv. apply Heh. apply Filter_nil_iff in Hv.
  assert (Hk : papi.CreateEdgeHostnameRequest_rules r !! "EdgeHostname"
               = Some (papi.EdgeHostnameCreate_Validate (papi.C_EdgeHostname r))).
  { unfold papi.CreateEdgeHostnameRequest_rules.
    do 2 (rewrite lookup_insert_ne by done). by rewrite lookup_singleton_eq. }
  by apply Hv in Hk.
Qed.

(** The branch taken on a validation error [Hv]. *)
Ltac invalid E Hv :=
  intros; unfold E; rewrite Hv; unfold bind, Errorf, ret; cbn;
  rewrite append_empty; reflexivity.

(** X7.  What an operation returns when [Validate] gives the error [verr]:
    a nil result, the store as it was, and an error made by [fmt.Errorf].
    In edgeworkers and cloudlets its text is the text of the operation's
    sentinel, ": struct validation: " and the text of [verr], and what it
    wraps is the package's ErrStructValidation (the operation's sentinel is
    formatted with [%s] and is not on the chain); in papi the text is
    "struct validation: " and the text of [verr], around papi's
    ErrStructValidation; in gtm the text is "CidrMap validation failed. "
    and the text of [verr], around [verr] itself. *)
Theorem validation_errors_wrap_the_validation_sentinel (ctx : Context) :
  (forall params st verr,
      edgeworkers.ListDeactivationsRequest_Validate params = Some verr ->
      edgeworkers.ListDeactivations ctx params st
      = ((None,
          Some (wrapError ("list deactivations: struct validation: "
                           ++ error_text (errors_heap st) verr)
                  (errorString edgeworkers_ErrStructValidation))), st))
  /\ (forall params st verr,
      edgeworkers.DeactivateVersionRequest_Validate params = Some verr ->
      edgeworkers.DeactivateVersion ctx params st
      = ((None,
          Some (wrapError ("deactivate version: struct validation: "
                           ++ error_text (errors_heap st) verr)
                  (errorString edgeworkers_ErrStructValidation))), st))
  /\ (forall params st verr,
      edgeworkers.GetDeactivationRequest_Validate params = Some verr ->
      edgeworkers.GetDeactivation ctx params st
      = ((None,
          Some (wrapError ("get deactivation: struct validation: "
                           ++ error_text (errors_heap st) verr)
                  (errorString edgeworkers_ErrStructValidation))), st))
  /\ (forall params st verr,
      cloudlets.DeletePolicyPropertyRequest_Validate params = Some verr ->
      cloudlets.DeletePolicyProperty ctx params st
      = (Some (wrapError ("delete policy property: struct validation: "
                          ++ error_text (errors_heap st) verr)
                 (errorString cloudlets_ErrStructValidation)), st))
  /\ (forall params st verr,
      papi.GetEdgeHostnamesRequest_Validate params = Some verr ->
      papi.GetEdgeHostnames ctx params st
      = ((None,
          Some (wrapError ("struct validation: " ++ error_text (errors_heap st) verr)
                  (errorString papi_ErrStructValidation))), st))
  /\ (forall params st verr,
      papi.GetEdgeHostnameRequest_Validate params = Some verr ->
      papi.GetEdgeHostname ctx params st
      = ((None,
          Some (wrapError ("struct validation: " ++ error_text (errors_heap st) verr)
                  (errorString papi_ErrStructValidation))), st))
  /\ (forall r st verr,
      papi.CreateEdgeHostnameRequest_Validate r = Some verr ->
      papi.CreateEdgeHostname ctx r st
      = ((None,
          Some (wrapError ("struct validation: " ++ error_text (errors_heap st) verr)
                  (errorString papi_ErrStructValidation))), st))
  /\ (forall cidr domainName st verr,
      gtm.CidrMap_Validate cidr = Some verr ->
      gtm.CreateCidrMap ctx cidr domainName st
      = ((None,
          Some (wrapError ("CidrMap validation failed. "
                           ++ error_text (errors_heap st) verr) verr)), st)
      /\ gtm.UpdateCidrMap ctx cidr domainName st
         = ((None,
             Some (wrapError ("CidrMap validation failed. "
                              ++ error_text (errors_heap st) verr) verr)), st)
      /\ gtm.DeleteCidrMap ctx cidr domainName st
         = ((None,
             Some (wrapError ("CidrMap validation failed. "
                              ++ error_text (errors_heap st) verr) verr)), st)).
Proof.
  split; [intros params st verr Hv; invalid @edgeworkers.ListDeactivations Hv|].
  split; [intros params st verr Hv; invalid @edgeworkers.DeactivateVersion Hv|].
  split; [intros params st verr Hv; invalid @edgeworkers.GetDeactivation Hv|].
  split; [intros params st verr Hv; invalid @cloudlets.DeletePolicyProperty Hv|].
  split; [intros params st verr Hv; invalid @papi.GetEdgeHostnames Hv|].
  split; [intros params st verr Hv; invalid @papi.GetEdgeHostname Hv|].
  split; [intros params st verr Hv; invalid @papi.CreateEdgeHostname Hv|].
  intros cidr domainName st verr Hv. split; [|split].
  - unfold gtm.CreateCidrMap. invalid @gtm.save Hv.
  - unfold gtm.UpdateCidrMap, gtm.save. rewrite Hv. unfold bind, Errorf, ret; cbn.
    by rewrite append_empty.
  - invalid @gtm.DeleteCidrMap Hv.
Qed.

(** An operation [E] whose call of [Exec] came back with an error. *)
Ltac unanswered E :=
  unfold transport_failure; intros st d terr;
  answered E; rewrite ?append_empty; reflexivity.

(** X8.  When [Exec] returns an error, the operations of edgeworkers and
    cloudlets return a nil result and an error whose text is the text of
    the operation's sentinel, ": request failed: " and the text of the
    error of [Exec], and which wraps the operation's sentinel: the error of
    [Exec] is in the text only, not on the chain. *)
Theorem transport_errors_become_text (ctx : Context) :
  (forall params,
      transport_failure (edgeworkers.ListDeactivations ctx params)
        (zero : edgeworkers.EdgeWorkerListDeactivationsResponse)
        (fun h terr =>
           wrapError ("list deactivations: request failed: " ++ error_text h terr)
             (errorString ErrListDeactivations)))
  /\ (forall params,
      transport_failure (edgeworkers.DeactivateVersion ctx params)
        (zero : edgeworkers.Deactivation)
        (fun h terr =>
           wrapError ("deactivate version: request failed: " ++ error_text h terr)
             (errorString ErrDeactivateVersion)))
  /\ (forall params,
      transport_failure (edgeworkers.GetDeactivation ctx params)
        (zero : edgeworkers.Deactivation)
        (fun h terr =>
           wrapError ("get deactivation: request failed: " ++ error_text h terr)
             (errorString ErrGetDeactivation)))
  /\ (forall policyID,
      transport_failure (cloudlets.GetPolicyProperties ctx policyID)
        (zero : cloudlets.GetPolicyPropertiesResponse)
        (fun h terr =>
           wrapError ("get policy properties: request failed: " ++ error_text h terr)
             (errorString ErrGetPolicyProperties)))
  /\ (forall params st d terr,
      exec_calls (cloudlets.DeletePolicyProperty ctx params) st [d] ->
      answer st d tt = Err terr ->
      fst (cloudlets.DeletePolicyProperty ctx params st)
      = Some (wrapError ("delete policy property: request failed: "
                         ++ error_text (errors_heap st) terr)
                (errorString ErrDeletePolicyProperty))).
Proof.
  split; [intros; unanswered @edgeworkers.ListDeactivations|].
  split; [intros; unanswered @edgeworkers.DeactivateVersion|].
  split; [intros; unanswered @edgeworkers.GetDeactivation|].
  split; [intros; unanswered @cloudlets.GetPolicyProperties|].
  intros params st d terr.
  answered @cloudlets.DeletePolicyProperty; rewrite ?append_empty; reflexivity.
Qed.

(** X9.  When [Exec] returns an error, the operations of gtm and papi
    return a nil result and an error that wraps the error of [Exec] itself
    (so [errors.Is] and [errors.As] of the caller reach it), under a text
    that names the request and ends with the text of that error. *)
Theorem transport_errors_stay_on_the_chain (ctx : Context) :
  (forall domainName,
      transport_failure (gtm.ListCidrMaps ctx domainName) (zero : gtm.CidrMapList)
        (fun h terr =>
           wrapError ("ListCidrMaps request failed: " ++ error_text h terr) terr))
  /\ (forall name domainName,
      transport_failure (gtm.GetCidrMap ctx name domainName) (zero : gtm.CidrMap)
        (fun h terr =>
           wrapError ("GetCidrMap request failed: " ++ error_text h terr) terr))
  /\ (forall cidr domainName,
      transport_failure (gtm.CreateCidrMap ctx cidr domainName)
        (zero : gtm.CidrMapResponse)
        (fun h terr =>
           wrapError ("CidrMap request failed: " ++ error_text h terr) terr)
      /\ transport_failure (gtm.UpdateCidrMap ctx cidr domainName)
           (zero : gtm.CidrMapResponse)
           (fun h terr =>
              wrapError ("CidrMap request failed: " ++ error_text h terr) terr)
      /\ transport_failure (gtm.DeleteCidrMap ctx cidr domainName)
           (zero : gtm.ResponseBody)
           (fun h terr =>
              wrapError ("CidrMap request failed: " ++ error_text h terr) terr))
  /\ (forall params,
      transport_failure (papi.GetEdgeHostnames ctx params)
        (zero : papi.GetEdgeHostnamesResponse)
        (fun h terr =>
           wrapError ("getedgehostnames request failed: " ++ error_text h terr) terr))
  /\ (forall params,
      transport_failure (papi.GetEdgeHostname ctx params)
        (zero : papi.GetEdgeHostnamesResponse)
        (fun h terr =>
           wrapError ("getedgehostname request failed: " ++ error_text h terr) terr))
  /\ (forall r,
      transport_failure (papi.CreateEdgeHostname ctx r)
        (zero : papi.CreateEdgeHostnameResponse)
        (fun h terr =>
           wrapError ("createedgehostname request failed: " ++ error_text h terr)
             terr)).
Proof.
  split; [intros; unanswered @gtm.ListCidrMaps|].
  split; [intros; unanswered @gtm.GetCidrMap|].
  split.
  { intros cidr domainName.
    assert (Hsave : transport_failure (gtm.save cidr ctx domainName)
                      (zero : gtm.CidrMapResponse)
                      (fun h terr =>
                         wrapError ("CidrMap request failed: " ++ error_text h terr)
                           terr))
      by unanswered @gtm.save.
    split; [exact Hsave|]. split; [|unanswered @gtm.DeleteCidrMap].
    intros st d terr. unfold exec_calls. rewrite UpdateCidrMap_save. cbn.
    intros Hd Hx. by rewrite (Hsave st d terr Hd Hx). }
  split; [intros; unanswered @papi.GetEdgeHostnames|].
  split; [intros; unanswered @papi.GetEdgeHostname|].
  intros; unanswered @papi.CreateEdgeHostname.
Qed.

(** The branches of an operation, one by one. *)
Ltac branches :=
  unfold bind, ret, Errorf, call_Exec0, call_Exec, read_client,
    http_NewRequestWithContext; cbn;
  repeat match goal with
  | |- context [gtm.Error_mapper ?r ?s] =>
      let e := fresh "e" in
      let Hrun := fresh "Hrun" in
      destruct (Error_mapper_allocates r s) as (e & Hrun & _);
      rewrite Hrun; clear Hrun; cbn
  | |- context [match ?x with _ => _ end] => destruct x; cbn
  | |- context [if ?b then _ else _] => destruct b; cbn
  end.

(** The branch taken when no request can be built ([Hr]). *)
Ltac unbuildable E Hr :=
  intros; unfold refused, fails, fails_plain, exec_calls, E,
    http_NewRequestWithContext;
  repeat match goal with
  | |- context [http_NewRequest_error ?c ?m ?u] =>
      let err := fresh "err" in
      let Eq := fresh "Eq" in
      destruct (http_NewRequest_error c m u) as [err|] eqn:Eq;
      [|exfalso; exact (Hr _ _ Eq)]
  | |- context [match ?x with _ => _ end] => destruct x; cbn
  end;
  unfold bind, Errorf, ret; cbn; rewrite ?app_nil_r; repeat split; congruence.

(** X10.  With a context for which [http.NewRequestWithContext] fails
    whatever the method and the URL (a nil context), every operation but
    GetDeactivation returns a nil result with an error and does not call
    [Exec], whatever the request parameters. *)
Theorem unbuildable_requests_are_refused (ctx : Context) :
  (forall method url, http_NewRequest_error ctx method url <> None) ->
  (forall params st, refused (edgeworkers.ListDeactivations ctx params) st)
  /\ (forall params st, refused (edgeworkers.DeactivateVersion ctx params) st)
  /\ (forall domainName st, refused (gtm.ListCidrMaps ctx domainName) st)
  /\ (forall name domainName st, refused (gtm.GetCidrMap ctx name domainName) st)
  /\ (forall cidr domainName st, refused (gtm.CreateCidrMap ctx cidr domainName) st)
  /\ (forall cidr domainName st, refused (gtm.UpdateCidrMap ctx cidr domainName) st)
  /\ (forall cidr domainName st, refused (gtm.DeleteCidrMap ctx cidr domainName) st)
  /\ (forall policyID st, refused (cloudlets.GetPolicyProperties ctx policyID) st)
  /\ (forall params st,
        fails_plain (cloudlets.DeletePolicyProperty ctx params) st
        /\ exec_calls (cloudlets.DeletePolicyProperty ctx params) st [])
  /\ (forall params st, refused (papi.GetEdgeHostnames ctx params) st)
  /\ (forall params st, refused (papi.GetEdgeHostname ctx params) st)
  /\ (forall r st, refused (papi.CreateEdgeHostname ctx r) st).
Proof.
  intros Hr.
  split; [unbuildable @edgeworkers.ListDeactivations Hr|].
  split; [unbuildable @edgeworkers.DeactivateVersion Hr|].
  split; [unbuildable @gtm.ListCidrMaps Hr|].
  split; [unbuildable @gtm.GetCidrMap Hr|].
  split; [unfold gtm.CreateCidrMap; unbuildable @gtm.save Hr|].
  split.
  { intros cidr domainName st.
    assert (Hsave : refused (gtm.save cidr ctx domainName) st)
      by unbuildable @gtm.save Hr.
    revert Hsave. unfold refused, fails, exec_calls.
    rewrite UpdateCidrMap_save. cbn.
    destruct (gtm.save cidr ctx domainName st) as [[[stat|] [err|]] st'];
      cbn; intros [[Hz He] Hs]; repeat split; congruence. }
  split; [unbuildable @gtm.DeleteCidrMap Hr|].
  split; [unbuildable @cloudlets.GetPolicyProperties Hr|].
  split; [unbuildable @cloudlets.DeletePolicyProperty Hr|].
  split; [unbuildable @papi.GetEdgeHostnames Hr|].
  split; [unbuildable @papi.GetEdgeHostname Hr|].
  unbuildable @papi.CreateEdgeHostname Hr.
Qed.

(** ** What an operation leaves in the store *)

Ltac counted E :=
  intros; intros st; unfold exec_calls, E; branches;
  first [ left; by rewrite app_nil_r | right; eexists; reflexivity ].

(** X11.  Every operation calls [Exec] at most once, on every path and
    whatever the session answers (no retry, no second request); the error
    mapper of gtm and the two constructors NewCidrMap and NewCidrAssignment
    call it never. *)
Theorem operations_call_Exec_at_most_once (ctx : Context) :
  (forall params, at_most_one_call (edgeworkers.ListDeactivations ctx params))
  /\ (forall params, at_most_one_call (edgeworkers.DeactivateVersion ctx params))
  /\ (forall params, at_most_one_call (edgeworkers.GetDeactivation ctx params))
  /\ (forall domainName, at_most_one_call (gtm.ListCidrMaps ctx domainName))
  /\ (forall name domainName, at_most_one_call (gtm.GetCidrMap ctx name domainName))
  /\ (forall cidr domainName, at_most_one_call (gtm.CreateCidrMap ctx cidr domainName))
  /\ (forall cidr domainName, at_most_one_call (gtm.UpdateCidrMap ctx cidr domainName))
  /\ (forall cidr domainName, at_most_one_call (gtm.DeleteCidrMap ctx cidr domainName))
  /\ (forall policyID, at_most_one_call (cloudlets.GetPolicyProperties ctx policyID))
  /\ (forall params, at_most_one_call (cloudlets.DeletePolicyProperty ctx params))
  /\ (forall params, at_most_one_call (papi.GetEdgeHostnames ctx params))
  /\ (forall params, at_most_one_call (papi.GetEdgeHostname ctx params))
  /\ (forall r, at_most_one_call (papi.CreateEdgeHostname ctx r))
  /\ (forall r st, exec_calls (gtm.Error_mapper r) st [])
  /\ (forall name st, exec_calls (gtm.NewCidrMap ctx name) st [])
  /\ (forall cidr dcid nickname st,
        exec_calls (gtm.NewCidrAssignment ctx cidr dcid nickname) st []).
Proof.
  split; [counted @edgeworkers.ListDeactivations|].
  split; [counted @edgeworkers.DeactivateVersion|].
  split; [counted @edgeworkers.GetDeactivation|].
  split; [counted @gtm.ListCidrMaps|].
  split; [counted @gtm.GetCidrMap|].
  assert (Hsave : forall cidr domainName,
             at_most_one_call (gtm.save cidr ctx domainName))
    by counted @gtm.save.
  split; [exact Hsave|].
  split.
  { intros cidr domainName st. unfold exec_calls.
    rewrite UpdateCidrMap_save. exact (Hsave cidr domainName st). }
  split; [counted @gtm.DeleteCidrMap|].
  split; [counted @cloudlets.GetPolicyProperties|].
  split; [counted @cloudlets.DeletePolicyProperty|].
  split; [counted @papi.GetEdgeHostnames|].
  split; [counted @papi.GetEdgeHostname|].
  split; [counted @papi.CreateEdgeHostname|].
  split.
  { intros r st. unfold exec_calls.
    destruct (Error_mapper_allocates r st) as (e & -> & _). cbn.
    by rewrite app_nil_r. }
  split; intros; unfold exec_calls; cbn; by rewrite app_nil_r.
Qed.

Ltac untouched E :=
  intros; intros st; unfold E; branches; reflexivity.

Ltac allocated E :=
  intros; intros st; unfold E; branches;
  first [ left; reflexivity
        | right; eexists;
          split; [reflexivity|split; [reflexivity|intros; by apply deref_kept]] ].

(** X12.  The operations of edgeworkers, cloudlets and papi allocate no
    [Error] of gtm.  An operation of gtm allocates at most one, and only to
    return its address as the error; the [Error] objects handed out by
    earlier calls are not written. *)
Theorem operations_allocate_only_their_error (ctx : Context) :
  (forall params, allocates_nothing (edgeworkers.ListDeactivations ctx params))
  /\ (forall params, allocates_nothing (edgeworkers.DeactivateVersion ctx params))
  /\ (forall params, allocates_nothing (edgeworkers.GetDeactivation ctx params))
  /\ (forall policyID, allocates_nothing (cloudlets.GetPolicyProperties ctx policyID))
  /\ (forall params, allocates_nothing (cloudlets.DeletePolicyProperty ctx params))
  /\ (forall params, allocates_nothing (papi.GetEdgeHostnames ctx params))
  /\ (forall params, allocates_nothing (papi.GetEdgeHostname ctx params))
  /\ (forall r, allocates_nothing (papi.CreateEdgeHostname ctx r))
  /\ (forall domainName, allocates_its_error (gtm.ListCidrMaps ctx domainName))
  /\ (forall name domainName, allocates_its_error (gtm.GetCidrMap ctx name domainName))
  /\ (forall cidr domainName, allocates_its_error (gtm.CreateCidrMap ctx cidr domainName))
  /\ (forall cidr domainName, allocates_its_error (gtm.UpdateCidrMap ctx cidr domainName))
  /\ (forall cidr domainName, allocates_its_error (gtm.DeleteCidrMap ctx cidr domainName)).
Proof.
  split; [untouched @edgeworkers.ListDeactivations|].
  split; [untouched @edgeworkers.DeactivateVersion|].
  split; [untouched @edgeworkers.GetDeactivation|].
  split; [untouched @cloudlets.GetPolicyProperties|].
  split; [untouched @cloudlets.DeletePolicyProperty|].
  split; [untouched @papi.GetEdgeHostnames|].
  split; [untouched @papi.GetEdgeHostname|].
  split; [untouched @papi.CreateEdgeHostname|].
  split; [allocated @gtm.ListCidrMaps|].
  split; [allocated @gtm.GetCidrMap|].
  assert (Hsave : forall cidr domainName,
             allocates_its_error (gtm.save cidr ctx domainName))
    by allocated @gtm.save.
  split; [exact Hsave|].
  split; [|allocated @gtm.DeleteCidrMap].
  intros cidr domainName st. rewrite UpdateCidrMap_save. cbn.
  destruct (Hsave cidr domainName st) as [Hh|(e & Hh & He & Hk)]; [by left|].
  right. exists e. split; [exact Hh|]. split; [|exact Hk].
  destruct (gtm.save cidr ctx domainName st) as [[[stat|] [err|]] st'];
    cbn in *; congruence.
Qed.

(** ** The request an operation sends *)

(** The URL with the options appended. *)
Lemma with_options (url : string) (options : list string) :
  (if bool_decide (0 < length options)%nat
   then url ++ "&options=" ++ strings_Join options ","
   else url)
  = url ++ options_query options.
Proof.
  destruct options as [|o options].
  - rewrite bool_decide_eq_false_2 by (cbn; lia). cbn. by rewrite append_empty.
  - by rewrite bool_decide_eq_true_2 by (cbn; lia).
Qed.

(** The one call made, whatever the branch taken after it. *)
Ltac dispatched := branches; try reflexivity.

(** X13.  The requests of the edge hostname operations, for parameters
    that validate and a request that can be built: GetEdgeHostnames sends
    GET /papi/v1/edgehostnames?contractId=<c>&groupId=<g>, GetEdgeHostname
    sends GET /papi/v1/edgehostnames/<id>?contractId=<c>&groupId=<g>, and
    CreateEdgeHostname sends POST on the URL of GetEdgeHostnames with the
    EdgeHostname of the request as body.  The parameters are written into
    the URL as they are (nothing is escaped); the options, when there are
    any, follow as &options= and the options joined by commas; the header
    PAPI-Use-Prefixes carries the flag of the client as true or false.
    That request is the one call of [Exec]. *)
Theorem edge_hostname_requests (ctx : Context) (st : State papi.papi) :
  let prefixes :=
    Header_Set ∅ "PAPI-Use-Prefixes"
      (papi.cast_ToString (papi.usePrefixes (client st))) in
  (forall params,
      let url := "/papi/v1/edgehostnames?contractId=" ++ papi.GHs_ContractID params
                 ++ "&groupId=" ++ papi.GHs_GroupID params
                 ++ options_query (papi.GHs_Options params) in
      papi.GetEdgeHostnamesRequest_Validate params = None ->
      http_NewRequest_error ctx http_MethodGet url = None ->
      exec_calls (papi.GetEdgeHostnames ctx params) st
        [mkDispatch (Some (mkRequest http_MethodGet url prefixes ctx)) None])
  /\ (forall params,
      let url := "/papi/v1/edgehostnames/" ++ papi.GH_EdgeHostnameID params
                 ++ "?contractId=" ++ papi.GH_ContractID params
                 ++ "&groupId=" ++ papi.GH_GroupID params
                 ++ options_query (papi.GH_Options params) in
      papi.GetEdgeHostnameRequest_Validate params = None ->
      http_NewRequest_error ctx http_MethodGet url = None ->
      exec_calls (papi.GetEdgeHostname ctx params) st
        [mkDispatch (Some (mkRequest http_MethodGet url prefixes ctx)) None])
  /\ (forall r,
      let url := "/papi/v1/edgehostnames?contractId=" ++ papi.C_ContractID r
                 ++ "&groupId=" ++ papi.C_GroupID r
                 ++ options_query (papi.C_Options r) in
      papi.CreateEdgeHostnameRequest_Validate r = None ->
      http_NewRequest_error ctx http_MethodPost url = None ->
      exec_calls (papi.CreateEdgeHostname ctx r) st
        [mkDispatch (Some (mkRequest http_MethodPost url prefixes ctx))
           (body_of (papi.C_EdgeHostname r))]).
Proof.
  cbv zeta. split; [|split].
  - intros params Hv Hr. unfold exec_calls, papi.GetEdgeHostnames.
    rewrite Hv. cbn -[strings_Join].
    rewrite !append_empty, with_options, !append_assoc.
    unfold http_NewRequestWithContext. rewrite Hr. dispatched.
  - intros params Hv Hr. unfold exec_calls, papi.GetEdgeHostname.
    rewrite Hv. cbn -[strings_Join].
    rewrite !append_empty, with_options, !append_assoc.
    unfold http_NewRequestWithContext. rewrite Hr. dispatched.
  - intros r Hv Hr. unfold exec_calls, papi.CreateEdgeHostname.
    rewrite Hv. cbn -[strings_Join].
    rewrite !append_empty, with_options, !append_assoc.
    unfold http_NewRequestWithContext. rewrite Hr. dispatched.
Qed.

(** X14.  The requests that write a cidr map, for a map that validates:
    CreateCidrMap and UpdateCidrMap send the same request, PUT on
    /config-gtm/v1/domains/<domainName>/cidr-maps/<cidr.Name> with the map
    as body; DeleteCidrMap sends DELETE on that path without body.  Both
    carry the version header, and the request is the one call of [Exec]. *)
Theorem cidr_map_write_requests (ctx : Context) (cidr : gtm.CidrMap)
    (domainName : string) (st : State gtm.gtm) :
  let url := "/config-gtm/v1/domains/" ++ domainName ++ "/cidr-maps/"
             ++ gtm.Name cidr in
  gtm.CidrMap_Validate cidr = None ->
  (http_NewRequest_error ctx http_MethodPut url = None ->
   let put := mkDispatch
                (Some (gtm.setVersionHeader (mkRequest http_MethodPut url ∅ ctx)
                         gtm.schemaVersion))
                (body_of cidr) in
   exec_calls (gtm.CreateCidrMap ctx cidr domainName) st [put]
   /\ exec_calls (gtm.UpdateCidrMap ctx cidr domainName) st [put])
  /\ (http_NewRequest_error ctx http_MethodDelete url = None ->
      exec_calls (gtm.DeleteCidrMap ctx cidr domainName) st
        [mkDispatch
           (Some (gtm.setVersionHeader (mkRequest http_MethodDelete url ∅ ctx)
                    gtm.schemaVersion))
           None]).
Proof.
  cbv zeta. intros Hv. split.
  - intros Hr.
    assert (Hsave : exec_calls (gtm.save cidr ctx domainName) st
              [mkDispatch
                 (Some (gtm.setVersionHeader
                          (mkRequest http_MethodPut
                             ("/config-gtm/v1/domains/" ++ domainName
                              ++ "/cidr-maps/" ++ gtm.Name cidr) ∅ ctx)
                          gtm.schemaVersion))
                 (body_of cidr)]).
    { unfold exec_calls, gtm.save. rewrite Hv. cbn. rewrite append_empty.
      unfold http_NewRequestWithContext. rewrite Hr. dispatched. }
    split; [exact Hsave|].
    unfold exec_calls. rewrite UpdateCidrMap_save. exact Hsave.
  - intros Hr. unfold exec_calls, gtm.DeleteCidrMap. rewrite Hv. cbn.
    rewrite append_empty.
    unfold http_NewRequestWithContext. rewrite Hr. dispatched.
Qed.

(** X15.  The requests of the deactivation operations, for parameters that
    validate, a path that [url.Parse] accepts (as [uri]) and a request that
    can be built.  ListDeactivations parses
    /edgeworkers/v1/ids/<EdgeWorkerID>/deactivations, sets the raw query to
    the encoded query of the parsed URL, with [version] added only when
    Version is not empty, and sends GET on the result.  DeactivateVersion
    sends POST on the same path as parsed, with the Body of the request as
    body.  GetDeactivation sends GET on
    /edgeworkers/v1/ids/<EdgeWorkerID>/deactivations/<DeactivationID> as
    parsed.  The IDs are written in decimal. *)
Theorem deactivation_requests (ctx : Context) (st : State edgeworkers.edgeworkers)
    (uri : url_URL) :
  (forall params,
      let q := URL_Query uri in
      let url := URL_String
                   (URL_set_RawQuery uri
                      (Values_Encode
                         (if bool_decide (edgeworkers.L_Version params = "") then q
                          else Values_Add q "version" (edgeworkers.L_Version params)))) in
      edgeworkers.ListDeactivationsRequest_Validate params = None ->
      url_Parse ("/edgeworkers/v1/ids/" ++ pretty (edgeworkers.L_EdgeWorkerID params)
                 ++ "/deactivations") = Ok uri ->
      http_NewRequest_error ctx http_MethodGet url = None ->
      exec_calls (edgeworkers.ListDeactivations ctx params) st
        [mkDispatch (Some (mkRequest http_MethodGet url ∅ ctx)) None])
  /\ (forall params,
      edgeworkers.DeactivateVersionRequest_Validate params = None ->
      url_Parse ("/edgeworkers/v1/ids/" ++ pretty (edgeworkers.V_EdgeWorkerID params)
                 ++ "/deactivations") = Ok uri ->
      http_NewRequest_error ctx http_MethodPost (URL_String uri) = None ->
      exec_calls (edgeworkers.DeactivateVersion ctx params) st
        [mkDispatch (Some (mkRequest http_MethodPost (URL_String uri) ∅ ctx))
           (body_of (edgeworkers.V_Body params))])
  /\ (forall params,
      edgeworkers.GetDeactivationRequest_Validate params = None ->
      url_Parse ("/edgeworkers/v1/ids/" ++ pretty (edgeworkers.G_EdgeWorkerID params)
                 ++ "/deactivations/"
                 ++ pretty (edgeworkers.G_DeactivationID params)) = Ok uri ->
      http_NewRequest_error ctx http_MethodGet (URL_String uri) = None ->
      exec_calls (edgeworkers.GetDeactivation ctx params) st
        [mkDispatch (Some (mkRequest http_MethodGet (URL_String uri) ∅ ctx)) None]).
Proof.
  cbv zeta. split; [|split].
  - intros params Hv Hu Hr. unfold exec_calls, edgeworkers.ListDeactivations.
    rewrite Hv. cbn. rewrite append_empty, Hu.
    revert Hr. unfold http_NewRequestWithContext.
    repeat case_bool_decide; try contradiction; intros ->; dispatched.
  - intros params Hv Hu Hr. unfold exec_calls, edgeworkers.DeactivateVersion.
    rewrite Hv. cbn. rewrite append_empty, Hu.
    unfold http_NewRequestWithContext. rewrite Hr. dispatched.
  - intros params Hv Hu Hr. unfold exec_calls, edgeworkers.GetDeactivation.
    rewrite Hv. cbn. rewrite append_empty, Hu.
    unfold http_NewRequestWithContext. rewrite Hr. dispatched.
Qed.

(** X16.  The requests of the policy property operations, for a path that
    [url.Parse] accepts (as [uri]) and a request that can be built.
    GetPolicyProperties validates nothing: for every policyID, zero and
    negative ones too, it sends GET on
    /cloudlets/api/v2/policies/<policyID>/properties as parsed.
    DeletePolicyProperty, for parameters that validate, sends DELETE on
    /cloudlets/api/v2/policies/<PolicyID>/properties/<PropertyID>; it leaves
    the parsed URL as it is when Network is empty, and otherwise replaces
    the raw query by the encoded query with [network] set, whatever the
    value of Network. *)
Theorem policy_property_requests (ctx : Context) (st : State cloudlets.cloudlets)
    (uri : url_URL) :
  (forall policyID,
      url_Parse ("/cloudlets/api/v2/policies/" ++ pretty policyID ++ "/properties")
      = Ok uri ->
      http_NewRequest_error ctx http_MethodGet (URL_String uri) = None ->
      exec_calls (cloudlets.GetPolicyProperties ctx policyID) st
        [mkDispatch (Some (mkRequest http_MethodGet (URL_String uri) ∅ ctx)) None])
  /\ (forall params,
      let url :=
        if bool_decide (cloudlets.Network params = "") then URL_String uri
        else URL_String
               (URL_set_RawQuery uri
                  (Values_Encode
                     (Values_Set (URL_Query uri) "network"
                        (cloudlets.Network params)))) in
      cloudlets.DeletePolicyPropertyRequest_Validate params = None ->
      url_Parse ("/cloudlets/api/v2/policies/" ++ pretty (cloudlets.PolicyID params)
                 ++ "/properties/" ++ pretty (cloudlets.PropertyID params))
      = Ok uri ->
      http_NewRequest_error ctx http_MethodDelete url = None ->
      exec_calls (cloudlets.DeletePolicyProperty ctx params) st
        [mkDispatch (Some (mkRequest http_MethodDelete url ∅ ctx)) None]).
Proof.
  cbv zeta. split.
  - intros policyID Hu Hr. unfold exec_calls, cloudlets.GetPolicyProperties.
    cbn. rewrite append_empty, Hu.
    unfold http_NewRequestWithContext. rewrite Hr. dispatched.
  - intros params Hv Hu Hr. unfold exec_calls, cloudlets.DeletePolicyProperty.
    rewrite Hv. cbn. rewrite append_empty, Hu.
    revert Hr. unfold http_NewRequestWithContext.
    repeat case_bool_decide; try contradiction; intros ->; dispatched.
Qed.

(** ** What the answer of the session leads to *)

(** X17.  DeletePolicyProperty accepts the status 204 alone: once [Exec]
    has answered with a response, the operation returns nil on 204 and, on
    every other status (200 and 201 too), an error whose text is
    "delete policy property: " and the status in decimal and which wraps
    ErrDeletePolicyProperty; the body of the response is not read. *)
Theorem DeletePolicyProperty_takes_204_only (ctx : Context)
    (params : cloudlets.DeletePolicyPropertyRequest)
    (st : State cloudlets.cloudlets) (d : Dispatch) (resp : Response) :
  exec_calls (cloudlets.DeletePolicyProperty ctx params) st [d] ->
  answer st d tt = Ok (resp, tt) ->
  fst (cloudlets.DeletePolicyProperty ctx params st)
  = if bool_decide (Resp_StatusCode resp = http_StatusNoContent) then None
    else Some (wrapError ("delete policy property: " ++ pretty (Resp_StatusCode resp))
                 (errorString ErrDeletePolicyProperty)).
Proof.
  intros Hd Hx. case_bool_decide as Hs.
  - by eapply DeletePolicyProperty_success.
  - rewrite (DeletePolicyProperty_failure ctx params st d resp tt Hd Hx Hs).
    cbn. by rewrite append_empty.
Qed.

(** X18.  The error mapper of gtm on a body that cannot be read and on a
    body that decodes.  When the body cannot be read, the mapper does not
    decode: the [Error] has the title "Failed to read error body", the text
    of the read error as detail, the status of the response, and every
    other field empty.
    When the body decodes, the [Error] has every field as decoded and the
    status of the response (whatever the decoder left in StatusCode).  In
    both cases the mapper returns the address of a new object and leaves
    the client and the log of calls as they were. *)
Theorem Error_mapper_on_the_other_bodies (r : Response) (st : State gtm.gtm) :
  exists e,
    gtm.Error_mapper r st
    = (apiError (length (errors_heap st)),
       mkState (client st) (errors_heap st ++ [e])%list (sent st))
    /\ (forall rerr,
          Body r = Err rerr ->
          e = mkError "" "Failed to read error body"
                (error_text (errors_heap st) rerr) "" "" "" (Resp_StatusCode r))
    /\ (forall body e0,
          Body r = Ok body ->
          json_Unmarshal body zero = (e0, None) ->
          e = mkError (Type_ e0) (Title e0) (Detail e0) (Instance_ e0)
                (BehaviorName e0) (ErrorLocation e0) (Resp_StatusCode r)).
Proof.
  destruct (Error_mapper_allocates r st) as (e & Hrun & Hm).
  exists e. split; [exact Hrun|]. unfold gtm.mapped in Hm. split.
  - intros rerr Hb. by rewrite Hb in Hm.
  - intros body e0 Hb Hu. by rewrite Hb, Hu in Hm.
Qed.

(** The error of a failed gtm operation, asked about the sentinels. *)
Lemma gtm_failure_recognised {R} `{Zero R} (op : Op gtm.gtm (R * option error))
    (st : State gtm.gtm) (resp : Response) :
  gtm_failure op st resp ->
  exists err, fst (op st) = (zero, Some err) /\ recognised (snd (op st)) resp err.
Proof.
  intros (e & Hm & Hr & Hh). eexists; split; [exact Hr|].
  unfold recognised. rewrite Hh. cbn. unfold Is.
  rewrite !Is_body_sentinel, deref_fresh, (mapped_StatusCode _ _ _ Hm).
  split; [|done]. by rewrite bool_decide_eq_true_2.
Qed.

(** X19.  The error that a gtm operation returns for a response outside its
    success statuses answers [errors.Is(err, ErrNotFound)] with true exactly
    when the status of the response is 404, whatever the body, and answers
    [errors.Is(err, ErrBadRequest)] with false. *)
Theorem gtm_errors_match_ErrNotFound_by_status (ctx : Context) :
  (forall domainName,
      rejects (gtm.ListCidrMaps ctx domainName) (zero : gtm.CidrMapList)
        (fun s => s <> http_StatusOK) recognised)
  /\ (forall name domainName,
      rejects (gtm.GetCidrMap ctx name domainName) (zero : gtm.CidrMap)
        (fun s => s <> http_StatusOK) recognised)
  /\ (forall cidr domainName,
      rejects (gtm.CreateCidrMap ctx cidr domainName) (zero : gtm.CidrMapResponse)
        (fun s => s <> http_StatusOK /\ s <> http_StatusCreated) recognised
      /\ rejects (gtm.UpdateCidrMap ctx cidr domainName) (zero : gtm.CidrMapResponse)
           (fun s => s <> http_StatusOK /\ s <> http_StatusCreated) recognised
      /\ rejects (gtm.DeleteCidrMap ctx cidr domainName) (zero : gtm.ResponseBody)
           (fun s => s <> http_StatusOK) recognised).
Proof.
  unfold rejects.
  split. { intros; apply gtm_failure_recognised; eapply ListCidrMaps_failure; eauto. }
  split. { intros; apply gtm_failure_recognised; eapply GetCidrMap_failure; eauto. }
  intros cidr domainName. unfold gtm.CreateCidrMap. split; [|split].
  - intros st d resp decoded Hd Hx [Hs Hs'].
    apply gtm_failure_recognised; eapply save_failure; eauto.
  - intros st d resp decoded Hd Hx [Hs Hs'].
    apply gtm_failure_recognised; eapply UpdateCidrMap_failure; eauto.
  - intros; apply gtm_failure_recognised; eapply DeleteCidrMap_failure; eauto.
Qed.

(** ** The cidr map constructors *)

(** X20.  NewCidrMap touches nothing and returns a map with the given name
    and no default datacenter, which does not validate: CreateCidrMap,
    UpdateCidrMap and DeleteCidrMap all return a nil result with an error
    for it, without calling [Exec], until the caller has set
    DefaultDatacenter. *)
Theorem a_new_CidrMap_cannot_be_saved (ctx : Context) (name domainName : string)
    (st : State gtm.gtm) :
  let cidr := fst (gtm.NewCidrMap ctx name st) in
  snd (gtm.NewCidrMap ctx name st) = st
  /\ gtm.Name cidr = name
  /\ refused (gtm.CreateCidrMap ctx cidr domainName) st
  /\ refused (gtm.UpdateCidrMap ctx cidr domainName) st
  /\ refused (gtm.DeleteCidrMap ctx cidr domainName) st.
Proof.
  cbv zeta. cbn.
  assert (Hv : gtm.CidrMap_Validate (gtm.mkCidrMap None [] name []) <> None).
  { unfold gtm.CidrMap_Validate. cbn. by case_bool_decide. }
  split; [done|]. split; [done|]. split; [|split].
  - by apply save_refuses.
  - by apply UpdateCidrMap_refuses.
  - by apply DeleteCidrMap_refuses.
Qed.

(** X21.  UpdateCidrMap is CreateCidrMap with the result narrowed: on the
    same arguments and store both leave the same store (so they send the
    same request and allocate the same error) and return the same error,
    and UpdateCidrMap returns the Status of the response that CreateCidrMap
    returns, nil when CreateCidrMap returns an error. *)
Theorem UpdateCidrMap_narrows_CreateCidrMap (ctx : Context) (cidr : gtm.CidrMap)
    (domainName : string) (st : State gtm.gtm) :
  let created := gtm.CreateCidrMap ctx cidr domainName st in
  let updated := gtm.UpdateCidrMap ctx cidr domainName st in
  snd updated = snd created
  /\ snd (fst updated) = snd (fst created)
  /\ fst (fst updated)
     = match fst created with
       | (Some response, None) => gtm.CidrMapResponse_Status response
       | _ => None
       end.
Proof.
  cbv zeta. unfold gtm.CreateCidrMap. rewrite UpdateCidrMap_save. cbn.
  by destruct (gtm.save cidr ctx domainName st) as [[[stat|] [err|]] st'].
Qed.

End failures.

(** ** The [Is] method of gtm as a relation *)

Section equivalence.
Context `{Platform}.
Variable h : heap.

(** X22.  On targets that are [*Error] values the [Is] method of gtm is an
    equivalence relation: every error is equivalent to itself, [e.Is(t)]
    and [t.Is(e)] agree, and equivalence is transitive. *)
Theorem Is_is_an_equivalence_on_typed_targets :
  (forall e, Is h e (apiError e) = true)
  /\ (forall e t, Is h e (apiError t) = Is h t (apiError e))
  /\ (forall a b c,
        Is h a (apiError b) = true -> Is h b (apiError c) = true ->
        Is h a (apiError c) = true).
Proof.
  split; [|split].
  - intros e. apply Is_true_iff. right. by exists e.
  - intros e t. apply eq_true_iff_eq. rewrite !Is_true_iff. cbn.
    rewrite !bool_decide_eq_true. split.
    + intros [[Ht He]|(x & Hx & Hs & Hm)]; [by left|].
      simplify_eq. right. by exists e.
    + intros [[Ht He]|(x & Hx & Hs & Hm)]; [by left|].
      simplify_eq. right. by exists t.
  - intros a b c. rewrite !Is_true_iff. cbn. rewrite !bool_decide_eq_true.
    intros [[Hb Ha]|(x & Hx & Hs & Hm)] [[Hc Hb']|(y & Hy & Hs' & Hm')];
      repeat match goal with Hq : Some _ = Some _ |- _ => injection Hq as <- end.
    + by left.
    + left. split; congruence.
    + left. split; congruence.
    + right. exists c. repeat split; congruence.
Qed.

(** X23.  A target that has an [*Error] on its chain is compared as that
    [*Error]: the wrapping around it (any number of [fmt.Errorf] with
    [%w]) changes nothing in the answer of [Is]. *)
Theorem Is_depends_on_the_first_typed_error (e t : ptr) (target : error) :
  errors_As target = Some t ->
  Is h e target = Is h e (apiError t).
Proof.
  induction target as [s|msg inner IH|msg|p|code message|es|msg];
    cbn; intros Has; try discriminate.
  - rewrite <- (IH Has). reflexivity.
  - by injection Has as ->.
Qed.

(** X24.  A target with no [*Error] on its chain matches exactly when the
    status of the receiver is 404 and ErrNotFound is on the chain of the
    target: ErrBadRequest, the sentinels of the other packages, validation
    errors and errors made outside the packages never match. *)
Theorem Is_on_untyped_targets (e : ptr) (target : error) :
  errors_As target = None ->
  Is h e target = true
  <-> StatusCode (deref h e) = http_StatusNotFound
      /\ errors_Is (fun _ _ => false) target gtm_ErrNotFound = true.
Proof.
  intros Has. rewrite Is_true_iff, Has.
  assert (Hm : matches_not_found h target
               = errors_Is (fun _ _ => false) target gtm_ErrNotFound).
  { induction target; cbn in *; auto; discriminate. }
  rewrite Hm. split.
  - intros [[? ?]|(t & ? & _)]; [done|discriminate].
  - intros [? ?]. by left.
Qed.

End equivalence.

(** ** The client constructors *)

(** The options are applied in order: what the first struct satisfies and
    every option preserves, the last struct satisfies. *)
Lemma apply_options_invariant {C} (P : C -> Prop) (opts : list (C -> C)) (c : C) :
  P c -> Forall (fun opt => forall c, P c -> P (opt c)) opts ->
  P (apply_options opts c).
Proof.
  unfold apply_options. revert c.
  induction opts as [|opt opts IH]; intros c Hc Hopts; cbn; [done|].
  apply Forall_cons in Hopts as [Hopt Hopts]. apply IH; auto.
Qed.

(** X25.  The constructors of networklists, cps and datastream change
    nothing of their own: the client they return satisfies every property
    that holds of the struct made from the session (with usePrefixes false
    in networklists) and that each of the options preserves.  So with
    options that leave the session alone, the client embeds the session
    given. *)
Theorem Client_keeps_what_the_options_keep (sess : Session) :
  (forall (P : networklists.networklists -> Prop) opts,
      P (networklists.mknetworklists sess false) ->
      Forall (fun opt => forall c, P c -> P (opt c)) opts ->
      P (networklists.Client sess opts))
  /\ (forall (P : cps.cps -> Prop) opts,
      P (cps.mkcps sess) ->
      Forall (fun opt => forall c, P c -> P (opt c)) opts ->
      P (cps.Client sess opts))
  /\ (forall (P : datastream.ds -> Prop) opts,
      P (datastream.mkds sess) ->
      Forall (fun opt => forall c, P c -> P (opt c)) opts ->
      P (datastream.Client sess opts)).
Proof.
  split; [|split]; intros P opts; apply apply_options_invariant.
Qed.

(** ** The further properties against the mock *)

Section further_examples.
#[local] Existing Instance Mock.platform.
#[local] Existing Instance Mock.edgeworkers_pkg.
#[local] Existing Instance Mock.gtm_pkg.
#[local] Existing Instance Mock.cloudlets_pkg.
#[local] Existing Instance Mock.papi_pkg.
#[local] Existing Instance Mock.edgeworkers_decoders.
#[local] Existing Instance Mock.gtm_decoders.
#[local] Existing Instance Mock.cloudlets_decoders.
#[local] Existing Instance Mock.papi_decoders.

(** A create request for IPV6_COMPLIANCE, the value that the constant
    [EHIPVersionV6Compliance] is named after, is refused. *)
Lemma CreateEdgeHostname_takes_IPV4_only_witness :
  papi.IPVersionBehavior (papi.C_EdgeHostname Mock.ipv6_create) <> "IPV4"
  /\ refused (papi.CreateEdgeHostname 0%nat Mock.ipv6_create)
       (Mock.start (Mock.prefixed 201 Mock.created_body)).
Proof.
  assert (Hip : papi.IPVersionBehavior (papi.C_EdgeHostname Mock.ipv6_create)
                <> "IPV4") by (cbn; discriminate).
  split; [exact Hip|].
  exact (proj2 (CreateEdgeHostname_takes_IPV4_only 0%nat Mock.ipv6_create
                  (Mock.start (Mock.prefixed 201 Mock.created_body)) Hip)).
Defined.

(** A list request without EdgeWorker ID: the error names the operation in
    its text and wraps ErrStructValidation. *)
Lemma validation_errors_wrap_the_validation_sentinel_witness :
  let params := {| edgeworkers.L_EdgeWorkerID := 0;
                   edgeworkers.L_Version := "1.0" |} in
  let st := Mock.start (Mock.plain 200 "{}") in
  edgeworkers.ListDeactivationsRequest_Validate params
  = Some (validation_Errors {[ "EdgeWorkerID" := validation.ErrRequired ]})
  /\ edgeworkers.ListDeactivations 0%nat params st
     = ((None,
         Some (wrapError
                 "list deactivations: struct validation: EdgeWorkerID: cannot be blank."
                 (errorString edgeworkers_ErrStructValidation))), st).
Proof.
  cbv zeta.
  assert (Hv : edgeworkers.ListDeactivationsRequest_Validate
                 {| edgeworkers.L_EdgeWorkerID := 0;
                    edgeworkers.L_Version := "1.0" |}
               = Some (validation_Errors
                         {[ "EdgeWorkerID" := validation.ErrRequired ]}))
    by (vm_compute; reflexivity).
  split; [exact Hv|].
  destruct (validation_errors_wrap_the_validation_sentinel 0%nat) as (Hlist & _).
  rewrite (Hlist _ (Mock.start (Mock.plain 200 "{}")) _ Hv).
  vm_compute. reflexivity.
Defined.

(** The server cannot be reached: ListDeactivations keeps the text of the
    dial error and wraps its sentinel. *)
Lemma transport_errors_become_text_witness :
  fst (edgeworkers.ListDeactivations 0%nat
         {| edgeworkers.L_EdgeWorkerID := 42; edgeworkers.L_Version := "" |}
         (Mock.start {| Mock.embedded := Mock.unreachable |}))
  = (None,
     Some (wrapError
             "list deactivations: request failed: dial tcp 127.0.0.1:443: connect: connection refused"
             (errorString ErrListDeactivations))).
Proof.
  destruct (transport_errors_become_text 0%nat) as (Hlist & _).
  exact (Hlist {| edgeworkers.L_EdgeWorkerID := 42; edgeworkers.L_Version := "" |}
           (Mock.start {| Mock.embedded := Mock.unreachable |})
           _ Mock.connection_refused eq_refl eq_refl).
Defined.

(** The same for GetCidrMap, which wraps the dial error itself. *)
Lemma transport_errors_stay_on_the_chain_witness :
  fst (gtm.GetCidrMap 0%nat "The North" "example.akadns.net"
         (Mock.start {| Mock.embedded := Mock.unreachable |}))
  = (None,
     Some (wrapError
             "GetCidrMap request failed: dial tcp 127.0.0.1:443: connect: connection refused"
             Mock.connection_refused)).
Proof.
  destruct (transport_errors_stay_on_the_chain 0%nat) as (_ & Hget & _).
  exact (Hget "The North" "example.akadns.net"
           (Mock.start {| Mock.embedded := Mock.unreachable |})
           _ Mock.connection_refused eq_refl eq_refl).
Defined.

(** GetEdgeHostnames with two options and a client that uses prefixes. *)
Lemma edge_hostname_requests_witness :
  exec_calls
    (papi.GetEdgeHostnames 0%nat
       {| papi.GHs_ContractID := "ctr_1"; papi.GHs_GroupID := "grp_2";
          papi.GHs_Options := ["opt1"; "opt2"] |})
    (Mock.start (Mock.prefixed 200 "{}"))
    [mkDispatch
       (Some (mkRequest "GET"
                "/papi/v1/edgehostnames?contractId=ctr_1&groupId=grp_2&options=opt1,opt2"
                (Header_Set ∅ "PAPI-Use-Prefixes" "true") 0%nat))
       None].
Proof.
  destruct (edge_hostname_requests (H3 := Mock.papi_pkg) 0%nat (Mock.start (Mock.prefixed 200 "{}")))
    as (Hlist & _).
  assert (Hv : papi.GetEdgeHostnamesRequest_Validate
                 {| papi.GHs_ContractID := "ctr_1"; papi.GHs_GroupID := "grp_2";
                    papi.GHs_Options := ["opt1"; "opt2"] |} = None)
    by (vm_compute; reflexivity).
  exact (Hlist _ Hv eq_refl).
Defined.

(** The map [The North] of the domain [example.akadns.net] is put and
    deleted at its path; the name goes into the path as it is. *)
Lemma cidr_map_write_requests_witness :
  gtm.CidrMap_Validate Mock.the_north = None
  /\ exec_calls (gtm.UpdateCidrMap 0%nat Mock.the_north "example.akadns.net")
       (Mock.start (Mock.plain 200 "{}"))
       [mkDispatch
          (Some (gtm.setVersionHeader
                   (mkRequest "PUT"
                      "/config-gtm/v1/domains/example.akadns.net/cidr-maps/The North"
                      ∅ 0%nat) gtm.schemaVersion))
          (body_of Mock.the_north)]
  /\ exec_calls (gtm.DeleteCidrMap 0%nat Mock.the_north "example.akadns.net")
       (Mock.start (Mock.plain 200 "{}"))
       [mkDispatch
          (Some (gtm.setVersionHeader
                   (mkRequest "DELETE"
                      "/config-gtm/v1/domains/example.akadns.net/cidr-maps/The North"
                      ∅ 0%nat) gtm.schemaVersion))
          None].
Proof.
  assert (Hv : gtm.CidrMap_Validate Mock.the_north = None) by reflexivity.
  split; [exact Hv|].
  destruct (cidr_map_write_requests 0%nat Mock.the_north "example.akadns.net"
              (Mock.start (Mock.plain 200 "{}")) Hv) as (Hput & Hdel).
  split; [exact (proj2 (Hput eq_refl))|exact (Hdel eq_refl)].
Defined.

(** ListDeactivations with and without a version. *)
Lemma deactivation_requests_witness :
  exec_calls
    (edgeworkers.ListDeactivations 0%nat
       {| edgeworkers.L_EdgeWorkerID := 42; edgeworkers.L_Version := "1.0" |})
    (Mock.start (Mock.plain 200 "{}"))
    [mkDispatch
       (Some (mkRequest "GET" "/edgeworkers/v1/ids/42/deactivations?version=1.0"
                ∅ 0%nat)) None]
  /\ exec_calls
       (edgeworkers.ListDeactivations 0%nat
          {| edgeworkers.L_EdgeWorkerID := 42; edgeworkers.L_Version := "" |})
       (Mock.start (Mock.plain 200 "{}"))
       [mkDispatch
          (Some (mkRequest "GET" "/edgeworkers/v1/ids/42/deactivations" ∅ 0%nat))
          None].
Proof.
  destruct (deactivation_requests (H := Mock.platform) (H0 := Mock.edgeworkers_pkg) 0%nat (Mock.start (Mock.plain 200 "{}"))
              ("/edgeworkers/v1/ids/42/deactivations", "")) as (Hlist & _).
  assert (Hv : forall version,
             edgeworkers.ListDeactivationsRequest_Validate
               {| edgeworkers.L_EdgeWorkerID := 42;
                  edgeworkers.L_Version := version |} = None)
    by (intros version; vm_compute; reflexivity).
  split.
  - exact (Hlist {| edgeworkers.L_EdgeWorkerID := 42;
                    edgeworkers.L_Version := "1.0" |} (Hv "1.0") eq_refl eq_refl).
  - exact (Hlist {| edgeworkers.L_EdgeWorkerID := 42;
                    edgeworkers.L_Version := "" |} (Hv "") eq_refl eq_refl).
Defined.

(** GetPolicyProperties for the policy 0, and DeletePolicyProperty on the
    staging network. *)
Lemma policy_property_requests_witness :
  exec_calls (cloudlets.GetPolicyProperties 0%nat 0)
    (Mock.start (Mock.plain 200 "{}"))
    [mkDispatch
       (Some (mkRequest "GET" "/cloudlets/api/v2/policies/0/properties" ∅ 0%nat))
       None]
  /\ exec_calls
       (cloudlets.DeletePolicyProperty 0%nat
          {| cloudlets.PolicyID := 7; cloudlets.PropertyID := 9;
             cloudlets.Network := "staging" |})
       (Mock.start (Mock.plain 204 ""))
       [mkDispatch
          (Some (mkRequest "DELETE"
                   "/cloudlets/api/v2/policies/7/properties/9?network=staging"
                   ∅ 0%nat)) None].
Proof.
  split.
  - destruct (policy_property_requests (H := Mock.platform) (H2 := Mock.cloudlets_pkg) 0%nat (Mock.start (Mock.plain 200 "{}"))
                ("/cloudlets/api/v2/policies/0/properties", "")) as (Hget & _).
    exact (Hget 0 eq_refl eq_refl).
  - destruct (policy_property_requests (H := Mock.platform) (H2 := Mock.cloudlets_pkg) 0%nat (Mock.start (Mock.plain 204 ""))
                ("/cloudlets/api/v2/policies/7/properties/9", "")) as (_ & Hdel).
    assert (Hv : cloudlets.DeletePolicyPropertyRequest_Validate
                   {| cloudlets.PolicyID := 7; cloudlets.PropertyID := 9;
                      cloudlets.Network := "staging" |} = None)
      by (vm_compute; reflexivity).
    exact (Hdel _ Hv eq_refl eq_refl).
Defined.

(** DeletePolicyProperty takes the answer 200 for a failure. *)
Lemma DeletePolicyProperty_takes_204_only_witness :
  fst (cloudlets.DeletePolicyProperty 0%nat Mock.valid_delete
         (Mock.start (Mock.plain 200 "{}")))
  = Some (wrapError "delete policy property: 200"
            (errorString ErrDeletePolicyProperty)).
Proof.
  exact (DeletePolicyProperty_takes_204_only 0%nat Mock.valid_delete
           (Mock.start (Mock.plain 200 "{}")) _ (mkResponse 200 (Ok "{}"))
           eq_refl eq_refl).
Defined.

(** The mapper on a body that cannot be read, and on the problem-details
    body. *)
Lemma Error_mapper_on_the_other_bodies_witness :
  let st := Mock.start (Mock.plain 502 "") in
  gtm.Error_mapper (mkResponse 502 (Err (foreignError "unexpected EOF"))) st
  = (apiError 0%nat,
     mkState (client st)
       [mkError "" "Failed to read error body" "unexpected EOF" "" "" "" 502] [])
  /\ gtm.Error_mapper (mkResponse 500 (Ok Mock.problem_body)) st
     = (apiError 0%nat,
        mkState (client st)
          [mkError "internal_error" "Internal Server Error"
             "Error fetching cidrmap" "" "" "" 500] []).
Proof.
  cbv zeta. split.
  - destruct (Error_mapper_on_the_other_bodies (H1 := Mock.gtm_pkg)
                (mkResponse 502 (Err (foreignError "unexpected EOF")))
                (Mock.start (Mock.plain 502 ""))) as (e & Hrun & Hread & _).
    rewrite Hrun, (Hread _ eq_refl). reflexivity.
  - destruct (Error_mapper_on_the_other_bodies (H1 := Mock.gtm_pkg)
                (mkResponse 500 (Ok Mock.problem_body))
                (Mock.start (Mock.plain 502 ""))) as (e & Hrun & _ & Hdec).
    rewrite Hrun, (Hdec _ _ eq_refl eq_refl). reflexivity.
Defined.

(** GetCidrMap on a 404 answer: the error matches ErrNotFound. *)
Lemma gtm_errors_match_ErrNotFound_by_status_witness :
  let st := Mock.start (Mock.plain 404 "{}") in
  let op := gtm.GetCidrMap 0%nat "The North" "example.akadns.net" in
  exists err,
    fst (op st) = (None, Some err)
    /\ errors_Is (Is (errors_heap (snd (op st)))) err gtm_ErrNotFound = true
    /\ errors_Is (Is (errors_heap (snd (op st)))) err gtm_ErrBadRequest = false.
Proof.
  cbv zeta.
  destruct (gtm_errors_match_ErrNotFound_by_status 0%nat) as (_ & Hget & _).
  destruct (Hget "The North" "example.akadns.net"
              (Mock.start (Mock.plain 404 "{}"))
              _ (mkResponse 404 (Ok "{}")) zero eq_refl eq_refl)
    as (err & Hr & Hnf & Hbr); [discriminate|].
  exists err. split; [exact Hr|]. split; [exact Hnf|exact Hbr].
Defined.

(** Three errors of status 404 with three titles: the first is equivalent
    to the second and the second to the third, so the first to the third. *)
Lemma Is_is_an_equivalence_on_typed_targets_witness :
  let h := [mkError "" "first" "" "" "" "" 404;
            mkError "" "second" "" "" "" "" 404;
            mkError "" "third" "" "" "" "" 404] in
  Is h 0%nat (apiError 1%nat) = true
  /\ Is h 1%nat (apiError 2%nat) = true
  /\ Is h 0%nat (apiError 2%nat) = true.
Proof.
  cbv zeta.
  destruct (Is_is_an_equivalence_on_typed_targets
              [mkError "" "first" "" "" "" "" 404;
               mkError "" "second" "" "" "" "" 404;
               mkError "" "third" "" "" "" "" 404]) as (_ & _ & Htrans).
  split; [reflexivity|]. split; [reflexivity|].
  exact (Htrans 0%nat 1%nat 2%nat eq_refl eq_refl).
Defined.

(** A 500 error compared with a wrapped [*Error]: the wrapping does not
    count. *)
Lemma Is_depends_on_the_first_typed_error_witness :
  let h := [mkError "" "some error" "" "" "" "" 500;
            mkError "" "some error" "" "" "" "" 500] in
  let target := wrapError "GetCidrMap: some error" (apiError 1%nat) in
  errors_As target = Some 1%nat
  /\ Is h 0%nat target = Is h 0%nat (apiError 1%nat).
Proof.
  cbv zeta. split; [reflexivity|].
  exact (Is_depends_on_the_first_typed_error
           [mkError "" "some error" "" "" "" "" 500;
            mkError "" "some error" "" "" "" "" 500]
           0%nat 1%nat (wrapError "GetCidrMap: some error" (apiError 1%nat))
           eq_refl).
Defined.

(** A 404 error matches a wrapped ErrNotFound, and not ErrBadRequest. *)
Lemma Is_on_untyped_targets_witness :
  let h := [mkError "" "" "" "" "" "" 404] in
  Is h 0%nat (wrapError "lookup failed" (errorString gtm_ErrNotFound)) = true
  /\ Is h 0%nat (errorString gtm_ErrBadRequest) <> true.
Proof.
  cbv zeta. split.
  - apply (proj2 (Is_on_untyped_targets [mkError "" "" "" "" "" "" 404] 0%nat
                    (wrapError "lookup failed" (errorString gtm_ErrNotFound))
                    eq_refl)).
    split; reflexivity.
  - intros Hi.
    apply (proj1 (Is_on_untyped_targets [mkError "" "" "" "" "" "" 404] 0%nat
                    (errorString gtm_ErrBadRequest) eq_refl)) in Hi.
    destruct Hi as [_ Hi]. discriminate Hi.
Defined.

(** An option that sets the flag leaves the session alone: the client
    embeds the session given. *)
Lemma Client_keeps_what_the_options_keep_witness :
  let sess := Mock.server 200 "{}" in
  networklists.nl_Session
    (networklists.Client sess
       [fun c => networklists.mknetworklists (networklists.nl_Session c) true])
  = sess.
Proof.
  cbv zeta.
  destruct (Client_keeps_what_the_options_keep (Mock.server 200 "{}"))
    as (Hnl & _).
  apply (Hnl (fun c => networklists.nl_Session c = Mock.server 200 "{}")).
  - reflexivity.
  - repeat constructor. intros c Hc. exact Hc.
Defined.

End further_examples.

Section further_examples_without_requests.
#[local] Existing Instance Mock.platform_without_requests.
#[local] Existing Instance Mock.edgeworkers_pkg.
#[local] Existing Instance Mock.gtm_pkg.
#[local] Existing Instance Mock.cloudlets_pkg.
#[local] Existing Instance Mock.papi_pkg.
#[local] Existing Instance Mock.edgeworkers_decoders.
#[local] Existing Instance Mock.gtm_decoders.
#[local] Existing Instance Mock.cloudlets_decoders.
#[local] Existing Instance Mock.papi_decoders.

(** No request can be built: a valid GetEdgeHostnames and a
    GetPolicyProperties are refused. *)
Lemma unbuildable_requests_are_refused_witness :
  (forall method url, http_NewRequest_error 0%nat method url <> None)
  /\ refused (papi.GetEdgeHostnames 0%nat Mock.valid_list)
       (Mock.start (Mock.prefixed 200 "{}"))
  /\ refused (cloudlets.GetPolicyProperties 0%nat 7)
       (Mock.start (Mock.plain 200 "{}")).
Proof.
  assert (Hr : forall method url, http_NewRequest_error 0%nat method url <> None)
    by (intros method url; cbn; discriminate).
  split; [exact Hr|].
  destruct (unbuildable_requests_are_refused 0%nat Hr)
    as (_ & _ & _ & _ & _ & _ & _ & Hget & _ & Hlist & _).
  split; [exact (Hlist _ _)|exact (Hget _ _)].
Defined.

End further_examples_without_requests.
